(** * perf-review-tool: extraction and scoring engine

    A shallow embedding of [parse_csv.py] (class [PerformanceReviewParser])
    and [validate_review.py] (class [ReviewValidator]), and the properties
    of the specification that were checked against them.

    Conventions of the embedding.
    - A Python [str] is a [string]; each character is read as the code
      point of that number, so the texts covered are those whose code
      points lie below 256.  The character predicates below are Python's
      ([str.isspace], [str.isdigit], [str.lower], and the classes [\s],
      [\d], [\w] of the [re] module on [str] patterns) on that range.
    - A [dict] is an association list in insertion order; assigning to a
      key that is present replaces the value in place.
    - Mutable attributes of an object are fields of an explicit state that
      every method takes and returns.
    - Integers are [Z] (scores) or [nat] (lengths and counts).  A finite
      [float] is the rational number it stands for; the division of two
      integers and [round(x, 1)] round to the nearest binary64 number as
      CPython does. *)

From Stdlib Require Import List String Ascii Bool Arith ZArith NArith Lia.
From Stdlib Require Import QArith Qabs DecimalString Sorted.
Import ListNotations.

Close Scope Q_scope.
Local Open Scope string_scope.
Local Open Scope list_scope.

(* ================================================================== *)
(** * Python strings *)
(* ================================================================== *)

Module PyStr.

Definition code (c : ascii) : N := N_of_ascii c.

Definition between (lo hi n : N) : bool := (N.leb lo n && N.leb n hi)%bool.

(** [str.isspace] on one character; also the class [\s]. *)
Definition isspace (c : ascii) : bool :=
  let n := code c in
  (between 9 13 n || between 28 32 n || N.eqb n 133 || N.eqb n 160)%bool.

(** [str.isdigit] on one character: the decimal digits and the
    superscripts two, three and one. *)
Definition isdigit (c : ascii) : bool :=
  let n := code c in
  (between 48 57 n || N.eqb n 178 || N.eqb n 179 || N.eqb n 185)%bool.

(** The class [\d]: decimal digits only. *)
Definition isdecimal (c : ascii) : bool := between 48 57 (code c).

(** The class [\w]: alphanumeric characters and the underscore. *)
Definition isword (c : ascii) : bool :=
  let n := code c in
  (between 48 57 n || between 65 90 n || N.eqb n 95 || between 97 122 n
   || N.eqb n 170 || N.eqb n 178 || N.eqb n 179 || N.eqb n 181
   || N.eqb n 185 || N.eqb n 186 || between 188 190 n
   || between 192 214 n || between 216 246 n || between 248 255 n)%bool.

Definition lower_char (c : ascii) : ascii :=
  let n := code c in
  if (between 65 90 n || (between 192 222 n && negb (N.eqb n 215)))%bool
  then ascii_of_N (n + 32) else c.

(** [str.upper] on one character.  The sharp s becomes two letters; the
    upper-case forms of the micro sign and of y with diaeresis lie above
    255 and are not represented: those two characters are left as they
    are. *)
Definition upper_char (c : ascii) : string :=
  let n := code c in
  if (between 97 122 n || (between 224 254 n && negb (N.eqb n 247)))%bool
  then String (ascii_of_N (n - 32)) ""
  else if N.eqb n 223 then "SS"
  else String c "".

Fixpoint lower (s : string) : string :=
  match s with
  | "" => ""
  | String c s' => String (lower_char c) (lower s')
  end.

Fixpoint upper (s : string) : string :=
  match s with
  | "" => ""
  | String c s' => upper_char c ++ upper s'
  end.

(** Truth value of a string: non-empty. *)
Definition truthy (s : string) : bool :=
  match s with "" => false | _ => true end.

(** [s.startswith(p)] *)
Fixpoint startswith (p s : string) : bool :=
  match p, s with
  | "", _ => true
  | String a p', String b s' => (Ascii.eqb a b && startswith p' s')%bool
  | _, "" => false
  end.

(** [sub in s] *)
Fixpoint contains (sub s : string) : bool :=
  (startswith sub s ||
   match s with
   | "" => false
   | String _ s' => contains sub s'
   end)%bool.

(** [any(pred(ch) for ch in s)] *)
Fixpoint any_char (pred : ascii -> bool) (s : string) : bool :=
  match s with
  | "" => false
  | String c s' => (pred c || any_char pred s')%bool
  end.

Fixpoint all_char (pred : ascii -> bool) (s : string) : bool :=
  match s with
  | "" => true
  | String c s' => (pred c && all_char pred s')%bool
  end.

Fixpoint lstrip (s : string) : string :=
  match s with
  | "" => ""
  | String c s' => if isspace c then lstrip s' else s
  end.

Fixpoint rstrip (s : string) : string :=
  match s with
  | "" => ""
  | String c s' =>
      let r := rstrip s' in
      if (isspace c && negb (truthy r))%bool then "" else String c r
  end.

(** [s.strip()] *)
Definition strip (s : string) : string := rstrip (lstrip s).

Definition rev_string (l : list ascii) : string :=
  string_of_list_ascii (rev l).

(** [s.split()]: the maximal runs of non-space characters.  [cur] holds
    the current run, last character first. *)
Fixpoint split_ws_aux (s : string) (cur : list ascii) : list string :=
  match s with
  | "" => match cur with [] => [] | _ => [rev_string cur] end
  | String c s' =>
      if isspace c
      then match cur with
           | [] => split_ws_aux s' []
           | _ => rev_string cur :: split_ws_aux s' []
           end
      else split_ws_aux s' (c :: cur)
  end.

Definition split_ws (s : string) : list string := split_ws_aux s [].

(** [s.split(sep)] for a non-empty separator: cut at each occurrence of
    [sep], left to right, occurrences not overlapping.  [skip] counts the
    characters of a separator still to pass over. *)
Fixpoint split_aux (sep s : string) (skip : nat) (cur : list ascii)
  : list string :=
  match s with
  | "" => [rev_string cur]
  | String c s' =>
      match skip with
      | S k => split_aux sep s' k cur
      | O =>
          if startswith sep s
          then rev_string cur :: split_aux sep s' (String.length sep - 1) []
          else split_aux sep s' 0 (c :: cur)
      end
  end.

Definition split (sep s : string) : list string := split_aux sep s 0 [].

(** [sep.join(l)] *)
Fixpoint join (sep : string) (l : list string) : string :=
  match l with
  | [] => ""
  | [x] => x
  | x :: l' => x ++ sep ++ join sep l'
  end.

(** [str(n)] for a natural number. *)
Definition of_nat (n : nat) : string :=
  NilEmpty.string_of_uint (Nat.to_uint n).

(** [s[i:j]] for [i <= j]. *)
Definition slice (i j : nat) (s : string) : string := substring i (j - i) s.

Fixpoint drop (n : nat) (s : string) : string :=
  match n, s with
  | O, _ => s
  | S k, String _ s' => drop k s'
  | S _, "" => ""
  end.

(** [len(set(l))] *)
Definition count_distinct {A : Type} (dec : forall x y : A, {x = y} + {x <> y})
  (l : list A) : nat := List.length (nodup dec l).

(** [sorted(l)] on strings: insertion into an ordered list, by code
    point. *)
Fixpoint insert_sorted (x : string) (l : list string) : list string :=
  match l with
  | [] => [x]
  | y :: l' => if String.leb x y then x :: l else y :: insert_sorted x l'
  end.

Definition sorted (l : list string) : list string :=
  fold_right insert_sorted [] l.

End PyStr.

(* ================================================================== *)
(** * Regular expressions *)
(* ================================================================== *)

(** The patterns of the program are sequences of single-character items
    (possibly repeated), word boundaries, alternations of literal words and
    capture groups that do not nest.  The matcher below is the backtracking
    search of Python's [re] on such sequences, with [re.IGNORECASE]:
    repetitions are greedy and give characters back one at a time,
    alternatives are tried in the order written. *)

Module Re.
Import PyStr.

Inductive cls : Type :=
| Chr (c : ascii)          (* a literal character *)
| Beyond (n : N)           (* a literal character of code point n > 255 *)
| Digit                    (* \d *)
| Space                    (* \s *)
| Range (lo hi : ascii).   (* [lo-hi] *)

Inductive item : Type :=
| One (c : cls)            (* x *)
| Star (c : cls)           (* x* *)
| Opt (c : cls)            (* x? *)
| WordB                    (* \b *)
| Alt (alts : list string) (* w1|w2|... inside its own group *)
| Open                     (* opening parenthesis of a capture group *)
| Close.                   (* its closing parenthesis *)

Definition pattern : Type := list item.

(** [x+] is [xx*]. *)
Definition Plus (c : cls) : pattern := [One c; Star c].

(** A literal word, character by character. *)
Fixpoint Lit (w : string) : pattern :=
  match w with
  | "" => []
  | String c w' => One (Chr c) :: Lit w'
  end.

Definition cmatch (c : cls) (x : ascii) : bool :=
  match c with
  | Chr a => Ascii.eqb (lower_char x) (lower_char a)
  | Beyond _ => false
  | Digit => isdecimal x
  | Space => isspace x
  | Range lo hi => between (code lo) (code hi) (code x)
  end.

Definition word_opt (o : option ascii) : bool :=
  match o with Some c => isword c | None => false end.

Definition head_opt (s : string) : option ascii :=
  match s with "" => None | String c _ => Some c end.

(** [eat w s]: [s] starts with the word [w] up to case; gives the rest of
    [s] and the last character passed. *)
Fixpoint eat (w s : string) (last : option ascii)
  : option (string * option ascii) :=
  match w with
  | "" => Some (s, last)
  | String a w' =>
      match s with
      | "" => None
      | String x s' => if cmatch (Chr a) x then eat w' s' (Some x) else None
      end
  end.

(** Spans of the capture groups closed so far, last one first. *)
Definition spans : Type := list (nat * nat).

(** [m p prev s pos op caps]: match [p] at position [pos], where [s] is the
    text from [pos] on, [prev] the character before [pos], [op] the
    position of the last opening parenthesis.  Gives the end of the match
    and the spans of the groups, in order. *)
Fixpoint m (p : pattern)
  : option ascii -> string -> nat -> nat -> spans -> option (nat * spans) :=
  match p with
  | [] => fun _ _ pos _ caps => Some (pos, rev caps)
  | One c :: p' => fun _ s pos op caps =>
      match s with
      | String x s' =>
          if cmatch c x then m p' (Some x) s' (S pos) op caps else None
      | "" => None
      end
  | Star c :: p' =>
      fix star (prev : option ascii) (s : string) (pos op : nat)
               (caps : spans) {struct s} : option (nat * spans) :=
        match s with
        | String x s' =>
            if cmatch c x
            then match star (Some x) s' (S pos) op caps with
                 | Some r => Some r
                 | None => m p' prev s pos op caps
                 end
            else m p' prev s pos op caps
        | "" => m p' prev s pos op caps
        end
  | Opt c :: p' => fun prev s pos op caps =>
      match s with
      | String x s' =>
          if cmatch c x
          then match m p' (Some x) s' (S pos) op caps with
               | Some r => Some r
               | None => m p' prev s pos op caps
               end
          else m p' prev s pos op caps
      | "" => m p' prev s pos op caps
      end
  | WordB :: p' => fun prev s pos op caps =>
      if xorb (word_opt prev) (word_opt (head_opt s))
      then m p' prev s pos op caps else None
  | Alt alts :: p' => fun prev s pos op caps =>
      (fix try (l : list string) : option (nat * spans) :=
         match l with
         | [] => None
         | w :: l' =>
             match eat w s prev with
             | Some (s', last) =>
                 match m p' last s' (pos + String.length w) op caps with
                 | Some r => Some r
                 | None => try l'
                 end
             | None => try l'
             end
         end) alts
  | Open :: p' => fun prev s pos _ caps => m p' prev s pos pos caps
  | Close :: p' => fun prev s pos op caps => m p' prev s pos op ((op, pos) :: caps)
  end.

(** A match object: start, end, group spans. *)
Record match_obj : Type := MatchObj {
  m_start : nat;
  m_end : nat;
  m_spans : spans
}.

(** Leftmost match starting at [pos] or later. *)
Fixpoint search_aux (p : pattern) (prev : option ascii) (s : string)
  (pos : nat) : option match_obj :=
  match m p prev s pos pos [] with
  | Some (e, caps) => Some (MatchObj pos e caps)
  | None =>
      match s with
      | "" => None
      | String x s' => search_aux p (Some x) s' (S pos)
      end
  end.

Definition char_before (text : string) (pos : nat) : option ascii :=
  match pos with O => None | S k => String.get k text end.

Definition search_from (p : pattern) (text : string) (pos : nat)
  : option match_obj :=
  search_aux p (char_before text pos) (drop pos text) pos.

(** [re.search(p, text, re.IGNORECASE)] *)
Definition search (p : pattern) (text : string) : option match_obj :=
  search_from p text 0.

(** [match.group(0)] *)
Definition group0 (text : string) (mo : match_obj) : string :=
  slice (m_start mo) (m_end mo) text.

(** [match.groups()]; every group of the patterns here takes part in
    every match, so no entry is [None]. *)
Definition groups (text : string) (mo : match_obj) : list string :=
  map (fun se => slice (fst se) (snd se) text) (m_spans mo).

(** [re.finditer(p, text, re.IGNORECASE)]: successive matches, each search
    starting where the previous match ended.  [fuel] bounds the number of
    matches; [S (length text)] is enough since every round moves forward.
    No pattern of the program matches the empty string; the case of an
    empty match is there for totality and moves one character on. *)
Fixpoint finditer_aux (fuel : nat) (p : pattern) (text : string) (pos : nat)
  : list match_obj :=
  match fuel with
  | O => []
  | S f =>
      match search_from p text pos with
      | None => []
      | Some mo =>
          let next := if Nat.eqb (m_end mo) (m_start mo)
                      then S (m_end mo) else m_end mo in
          if Nat.ltb (String.length text) next then [mo]
          else mo :: finditer_aux f p text next
      end
  end.

Definition finditer (p : pattern) (text : string) : list match_obj :=
  finditer_aux (S (String.length text)) p text 0.

End Re.

(* ================================================================== *)
(** * parse_csv.py *)
(* ================================================================== *)

Module Parser.
Import PyStr Re.

(** One row of [csv.DictReader]: header name to cell text. *)
Definition row : Type := list (string * string).

(** [d.get(key, default)] *)
Fixpoint get (d : list (string * string)) (key default : string) : string :=
  match d with
  | [] => default
  | (k, v) :: d' => if String.eqb k key then v else get d' key default
  end.

Record Objective : Type := mkObjective {
  title : string;
  state : string;
  start_date : string;
  due_date : string;
  progress : string;
  status : string
}.

Record Metric : Type := mkMetric {
  text : string;
  full_context : string;
  groups : list string
}.

Record Summary : Type := mkSummary {
  total_objectives : nat;
  categories : list string;
  category_counts : list (string * nat);
  metrics_count : nat;
  technologies_count : nat
}.

(** The value returned by [parse]. *)
Record Dataset : Type := mkDataset {
  metadata : list (string * string);
  objectives : list (string * list Objective);
  metrics : list Metric;
  technologies : list string;
  summary : Summary
}.

(** The attributes of a [PerformanceReviewParser].  [self_technologies] is
    a set, kept as a list without repetition.  The file at [csv_path] is
    the table handed to [_read_csv]. *)
Record parser : Type := mkParser {
  self_raw_data : list row;
  self_objectives : list (string * list Objective);
  self_metadata : list (string * string);
  self_metrics : list Metric;
  self_technologies : list string
}.

(** [__init__] *)
Definition init : parser := mkParser [] [] [] [] [].

(** [_read_csv] *)
Definition _read_csv (table : list row) (self : parser) : parser :=
  mkParser table (self_objectives self) (self_metadata self)
           (self_metrics self) (self_technologies self).

Definition role_patterns : list pattern := [
  [WordB] ++ Lit "sd" ++ [One (Range "1" "3"); WordB];
  [WordB] ++ Lit "sde" ++ [Star Space; One (Range "1" "3"); WordB];
  [WordB] ++ Lit "staff" ++ Plus Space ++ Lit "engineer" ++ [WordB];
  [WordB] ++ Lit "senior" ++ Plus Space ++ Lit "engineer" ++ [WordB];
  [WordB] ++ Lit "lead" ++ Plus Space ++ Lit "engineer" ++ [WordB];
  [WordB] ++ Lit "principal" ++ Plus Space ++ Lit "engineer" ++ [WordB]
].

(** The loop of [_infer_role] over the patterns. *)
Fixpoint first_role (ps : list pattern) (txt : string) : string :=
  match ps with
  | [] => "UNKNOWN"
  | p :: ps' =>
      match search p txt with
      | Some mo => upper (group0 txt mo)
      | None => first_role ps' txt
      end
  end.

(** The text searched by [_infer_role]. *)
Definition role_text (r : row) : string :=
  lower (get r "Owner" "" ++ " " ++ get r "Title" "").

Definition _infer_role (r : row) : string :=
  first_role role_patterns (role_text r).

(** [_extract_metadata] *)
Definition _extract_metadata (self : parser) : parser :=
  match self_raw_data self with
  | [] => self
  | first_row :: _ =>
      mkParser (self_raw_data self) (self_objectives self)
        [ ("owner", strip (get first_row "Owner" ""));
          ("owner_email", strip (get first_row "Owner Email" ""));
          ("team", strip (get first_row "Teams" ""));
          ("role", _infer_role first_row) ]
        (self_metrics self) (self_technologies self)
  end.

(** [d[key].append(x)] on a [defaultdict(list)]. *)
Fixpoint dd_append {A : Type} (d : list (string * list A)) (key : string)
  (x : A) : list (string * list A) :=
  match d with
  | [] => [(key, [x])]
  | (k, l) :: d' =>
      if String.eqb k key then (k, l ++ [x]) :: d'
      else (k, l) :: dd_append d' key x
  end.

Definition group_row (objs : list (string * list Objective)) (r : row)
  : list (string * list Objective) :=
  let parent := strip (get r "Parent Objective Title" "") in
  let title := strip (get r "Title" "") in
  if (truthy title && truthy parent)%bool
  then dd_append objs parent
         (mkObjective title (get r "State" "") (get r "Start Date" "")
            (get r "Due Date" "") (get r "Progress %" "0")
            (get r "Status" ""))
  else objs.

(** [_group_objectives] *)
Definition _group_objectives (self : parser) : parser :=
  mkParser (self_raw_data self)
    (fold_left group_row (self_raw_data self) (self_objectives self))
    (self_metadata self) (self_metrics self) (self_technologies self).

Definition number : pattern :=
  [Open] ++ Plus Digit ++ [Opt (Chr "."); Star Digit; Close].
Definition integer : pattern := [Open] ++ Plus Digit ++ [Close].
Definition version : pattern :=
  [Open] ++ Plus Digit ++ [One (Chr ".")] ++ Plus Digit ++ [One (Chr ".")]
    ++ Plus Digit ++ [Close].
Definition unit_words : list string :=
  ["s"; "ms"; "hr"; "hrs"; "hours"; "minutes"; "mins"].
Definition percent : pattern := [Star Space; One (Chr "%")].
Definition to_ : pattern := Plus Space ++ Lit "to" ++ Plus Space.

(** The eight patterns of [_extract_metrics].  The sixth is, in the
    source file as it stands, a square-root sign (code point 8730)
    followed by an o with acute accent (243). *)
Definition metric_patterns : list pattern := [
  number ++ percent ++ to_ ++ number ++ percent;
  integer ++ [Star Space; Open; Alt unit_words; Close] ++ to_
    ++ integer ++ [Star Space; Open; Alt unit_words; Close];
  Lit "Rs" ++ Plus Space ++ integer ++ to_ ++ Lit "Rs" ++ Plus Space
    ++ integer;
  version ++ to_ ++ version;
  integer ++ [Opt (Chr "+")] ++ Plus Space
    ++ [Open;
        Alt ["events"; "dependencies"; "items"; "files"; "repositories";
             "repos"];
        Close];
  [Opt (Chr "~")] ++ integer
    ++ [One (Beyond 8730); One (Chr (ascii_of_N 243))] ++ Plus Space
    ++ [Open; Alt ["faster"; "slower"; "more"; "less"]; Close];
  [Opt (Chr "~")] ++ number ++ percent;
  [Alt ["by"; "reduced"]] ++ Plus Space ++ integer ++ percent
].

Definition metrics_of_pattern (title : string) (p : pattern) : list Metric :=
  map (fun mo => mkMetric (group0 title mo) title (Re.groups title mo))
      (finditer p title).

Definition metrics_of_row (r : row) : list Metric :=
  let title := get r "Title" "" in
  flat_map (metrics_of_pattern title) metric_patterns.

(** [_extract_metrics]: every match is appended to [self.metrics]. *)
Definition _extract_metrics (self : parser) : parser :=
  mkParser (self_raw_data self) (self_objectives self) (self_metadata self)
    (self_metrics self ++ flat_map metrics_of_row (self_raw_data self))
    (self_technologies self).

Definition tech_keywords : list string := [
  "React Native"; "MMKV"; "Databricks"; "Mixpanel"; "AsyncStorage";
  "Fabric"; "TurboModules"; "Protobufs"; "Crashlytics"; "SDK";
  "DigiLocker"; "Acko"; "ZeptoLocker"; "AETHER"; "Horizon";
  "CleverTap"; "AppsFlyer"; "KNOW SDK"; "HyperVerge"; "Lucid";
  "ClickHouse"; "Kafka"; "LogChef"; "Storybook"; "Fresco";
  "pdfplumber"; "native-stack"; "KeyboardController";
  "PagerView"; "Android"; "iOS"; "TypeScript"; "JavaScript";
  "Python"; "Node.js"; "API"; "JWT"; "OAuth"
].

(** [s.add(x)] on a set. *)
Definition set_add (s : list string) (x : string) : list string :=
  if existsb (String.eqb x) s then s else s ++ [x].

(** [_extract_technologies]; [re.escape(tech)] makes the keyword a
    literal. *)
Definition _extract_technologies (self : parser) : parser :=
  let all_text :=
    join " " (map (fun r => get r "Title" "") (self_raw_data self)) in
  mkParser (self_raw_data self) (self_objectives self) (self_metadata self)
    (self_metrics self)
    (fold_left
       (fun techs tech =>
          match search (Lit tech) all_text with
          | Some _ => set_add techs tech
          | None => techs
          end)
       tech_keywords (self_technologies self)).

(** [_generate_summary] *)
Definition _generate_summary (self : parser) : Summary :=
  mkSummary
    (list_sum (map (fun kv => List.length (snd kv)) (self_objectives self)))
    (map fst (self_objectives self))
    (map (fun kv => (fst kv, List.length (snd kv))) (self_objectives self))
    (List.length (self_metrics self))
    (List.length (self_technologies self)).

(** [parse].  The returned [metrics] is the parser's own list object. *)
Definition parse (table : list row) (self : parser) : Dataset * parser :=
  let self := _read_csv table self in
  let self := _extract_metadata self in
  let self := _group_objectives self in
  let self := _extract_metrics self in
  let self := _extract_technologies self in
  (mkDataset (self_metadata self) (self_objectives self) (self_metrics self)
     (sorted (self_technologies self)) (_generate_summary self),
   self).

(** [d[key]] on a [dict]; [None] stands for the [KeyError]. *)
Fixpoint getitem (d : list (string * string)) (key : string)
  : option string :=
  match d with
  | [] => None
  | (k, v) :: d' => if String.eqb k key then Some v else getitem d' key
  end.

(** [print_summary].  It calls [parse] again when [self.objectives] is
    empty, and reports on the parser's own attributes otherwise.  The
    first lines it prints read [data['metadata']['owner']], [['team']]
    and [['role']], so it raises [KeyError] when the metadata is the
    empty [dict] of a table without records: the result is then [None].
    Otherwise it gives the summary whose counts are printed and the
    parser afterwards. *)
Definition print_summary (table : list row) (self : parser)
  : option (Summary * parser) :=
  let '(md, printed, self') :=
    match self_objectives self with
    | [] =>
        let '(data, self') := parse table self in
        (metadata data, summary data, self')
    | _ => (self_metadata self, _generate_summary self, self)
    end in
  match getitem md "owner", getitem md "team", getitem md "role" with
  | Some _, Some _, Some _ => Some (printed, self')
  | _, _, _ => None
  end.

(** [main]: a new parser, [parse], then [print_summary]; the file is the
    same at both readings.  Gives the dataset of [parse], the summary that
    is printed, and the parser at the end; [None] when [print_summary]
    raises, which [main] catches to exit with status 1. *)
Definition main (table : list row) : option (Dataset * Summary * parser) :=
  let '(data, self) := parse table init in
  match print_summary table self with
  | Some (printed, self') => Some (data, printed, self')
  | None => None
  end.

End Parser.

(* ================================================================== *)
(** * Python floats *)
(* ================================================================== *)

(** A finite [float] is an IEEE 754 binary64 number: a multiple of a power
    of two with at most 53 significant bits and no bit below [2^-1074].
    It is modelled by the rational number it stands for.  The two
    operations that the report uses are the true division of integers,
    which gives the binary64 number nearest to the exact quotient, and
    [round(x, 1)], which takes the multiple of one tenth nearest to the
    exact value of [x] and gives the binary64 number nearest to it; a tie
    goes to the even neighbour in both.  Quotients too large for a
    [float] do not occur: the scores lie between 0 and 100. *)

Module PyFloat.
Local Open Scope Z_scope.

(** [n / d] rounded to the nearest integer, ties to the even one; [0 < d]. *)
Definition rne (n d : Z) : Z :=
  let k := n / d in
  match 2 * (n mod d) ?= d with
  | Lt => k
  | Gt => k + 1
  | Eq => if Z.even k then k else k + 1
  end.

(** The integer part of the binary logarithm of [a / b]; [0 < a], [0 < b]. *)
Definition floor_log2 (a b : Z) : Z :=
  let l := Z.log2 a - Z.log2 b in
  if (if 0 <=? l then b * 2 ^ l <=? a else b <=? a * 2 ^ (- l))
  then l else l - 1.

(** The exponent of the last binary place of the double nearest to
    [a / b]: 53 significant bits, and no place below [2 ^ -1074]. *)
Definition last_place (a b : Z) : Z := Z.max (floor_log2 a b - 52) (-1074).

(** The double nearest to [a / b], ties to even; [0 < a], [0 < b]. *)
Definition nearest (a b : Z) : Q :=
  let e := last_place a b in
  if 0 <=? e then (rne a (b * 2 ^ e) * 2 ^ e) # 1
  else rne (a * 2 ^ (- e)) b # Z.to_pos (2 ^ (- e)).

(** The double nearest to a rational. *)
Definition fl (q : Q) : Q :=
  match Qnum q with
  | 0 => 0%Q
  | Z.pos _ => nearest (Qnum q) (Z.pos (Qden q))
  | Z.neg _ => Qopp (nearest (- Qnum q) (Z.pos (Qden q)))
  end.

(** [a / b] on integers, [b] not zero. *)
Definition truediv (a : Z) (b : nat) : Q := fl (a # Pos.of_nat b).

(** [round(x, 1)] on a float. *)
Definition round1 (x : Q) : Q :=
  fl (rne (10 * Qnum x) (Z.pos (Qden x)) # 10).

End PyFloat.

(* ================================================================== *)
(** * validate_review.py *)
(* ================================================================== *)

Module Validator.
Import PyStr.
Local Open Scope nat_scope.

(** [d[key]]; [None] stands for [KeyError]. *)
Fixpoint lookup {A : Type} (d : list (string * A)) (key : string) : option A :=
  match d with
  | [] => None
  | (k, v) :: d' => if String.eqb k key then Some v else lookup d' key
  end.

(** [d[key] = v] *)
Fixpoint dict_set {A : Type} (d : list (string * A)) (key : string) (v : A)
  : list (string * A) :=
  match d with
  | [] => [(key, v)]
  | (k, w) :: d' =>
      if String.eqb k key then (k, v) :: d' else (k, w) :: dict_set d' key v
  end.

(** [x in l] for a list of strings. *)
Definition mem (x : string) (l : list string) : bool :=
  existsb (String.eqb x) l.

(** [sum(1 for x in l if pred(x))] *)
Definition count {A : Type} (pred : A -> bool) (l : list A) : nat :=
  List.length (filter pred l).

(** The attributes of a [ReviewValidator]. *)
Record validator : Type := mkValidator {
  metrics_texts : list string;
  technologies : list string;
  role : string;
  team : string
}.

(** [__init__]: fails when the metadata has no role or no team. *)
Definition new (data : Parser.Dataset) : option validator :=
  match lookup (Parser.metadata data) "role",
        lookup (Parser.metadata data) "team" with
  | Some r, Some t =>
      Some (mkValidator (map Parser.text (Parser.metrics data))
              (Parser.technologies data) r t)
  | _, _ => None
  end.

(** The three local variables that the checks of [validate_section]
    update. *)
Record vstate : Type := mkVState {
  errors : list string;
  warnings : list string;
  quality_score : Z
}.

Definition start : vstate := mkVState [] [] 100.

(** [errors.append(msg); quality_score -= pen] *)
Definition error (msg : string) (pen : Z) (st : vstate) : vstate :=
  mkVState (errors st ++ [msg]) (warnings st) (quality_score st - pen)%Z.

(** [warnings.append(msg); quality_score -= pen] *)
Definition warning (msg : string) (pen : Z) (st : vstate) : vstate :=
  mkVState (errors st) (warnings st ++ [msg]) (quality_score st - pen)%Z.

Definition word_count (response : string) : nat :=
  List.length (split_ws response).

Definition metric_sections : list string :=
  ["Engineering/Operation Excellence"; "Tech Initiatives"; "Impact";
   "Ambiguity & Problem Complexity"].

Definition tech_sections : list string :=
  ["Tech Initiatives"; "Engineering/Operation Excellence";
   "Roadmap Delivery"].

Definition generic_phrases : list (string * string) := [
  ("various projects", "Be specific about which projects");
  ("multiple times", "Specify how many times or give examples");
  ("several initiatives", "Name the initiatives");
  ("numerous improvements", "Quantify the improvements");
  ("enhanced quality", "Specify how quality was enhanced");
  ("improved performance", "Use specific metrics");
  ("increased efficiency", "Quantify the efficiency gain");
  ("better experience", "Describe what improved")
].

Definition passive_indicators : list string :=
  ["was implemented"; "were created"; "was developed"; "were completed"].

(** ** The messages *)

Definition msg_too_short (wc : nat) : string :=
  "Response too short (" ++ of_nat wc ++ " words). Need at least 60 words.".
Definition msg_short (wc : nat) : string :=
  "Response is short (" ++ of_nat wc ++ " words). Aim for 80-150 words.".
Definition msg_long (wc : nat) : string :=
  "Response is long (" ++ of_nat wc
    ++ " words). Consider condensing to under 180 words.".
Definition msg_role (r : string) : string :=
  "Response must mention role: '" ++ r ++ "'".
Definition msg_team (t : string) : string :=
  "Response must mention team: '" ++ t ++ "'".
Definition msg_opening : string :=
  "Response should start with 'As an [ROLE] in the [TEAM] Team...'".
Definition msg_no_metrics : string :=
  "No metrics found. Include specific numbers to strengthen the response.".
Definition msg_more_metrics : string :=
  "Consider adding more specific metrics for stronger impact.".
Definition msg_generic (phrase suggestion : string) : string :=
  "Generic phrase detected: '" ++ phrase ++ "'. " ++ suggestion ++ ".".
Definition msg_no_tech : string :=
  "No specific technologies mentioned. Reference actual tools/frameworks used.".
Definition msg_variety : string :=
  "Vary sentence lengths for better readability.".
Definition msg_starts : string :=
  "Avoid starting multiple sentences with the same word.".
Definition msg_no_data : string :=
  "Include specific numbers or metrics to demonstrate impact.".
Definition msg_passive : string :=
  "Use active voice for stronger impact (e.g., 'I implemented' vs 'was implemented').".

(** ** The checks of [validate_section], in the order of the source *)

Section Checks.
Variable self : validator.
Variable section_name : string.
Variable response : string.

(** Check 1: length *)
Definition check_length (st : vstate) : vstate :=
  let wc := word_count response in
  if wc <? 40 then error (msg_too_short wc) 20 st
  else if wc <? 60 then warning (msg_short wc) 5 st
  else if 200 <? wc then warning (msg_long wc) 5 st
  else st.

(** Check 2: role and team mention *)
Definition check_role (st : vstate) : vstate :=
  if (negb (String.eqb (role self) "UNKNOWN")
      && negb (contains (role self) response))%bool
  then error (msg_role (role self)) 15 st else st.

Definition check_team (st : vstate) : vstate :=
  if (truthy (team self) && negb (contains (team self) response))%bool
  then error (msg_team (team self)) 15 st else st.

(** Check 3: opening phrase *)
Definition check_opening (st : vstate) : vstate :=
  if (negb (startswith "As an" response)
      && negb (startswith "As a" response))%bool
  then warning msg_opening 10 st else st.

(** Check 4: metrics *)
Definition metrics_found : nat :=
  count (fun m => contains m response) (metrics_texts self).

Definition check_metrics (st : vstate) : vstate :=
  if (mem section_name metric_sections
      && negb (Nat.eqb (List.length (metrics_texts self)) 0))%bool
  then
    if Nat.eqb metrics_found 0 then warning msg_no_metrics 10 st
    else if metrics_found <? 2 then warning msg_more_metrics 5 st
    else st
  else st.

(** Check 5: generic phrases *)
Definition check_phrase (st : vstate) (ps : string * string) : vstate :=
  if contains (lower (fst ps)) (lower response)
  then warning (msg_generic (fst ps) (snd ps)) 3 st else st.

Definition check_generic (st : vstate) : vstate :=
  fold_left check_phrase generic_phrases st.

(** Check 6: technology mentions *)
Definition techs_found : nat :=
  count (fun t => contains t response) (technologies self).

Definition check_tech (st : vstate) : vstate :=
  if (mem section_name tech_sections
      && negb (Nat.eqb (List.length (technologies self)) 0))%bool
  then if Nat.eqb techs_found 0 then warning msg_no_tech 8 st else st
  else st.

(** Check 7: sentence structure variety *)
Definition sentences : list string := split ". " response.

Definition sentence_lengths : list nat :=
  map (fun s => List.length (split_ws s))
      (filter (fun s => truthy (strip s)) sentences).

Definition check_variety (st : vstate) : vstate :=
  if 3 <=? List.length sentences
  then if count_distinct Nat.eq_dec sentence_lengths <? 2
       then warning msg_variety 3 st else st
  else st.

(** Check 8: repetitive starts *)
Definition sentence_starts : list string :=
  flat_map
    (fun s =>
       if (truthy (strip s) && (0 <? List.length (split_ws (strip s))))%bool
       then [hd "" (split_ws (strip s))] else [])
    sentences.

Definition check_starts (st : vstate) : vstate :=
  if 2 <? List.length sentence_starts
  then if negb (Nat.eqb (List.length sentence_starts)
                  (count_distinct string_dec sentence_starts))
       then warning msg_starts 5 st else st
  else st.

(** Check 9: data-driven language *)
Definition has_data : bool := any_char isdigit response.

Definition check_data (st : vstate) : vstate :=
  if (negb has_data && mem section_name metric_sections)%bool
  then warning msg_no_data 10 st else st.

(** Check 10: active voice *)
Definition passive_count : nat :=
  count (fun ind => contains (lower ind) (lower response)) passive_indicators.

Definition check_passive (st : vstate) : vstate :=
  if 2 <? passive_count then warning msg_passive 5 st else st.

(** The state after the ten checks. *)
Definition run_checks : vstate :=
  check_passive
    (check_data
       (check_starts
          (check_variety
             (check_tech
                (check_generic
                   (check_metrics
                      (check_opening
                         (check_team
                            (check_role
                               (check_length start)))))))))).

(** [validate_section]: errors, warnings, score. *)
Definition validate_section : list string * list string * Z :=
  (errors run_checks, warnings run_checks, Z.max 0 (quality_score run_checks)).

End Checks.

(** ** [validate_full_review] *)

(** A value of the [results] dictionary; the key ['word_count'] may be
    absent. *)
Record section_result : Type := mkResult {
  r_errors : list string;
  r_warnings : list string;
  r_score : Z;
  r_status : string;
  r_word_count : option nat
}.

(** The value of ['summary'] in the report.  [average_score] is
    [round(avg_score, 1)], a [float] (the integer 0 when no section was
    validated). *)
Record report_summary : Type := mkReportSummary {
  average_score : Q;
  total_errors : nat;
  total_warnings : nat;
  sections_validated : nat;
  overall_status : string
}.

Record report : Type := mkReport {
  sections : list (string * section_result);
  summary : report_summary
}.

(** The local variables of the loop. *)
Record acc : Type := mkAcc {
  results : list (string * section_result);
  total_score : Z;
  total_sections : nat;
  all_errors : list string;
  all_warnings : list string
}.

(** [not response or not response.strip()] *)
Definition is_blank (response : string) : bool :=
  (negb (truthy response) || negb (truthy (strip response)))%bool.

Definition section_status (score : Z) : string :=
  if (90 <=? score)%Z then "EXCELLENT"
  else if (75 <=? score)%Z then "GOOD"
  else if (60 <=? score)%Z then "NEEDS_WORK"
  else "POOR".

Definition empty_result : section_result :=
  mkResult ["Section is empty"] [] 0%Z "ERROR" None.

(** The body of the loop over [responses.items()]. *)
Definition step (self : validator) (a : acc) (item : string * string) : acc :=
  let '(section_name, response) := item in
  if is_blank response
  then mkAcc (dict_set (results a) section_name empty_result)
             (total_score a) (total_sections a) (all_errors a)
             (all_warnings a)
  else
    let '(errs, warns, score) := validate_section self section_name response in
    mkAcc
      (dict_set (results a) section_name
         (mkResult errs warns score (section_status score)
            (Some (word_count response))))
      (total_score a + score)%Z (S (total_sections a))
      (all_errors a ++ errs) (all_warnings a ++ warns).

(** [avg_score]: [total_score / total_sections], a [float], or the
    integer 0 when no section was validated. *)
Definition avg_score (a : acc) : Q :=
  if 0 <? total_sections a
  then PyFloat.truediv (total_score a) (total_sections a)
  else 0%Q.

(** The overall status, read off [avg_score] before it is rounded. *)
Definition overall (avg : Q) : string :=
  if Qle_bool 90%Q avg then "EXCELLENT"
  else if Qle_bool 75%Q avg then "GOOD"
  else "NEEDS_IMPROVEMENT".

Definition validate_full_review (self : validator)
  (responses : list (string * string)) : report :=
  let a := fold_left (step self) responses (mkAcc [] 0%Z 0 [] []) in
  mkReport (results a)
    (mkReportSummary (PyFloat.round1 (avg_score a))
       (List.length (all_errors a)) (List.length (all_warnings a))
       (total_sections a) (overall (avg_score a))).

End Validator.

(* ================================================================== *)
(** * prompt_templates.py: the formatting helpers *)
(* ================================================================== *)

Module Templates.
Import PyStr Parser.

Definition newline : string := String (ascii_of_nat 10) "".

(** The loop of [_format_objectives] over [enumerate(objectives, i)]: one
    line for each objective, with its number. *)
Fixpoint numbered (i : nat) (objectives : list Objective) : list string :=
  match objectives with
  | [] => []
  | obj :: rest =>
      (of_nat i ++ ". " ++ title obj)%string :: numbered (S i) rest
  end.

(** [_format_objectives] *)
Definition _format_objectives (objectives : list Objective) : string :=
  match objectives with
  | [] => "No specific objectives in this category."
  | _ => join newline (numbered 1 objectives)
  end.

(** The line that [_format_metrics] writes for a metric. *)
Definition metric_line (metric : Metric) : string :=
  "- " ++ text metric ++ " (from: " ++ substring 0 80 (full_context metric)
    ++ "...)".

(** The body of the loop of [_format_metrics], on the pair of [formatted]
    and [seen]. *)
Definition format_step (st : list string * list string) (metric : Metric)
  : list string * list string :=
  let '(formatted, seen) := st in
  if Validator.mem (text metric) seen then st
  else (formatted ++ [metric_line metric], set_add seen (text metric)).

(** [formatted] at the end of the loop. *)
Definition formatted_metrics (metrics : list Metric) : list string :=
  fst (fold_left format_step metrics ([], [])).

(** [formatted[:15]] *)
Definition metric_lines (metrics : list Metric) : list string :=
  firstn 15 (formatted_metrics metrics).

(** [_format_metrics] *)
Definition _format_metrics (metrics : list Metric) : string :=
  match metrics with
  | [] => "No quantitative metrics found."
  | _ => join newline (metric_lines metrics)
  end.

End Templates.

(* ================================================================== *)
(** * generate_review.py: the class [ReviewValidator] *)
(* ================================================================== *)

Module Generate.
Import PyStr.
Local Open Scope nat_scope.

Definition metric_sections : list string :=
  ["Engineering/Operation Excellence"; "Tech Initiatives"; "Impact"].

Definition generic_phrases : list string :=
  ["various"; "multiple"; "several"; "many"; "numerous";
   "improved performance"; "enhanced quality"; "increased efficiency"].

Definition msg_too_short (wc : nat) : string :=
  "Response is too short (" ++ of_nat wc ++ " words). Aim for 80-150 words.".
Definition msg_too_long (wc : nat) : string :=
  "Response is too long (" ++ of_nat wc ++ " words). Keep it under 180 words.".
Definition msg_role (role : string) : string :=
  "Response should mention the role: " ++ role.
Definition msg_team (team : string) : string :=
  "Response should mention the team: " ++ team.
Definition msg_metrics : string :=
  "Consider including specific metrics to strengthen the response.".
Definition msg_generic (found : list string) : string :=
  "Response contains generic phrases: " ++ join ", " found
    ++ ". Be more specific.".

(** The loop over [data['metrics'][:10]] with its [break]. *)
Definition has_metric (metrics : list Parser.Metric) (response : string)
  : bool :=
  existsb (fun metric => contains (Parser.text metric) response)
    (firstn 10 metrics).

(** [validate_response]; [None] stands for the [KeyError] of a metadata
    without role or team. *)
Definition validate_response (section_name response : string)
  (data : Parser.Dataset) : option (list string) :=
  match Validator.lookup (Parser.metadata data) "role" with
  | None => None
  | Some role =>
      match Validator.lookup (Parser.metadata data) "team" with
      | None => None
      | Some team =>
          let issues : list string := [] in
          let word_count := List.length (split_ws response) in
          let issues :=
            if word_count <? 50 then issues ++ [msg_too_short word_count]
            else if 200 <? word_count
                 then issues ++ [msg_too_long word_count]
                 else issues in
          let issues :=
            if (negb (contains role response)
                && negb (String.eqb role "UNKNOWN"))%bool
            then issues ++ [msg_role role] else issues in
          let issues :=
            if (truthy team && negb (contains team response))%bool
            then issues ++ [msg_team team] else issues in
          let issues :=
            if (negb (Nat.eqb (List.length (Parser.metrics data)) 0)
                && Validator.mem section_name metric_sections)%bool
            then if has_metric (Parser.metrics data) response then issues
                 else issues ++ [msg_metrics]
            else issues in
          let generic_found :=
            filter (fun phrase => contains (lower phrase) (lower response))
                   generic_phrases in
          let issues :=
            if 3 <? List.length generic_found
            then issues ++ [msg_generic generic_found] else issues in
          Some issues
      end
  end.

(** The body of the loop of [validate_full_review]; an exception of
    [validate_response] ends the call. *)
Definition review_step (data : Parser.Dataset)
  (acc : option (list (string * list string))) (item : string * string)
  : option (list (string * list string)) :=
  match acc with
  | None => None
  | Some all_issues =>
      let '(section_name, response) := item in
      if truthy response
      then match validate_response section_name response data with
           | None => None
           | Some [] => Some all_issues
           | Some issues => Some (Validator.dict_set all_issues section_name issues)
           end
      else Some all_issues
  end.

(** [validate_full_review] *)
Definition validate_full_review (responses : list (string * string))
  (data : Parser.Dataset) : option (list (string * list string)) :=
  fold_left (review_step data) responses (Some []).

End Generate.

(* ================================================================== *)
(** * Properties of the parser *)
(* ================================================================== *)

Module ParserProps.
Import PyStr Re Parser.

(** ** Inputs used in the statements *)

(** A row whose role text has the match of the fourth pattern before the
    match of the first. *)
Definition row_senior_sd2 : row :=
  [("Owner", "Senior Engineer"); ("Title", "SD2 migration")].

(** The title of the first concrete scenario and the three metrics it
    yields. *)
Definition title_range : string := "99.4% to 99.73%".

Definition metric_range : Metric :=
  mkMetric "99.4% to 99.73%" title_range ["99.4"; "99.73"].

Definition metric_first : Metric := mkMetric "99.4%" title_range ["99.4"].

Definition metric_second : Metric := mkMetric "99.73%" title_range ["99.73"].

Definition table_one_title : list row := [[("Title", "99.4% to 99.73%")]].

(** ** Role inference *)

(** The loop returns at the first pattern, in list order, that matches. *)
Lemma first_role_at (ps : list pattern) (txt : string) :
  forall (i : nat) (p : pattern) (mo : match_obj),
    nth_error ps i = Some p ->
    search p txt = Some mo ->
    (forall j q, j < i -> nth_error ps j = Some q -> search q txt = None) ->
    first_role ps txt = upper (group0 txt mo).
Proof.
  induction ps as [|p0 ps IH]; intros i p mo Hnth Hp Hbefore.
  - destruct i; discriminate.
  - destruct i as [|i]; simpl in *.
    + injection Hnth as <-. now rewrite Hp.
    + rewrite (Hbefore 0 p0) by (auto; lia).
      apply (IH i p mo); auto.
      intros j q Hj Hq. apply (Hbefore (S j) q); [lia | exact Hq].
Qed.

Lemma first_role_none (ps : list pattern) (txt : string) :
  (forall p, In p ps -> search p txt = None) ->
  first_role ps txt = "UNKNOWN".
Proof.
  induction ps as [|p0 ps IH]; intros Hnone; simpl.
  - reflexivity.
  - rewrite (Hnone p0) by (left; reflexivity).
    apply IH. intros p Hp. apply Hnone. right; exact Hp.
Qed.

(** Among the patterns that match, one that is later in the list never
    decides the role when an earlier one matches too. *)
Lemma first_role_least (ps : list pattern) (txt : string) :
  forall (i : nat) (p : pattern) (mo : match_obj),
    nth_error ps i = Some p ->
    search p txt = Some mo ->
    exists k q mq,
      k <= i /\ nth_error ps k = Some q /\ search q txt = Some mq /\
      (forall j r, j < k -> nth_error ps j = Some r -> search r txt = None) /\
      first_role ps txt = upper (group0 txt mq).
Proof.
  induction ps as [|p0 ps IH]; intros i p mo Hnth Hp.
  - destruct i; discriminate.
  - destruct (search p0 txt) as [m0|] eqn:H0.
    + exists 0, p0, m0. simpl. rewrite H0.
      repeat split; auto; try lia.
    + destruct i as [|i]; simpl in Hnth.
      * injection Hnth as <-. congruence.
      * destruct (IH i p mo Hnth Hp) as (k & q & mq & Hk & Hq & Hs & Hb & Hr).
        exists (S k), q, mq. simpl. rewrite H0.
        repeat split; auto; try lia.
        intros j r Hj Hr'. destruct j as [|j]; simpl in Hr'.
        -- congruence.
        -- apply (Hb j r); [lia | exact Hr'].
Qed.

(** C5.  The role inferred from a row is decided by the fixed order of
    the six patterns: when a pattern matches the role text and no pattern
    before it in the list does, the role is that pattern's match in upper
    case, whatever other patterns match and wherever their matches sit;
    hence of two patterns that both match, the later one never decides
    over the earlier; and when no pattern matches the role is UNKNOWN. *)
Theorem infer_role_priority (r : row) :
  (forall i p mo,
      nth_error role_patterns i = Some p ->
      search p (role_text r) = Some mo ->
      (forall j q, j < i -> nth_error role_patterns j = Some q ->
                   search q (role_text r) = None) ->
      _infer_role r = upper (group0 (role_text r) mo))
  /\
  (forall i j p q mp mq,
      i < j ->
      nth_error role_patterns i = Some p ->
      nth_error role_patterns j = Some q ->
      search p (role_text r) = Some mp ->
      search q (role_text r) = Some mq ->
      exists k pk mk,
        k <= i /\ nth_error role_patterns k = Some pk /\
        search pk (role_text r) = Some mk /\
        _infer_role r = upper (group0 (role_text r) mk))
  /\
  ((forall p, In p role_patterns -> search p (role_text r) = None) ->
   _infer_role r = "UNKNOWN").
Proof.
  unfold _infer_role. split; [|split].
  - intros i p mo. apply first_role_at.
  - intros i j p q mp mq _ Hp _ Hsp _.
    destruct (first_role_least role_patterns (role_text r) i p mp Hp Hsp)
      as (k & pk & mk & Hk & Hpk & Hsk & _ & Hr).
    exists k, pk, mk. auto.
  - apply first_role_none.
Qed.

Lemma infer_role_priority_witness :
  role_text row_senior_sd2 = "senior engineer sd2 migration" /\
  _infer_role row_senior_sd2 = "SD2".
Proof.
  split; [reflexivity|].
  destruct (search (nth 0 role_patterns []) (role_text row_senior_sd2))
    as [mo|] eqn:Hs; [|vm_compute in Hs; discriminate].
  rewrite (proj1 (infer_role_priority row_senior_sd2) 0 _ mo eq_refl Hs).
  - vm_compute in Hs. injection Hs as <-. reflexivity.
  - intros j q Hj. lia.
Defined.

(** ** Metric extraction *)

(** C8.  For a record whose title is "99.4% to 99.73%" the first pattern
    (percentage range) yields the one Metric with that whole text, the
    seventh (bare percentage) yields "99.4%" and then "99.73%", the other
    six yield nothing, and the extractor appends the three to the metrics
    in that order: pattern order, then left to right. *)
Theorem extract_metrics_percent_range (r : row) (self : parser) :
  get r "Title" "" = title_range ->
  self_raw_data self = [r] ->
  map (metrics_of_pattern title_range) metric_patterns
    = [[metric_range]; []; []; []; []; []; [metric_first; metric_second]; []]
  /\ metrics_of_row r = [metric_range; metric_first; metric_second]
  /\ self_metrics (_extract_metrics self)
     = self_metrics self ++ [metric_range; metric_first; metric_second].
Proof.
  intros Ht Hraw.
  assert (Hrow : metrics_of_row r = [metric_range; metric_first; metric_second]).
  { unfold metrics_of_row. rewrite Ht. vm_compute. reflexivity. }
  split; [vm_compute; reflexivity|]. split; [exact Hrow|].
  unfold _extract_metrics. cbn [self_metrics]. rewrite Hraw.
  cbn [flat_map]. rewrite Hrow, app_nil_r. reflexivity.
Qed.

Lemma extract_metrics_percent_range_witness :
  self_metrics
    (_extract_metrics (_read_csv [[("Title", "99.4% to 99.73%")]] init))
  = [metric_range; metric_first; metric_second].
Proof.
  exact (proj2 (proj2 (extract_metrics_percent_range
                         [("Title", "99.4% to 99.73%")]
                         (_read_csv [[("Title", "99.4% to 99.73%")]] init)
                         eq_refl eq_refl))).
Defined.

(** ** Empty table *)

(** C10.  On a table with no record, a new parser returns a dataset whose
    metadata is the empty mapping (no owner, owner_email, team or role
    key, so role is not UNKNOWN either), whose objectives, metrics and
    technologies are empty and whose summary counts are all zero. *)
Theorem parse_empty_table :
  fst (parse [] init) = mkDataset [] [] [] [] (mkSummary 0 [] [] 0 0)
  /\ (forall key, Validator.lookup (metadata (fst (parse [] init))) key = None)
  /\ Validator.new (fst (parse [] init)) = None.
Proof.
  split; [vm_compute; reflexivity|]. split; [|vm_compute; reflexivity].
  intros key. reflexivity.
Qed.

(** ** Parsing twice with one parser *)

(** What a second call of [parse] adds to the metrics of the parser. *)
Lemma parse_metrics_append (table : list row) (self : parser) :
  self_metrics (snd (parse table self))
  = self_metrics self ++ flat_map metrics_of_row table.
Proof. destruct table; reflexivity. Qed.

Lemma parse_dataset_metrics (table : list row) (self : parser) :
  metrics (fst (parse table self)) = self_metrics (snd (parse table self)).
Proof. reflexivity. Qed.

(** C9.  The code at the failing input: parsing the same one-row table
    twice with the same parser does not give equal datasets.  The second
    dataset holds the three metrics of the first run followed by the same
    three again, and its summary counts six metrics where the first
    counted three. *)
Theorem parse_twice_accumulates :
  let d1 := fst (parse table_one_title init) in
  let self1 := snd (parse table_one_title init) in
  let d2 := fst (parse table_one_title self1) in
  objectives d1 = []
  /\ metrics d2 = metrics d1 ++ metrics d1
  /\ metrics_count (summary d1) = 3
  /\ metrics_count (summary d2) = 6
  /\ d1 <> d2.
Proof.
  cbv zeta. repeat split; try (vm_compute; reflexivity).
  intros Heq. apply (f_equal (fun d => metrics_count (summary d))) in Heq.
  vm_compute in Heq. discriminate.
Qed.

(** The same input through [main]: no row has a parent, so
    [print_summary] parses again; it prints six metrics for a dataset that
    was returned with a count of three, and the list that dataset shares
    with the parser has grown to six entries. *)
Lemma main_reparses_when_no_objectives :
  exists data printed self',
    main table_one_title = Some (data, printed, self')
    /\ metrics_count (summary data) = 3
    /\ metrics_count printed = 6
    /\ List.length (self_metrics self') = 6.
Proof. do 3 eexists. vm_compute. repeat split. Qed.

End ParserProps.

(* ================================================================== *)
(** * Rounding to a float *)
(* ================================================================== *)

Module PyFloatProps.
Import PyFloat.
Local Open Scope Z_scope.

(** Values of the two operations, against those of CPython: [1 / 3],
    [round(0.25, 1)] (a tie, to the even 0.2), [round(0.75, 1)] (a tie, to
    0.8), [269 / 3] and [round(269 / 3, 1)], which is the float written
    89.7, and [1799 / 20], a float below 90 that [round] takes to 90.0. *)
Example float_values :
  (truediv 1 3 == 6004799503160661 # 18014398509481984)%Q
  /\ (round1 (1 # 4) == 3602879701896397 # 18014398509481984)%Q
  /\ (round1 (3 # 4) == 3602879701896397 # 4503599627370496)%Q
  /\ (truediv 269 3 == 6309730727930539 # 70368744177664)%Q
  /\ (round1 (truediv 269 3) == 6312076352736461 # 70368744177664)%Q
  /\ (truediv 1799 20 == 6329668538780877 # 70368744177664)%Q
  /\ (truediv 1799 20 < 90)%Q
  /\ (round1 (truediv 1799 20) == 90)%Q.
Proof. vm_compute. repeat split. Qed.

Lemma rne_cases (n d : Z) :
  0 < d ->
  rne n d = n / d \/ rne n d = n / d + 1.
Proof.
  intros Hd. unfold rne.
  destruct (2 * (n mod d) ?= d); [destruct (Z.even (n / d))| |]; auto.
Qed.

Lemma rne_ge (n d M : Z) : 0 < d -> M * d <= n -> M <= rne n d.
Proof.
  intros Hd H.
  assert (M <= n / d) by (apply Z.div_le_lower_bound; lia).
  destruct (rne_cases n d Hd); lia.
Qed.

Lemma rne_le (n d M : Z) : 0 < d -> n <= M * d -> rne n d <= M.
Proof.
  intros Hd H. unfold rne.
  pose proof (Z.div_mod n d ltac:(lia)) as Hdm.
  pose proof (Z.mod_pos_bound n d Hd) as Hr.
  assert (Hk : n / d <= M) by (apply Z.div_le_upper_bound; lia).
  destruct (Z.eq_dec (n / d) M) as [He|Hne].
  - assert (Hz : n mod d = 0) by (rewrite He in Hdm; lia).
    rewrite Hz.
    assert (E : (2 * 0 ?= d) = Lt) by (apply Z.compare_lt_iff; lia).
    rewrite E. lia.
  - destruct (2 * (n mod d) ?= d); [destruct (Z.even (n / d))| |]; lia.
Qed.

(** The rounded value is within one half of the quotient. *)
Lemma rne_close (n d : Z) :
  0 < d -> - d <= 2 * (rne n d * d - n) <= d.
Proof.
  intros Hd. unfold rne.
  pose proof (Z.div_mod n d ltac:(lia)) as Hdm.
  pose proof (Z.mod_pos_bound n d Hd) as Hr.
  cbv zeta. remember (n / d) as k in *. remember (n mod d) as r in *.
  clear Heqk Heqr.
  destruct (Z.compare_spec (2 * r) d); [destruct (Z.even k)| |]; lia.
Qed.

Lemma floor_log2_le (a b : Z) : floor_log2 a b <= Z.log2 a - Z.log2 b.
Proof.
  unfold floor_log2. cbv zeta.
  destruct (if 0 <=? Z.log2 a - Z.log2 b then _ else _); lia.
Qed.

Lemma last_place_small (a b : Z) :
  0 < a -> 0 < b -> a <= 128 * b -> last_place a b <= -45.
Proof.
  intros Ha Hb Hab. unfold last_place.
  pose proof (floor_log2_le a b) as Hl.
  assert (Z.log2 a <= 7 + Z.log2 b).
  { rewrite <- (Z.log2_mul_pow2 b 7) by lia.
    apply Z.log2_le_mono. change (2 ^ 7) with 128. lia. }
  lia.
Qed.

Lemma nearest_small (a b : Z) :
  0 < a -> 0 < b -> a <= 128 * b ->
  exists e,
    45 <= e
    /\ nearest a b = (rne (a * 2 ^ e) b # Z.to_pos (2 ^ e))%Q.
Proof.
  intros Ha Hb Hab. pose proof (last_place_small a b Ha Hb Hab) as He.
  exists (- last_place a b). split; [lia|].
  unfold nearest. cbv zeta.
  destruct (Z.leb_spec 0 (last_place a b)); [lia|reflexivity].
Qed.

Lemma nearest_ge (a b z : Z) :
  0 < a -> 0 < b -> a <= 128 * b -> z * b <= a ->
  (z # 1 <= nearest a b)%Q.
Proof.
  intros Ha Hb Hab Hz.
  destruct (nearest_small a b Ha Hb Hab) as (e & He & ->).
  assert (Hp : 0 < 2 ^ e) by (apply Z.pow_pos_nonneg; lia).
  unfold Qle. cbn [Qnum Qden]. rewrite Z2Pos.id by exact Hp.
  rewrite Z.mul_1_r. apply rne_ge; [exact Hb|]. nia.
Qed.

Lemma nearest_le (a b z : Z) :
  0 < a -> 0 < b -> a <= 128 * b -> a <= z * b ->
  (nearest a b <= z # 1)%Q.
Proof.
  intros Ha Hb Hab Hz.
  destruct (nearest_small a b Ha Hb Hab) as (e & He & ->).
  assert (Hp : 0 < 2 ^ e) by (apply Z.pow_pos_nonneg; lia).
  unfold Qle. cbn [Qnum Qden]. rewrite Z2Pos.id by exact Hp.
  rewrite Z.mul_1_r. apply rne_le; [exact Hb|]. nia.
Qed.

(** Rounding to the nearest double does not cross an integer: for
    [0 <= q <= 100] and an integer [z], [z <= q] gives [z <= fl q] and
    [q <= z] gives [fl q <= z]. *)
Lemma fl_ge (q : Q) (z : Z) :
  (0 <= q)%Q -> (q <= 100)%Q -> (z # 1 <= q)%Q -> (z # 1 <= fl q)%Q.
Proof.
  destruct q as [a b]. unfold Qle at 1 2 3. cbn [Qnum Qden].
  intros H0 H100 Hz.
  destruct a as [|a|a]; [|apply nearest_ge; cbn [Qnum Qden]; lia|lia].
  unfold Qle. cbn. lia.
Qed.

Lemma fl_le (q : Q) (z : Z) :
  (0 <= q)%Q -> (q <= 100)%Q -> (q <= z # 1)%Q -> (fl q <= z # 1)%Q.
Proof.
  destruct q as [a b]. unfold Qle at 1 2 3. cbn [Qnum Qden].
  intros H0 H100 Hz.
  destruct a as [|a|a]; [|apply nearest_le; cbn [Qnum Qden]; lia|lia].
  unfold Qle. cbn. lia.
Qed.

Lemma round1_ge (x : Q) (z : Z) :
  (0 <= x)%Q -> (x <= 100)%Q -> (z # 1 <= x)%Q -> (z # 1 <= round1 x)%Q.
Proof.
  intros H0 H100 Hz. unfold round1.
  destruct x as [a b]. unfold Qle in *. cbn [Qnum Qden] in *.
  assert (Hlo : 10 * z <= rne (10 * a) (Z.pos b)) by (apply rne_ge; lia).
  assert (H0' : 0 <= rne (10 * a) (Z.pos b)) by (apply rne_ge; lia).
  assert (Hhi : rne (10 * a) (Z.pos b) <= 1000) by (apply rne_le; lia).
  apply fl_ge; unfold Qle; cbn [Qnum Qden]; lia.
Qed.

Lemma round1_le (x : Q) (z : Z) :
  (0 <= x)%Q -> (x <= 100)%Q -> (x <= z # 1)%Q -> (round1 x <= z # 1)%Q.
Proof.
  intros H0 H100 Hz. unfold round1.
  destruct x as [a b]. unfold Qle in *. cbn [Qnum Qden] in *.
  assert (Hlo : rne (10 * a) (Z.pos b) <= 10 * z) by (apply rne_le; lia).
  assert (H0' : 0 <= rne (10 * a) (Z.pos b)) by (apply rne_ge; lia).
  assert (Hhi : rne (10 * a) (Z.pos b) <= 1000) by (apply rne_le; lia).
  apply fl_le; unfold Qle; cbn [Qnum Qden]; lia.
Qed.

(** Below an integer, and with a denominator of at most [2^45], the
    rounded quotient stays below that integer. *)
Lemma nearest_lt (a b z : Z) :
  0 < a -> 0 < b -> a <= 128 * b -> a < z * b -> b <= 2 ^ 45 ->
  (nearest a b < z # 1)%Q.
Proof.
  intros Ha Hb Hab Hz Hsmall.
  destruct (nearest_small a b Ha Hb Hab) as (e & He & ->).
  assert (Hp : 0 < 2 ^ e) by (apply Z.pow_pos_nonneg; lia).
  assert (Hpe : 2 ^ 45 <= 2 ^ e) by (apply Z.pow_le_mono_r; lia).
  unfold Qlt. cbn [Qnum Qden]. rewrite Z2Pos.id by exact Hp.
  rewrite Z.mul_1_r.
  assert (rne (a * 2 ^ e) b <= z * 2 ^ e - 1); [|lia].
  apply rne_le; [exact Hb|]. nia.
Qed.

Lemma fl_lt (q : Q) (z : Z) :
  (0 <= q)%Q -> (q <= 100)%Q -> (q < z # 1)%Q -> QDen q <= 2 ^ 45 ->
  (fl q < z # 1)%Q.
Proof.
  destruct q as [a b]. unfold Qle at 1 2. unfold Qlt at 1.
  cbn [Qnum Qden]. intros H0 H100 Hz Hb.
  destruct a as [|a|a]; [|apply nearest_lt; cbn [Qnum Qden]; lia|lia].
  unfold Qlt. cbn. lia.
Qed.

(** The rounded quotient is within half a last place of the quotient; up
    to 128 a last place is at most [2^-45]. *)
Lemma nearest_close (a b : Z) :
  0 < a -> 0 < b -> a <= 128 * b ->
  (Qabs (nearest a b - (a # Z.to_pos b)) <= 1 # 2 ^ 46)%Q.
Proof.
  intros Ha Hb Hab.
  destruct (nearest_small a b Ha Hb Hab) as (e & He & ->).
  assert (Hp : 0 < 2 ^ e) by (apply Z.pow_pos_nonneg; lia).
  assert (Hpe : 2 ^ 45 <= 2 ^ e) by (apply Z.pow_le_mono_r; lia).
  pose proof (rne_close (a * 2 ^ e) b Hb) as Hc.
  set (m := rne (a * 2 ^ e) b) in *. set (P := 2 ^ e) in *.
  change (2 ^ 45) with 35184372088832 in Hpe.
  apply Qabs_Qle_condition. unfold Qle, Qminus, Qplus, Qopp.
  cbn [Qnum Qden]. rewrite !Pos2Z.inj_mul, !Z2Pos.id by lia.
  change (Z.pos (2 ^ 46)) with 70368744177664.
  change (Z.neg (2 ^ 46)) with (-70368744177664).
  change (Z.neg 1) with (-1).
  assert (HbP : 0 < P * b) by nia.
  split.
  - assert (- (P * b) <= (m * b - a * P) * 70368744177664); [|nia].
    destruct (Z.le_gt_cases 0 (m * b - a * P)); nia.
  - assert ((m * b - a * P) * 70368744177664 <= P * b); [|nia].
    destruct (Z.le_gt_cases 0 (m * b - a * P)); nia.
Qed.

Lemma fl_close (q : Q) :
  (0 <= q)%Q -> (q <= 100)%Q -> (Qabs (fl q - q) <= 1 # 2 ^ 46)%Q.
Proof.
  destruct q as [a b]. unfold Qle at 1 2. cbn [Qnum Qden].
  intros H0 H100. destruct a as [|a|a]; [| |lia].
  - apply Qabs_Qle_condition. unfold Qle. cbn. lia.
  - unfold fl. cbn [Qnum Qden].
    pose proof (nearest_close (Z.pos a) (Z.pos b)) as H.
    cbn [Z.to_pos] in H. apply H; lia.
Qed.

(** The number of tenths nearest to [x], as a rational, is within one
    twentieth of [x]. *)
Lemma tenths_close (x : Q) :
  (Qabs ((rne (10 * Qnum x) (QDen x) # 10) - x) <= 1 # 20)%Q.
Proof.
  destruct x as [a b]. cbn [Qnum Qden].
  pose proof (rne_close (10 * a) (Z.pos b) ltac:(lia)) as Hc.
  set (k := rne (10 * a) (Z.pos b)) in *.
  apply Qabs_Qle_condition. unfold Qle, Qminus, Qplus, Qopp.
  cbn [Qnum Qden]. rewrite !Pos2Z.inj_mul.
  change (Z.neg 1) with (-1). change (Z.pos 10) with 10.
  change (Z.pos 20) with 20. split; lia.
Qed.

Lemma fl_nonneg (q : Q) : (0 <= q)%Q -> (q <= 100)%Q -> (0 <= fl q)%Q.
Proof.
  intros H0 H100. apply (fl_ge q 0 H0 H100). exact H0.
Qed.

(** [round(x, 1)] is within [1/20 + 2^-46] of [x]. *)
Lemma round1_close (x : Q) :
  (0 <= x)%Q -> (x <= 100)%Q ->
  (Qabs (round1 x - x) <= (1 # 20) + (1 # 2 ^ 46))%Q.
Proof.
  intros H0 H100. unfold round1.
  set (t := (rne (10 * Qnum x) (QDen x) # 10)%Q).
  assert (Ht0 : (0 <= t)%Q).
  { unfold t, Qle. cbn [Qnum Qden].
    assert (0 <= rne (10 * Qnum x) (QDen x)); [|lia].
    apply rne_ge; [lia|]. unfold Qle in H0. cbn in H0. lia. }
  assert (Ht100 : (t <= 100)%Q).
  { unfold t, Qle. cbn [Qnum Qden].
    assert (rne (10 * Qnum x) (QDen x) <= 1000); [|lia].
    apply rne_le; [lia|]. unfold Qle in H100. cbn in H100. lia. }
  pose proof (fl_close t Ht0 Ht100) as H1.
  pose proof (tenths_close x) as H2. fold t in H2.
  assert (E : (fl t - x == (fl t - t) + (t - x))%Q) by ring.
  rewrite E. eapply Qle_trans; [apply Qabs_triangle|].
  rewrite Qplus_comm. apply Qplus_le_compat; assumption.
Qed.

End PyFloatProps.

(* ================================================================== *)
(** * Properties of the validator *)
(* ================================================================== *)

Module ValidatorProps.
Import PyStr Validator.
Local Open Scope nat_scope.

(** ** Findings, penalties and derived quantities *)

(** The state in which nothing has been found and no point taken. *)
Definition zero : vstate := mkVState [] [] 0.

(** A check is uniform when what it appends and what it subtracts do not
    depend on the state it is run in. *)
Definition uniform (f : vstate -> vstate) : Prop :=
  forall st,
    f st = mkVState (errors st ++ errors (f zero))
                    (warnings st ++ warnings (f zero))
                    (quality_score st + quality_score (f zero))%Z.

(** The points a check takes off. *)
Definition penalty (f : vstate -> vstate) : Z := (- quality_score (f zero))%Z.

Definition Zsum (l : list Z) : Z := fold_right Z.add 0%Z l.

(** [n] points when [b] holds. *)
Definition points (b : bool) (n : Z) : Z := if b then n else 0%Z.

(** The ten checks of [validate_section] (role and team counted apart),
    in the order in which they run. *)
Definition checks (self : validator) (section_name response : string)
  : list (vstate -> vstate) :=
  [ check_length response;
    check_role self response;
    check_team self response;
    check_opening response;
    check_metrics self section_name response;
    check_generic response;
    check_tech self section_name response;
    check_variety response;
    check_starts response;
    check_data section_name response;
    check_passive response ].

(** The points each check takes off, in the same order. *)
Definition penalties (self : validator) (section_name response : string)
  : list Z := map penalty (checks self section_name response).

(** The same penalties written out, each with the condition and the
    amount of its check in the source. *)
Definition penalty_table (self : validator) (section_name response : string)
  : list Z :=
  [ (let wc := word_count response in
     if wc <? 40 then 20%Z else if wc <? 60 then 5%Z
     else if 200 <? wc then 5%Z else 0%Z);
    points (negb (String.eqb (role self) "UNKNOWN")
            && negb (contains (role self) response)) 15;
    points (truthy (team self) && negb (contains (team self) response)) 15;
    points (negb (startswith "As an" response)
            && negb (startswith "As a" response)) 10;
    (if (mem section_name metric_sections
         && negb (Nat.eqb (List.length (metrics_texts self)) 0))%bool
     then if Nat.eqb (metrics_found self response) 0 then 10%Z
          else if metrics_found self response <? 2 then 5%Z else 0%Z
     else 0%Z);
    Zsum (map (fun ps =>
                 points (contains (lower (fst ps)) (lower response)) 3)
              generic_phrases);
    (if (mem section_name tech_sections
         && negb (Nat.eqb (List.length (technologies self)) 0))%bool
     then points (Nat.eqb (techs_found self response) 0) 8
     else 0%Z);
    (if 3 <=? List.length (sentences response)
     then points (count_distinct Nat.eq_dec (sentence_lengths response) <? 2) 3
     else 0%Z);
    (if 2 <? List.length (sentence_starts response)
     then points
            (negb (Nat.eqb (List.length (sentence_starts response))
                     (count_distinct string_dec (sentence_starts response))))
            5
     else 0%Z);
    points (negb (has_data response) && mem section_name metric_sections) 10;
    points (2 <? passive_count response) 5 ].

(** The components of the triple that [validate_section] returns. *)
Definition score_of (r : list string * list string * Z) : Z := snd r.

Definition errors_of (r : list string * list string * Z) : list string :=
  fst (fst r).

Definition warnings_of (r : list string * list string * Z) : list string :=
  snd (fst r).

(** The number of distinct metric texts that occur in the response, as
    the specification counts them; the source counts [metrics_found], the
    entries of the metrics list whose text occurs. *)
Definition distinct_metrics_found (self : validator) (response : string)
  : nat :=
  count_distinct string_dec
    (filter (fun m => contains m response) (metrics_texts self)).

(** The value that one round of the loop stores under the section name. *)
Definition result_of (self : validator) (section_name response : string)
  : section_result :=
  if is_blank response then empty_result
  else
    let '(errs, warns, score) := validate_section self section_name response in
    mkResult errs warns score (section_status score)
      (Some (word_count response)).

(** The scores that [validate_section] gives to the sections whose
    response is not blank, in the order of the loop. *)
Definition validated_scores (self : validator)
  (responses : list (string * string)) : list Z :=
  map (fun it => score_of (validate_section self (fst it) (snd it)))
      (filter (fun it => negb (is_blank (snd it))) responses).

(** The mean of the scores of all the sections of a report, blank ones
    counting with their score 0, as the specification words it. *)
Definition mean_of_all_sections (rep : report) : Q :=
  (Zsum (map (fun kv => r_score (snd kv)) (sections rep))
   # Pos.of_nat (List.length (sections rep)))%Q.

(** [avg_score] at the end of the loop, from the scores of the sections
    that were validated. *)
Definition float_mean (scores : list Z) : Q :=
  if 0 <? List.length scores
  then PyFloat.truediv (Zsum scores) (List.length scores)
  else 0%Q.

(** The arithmetic mean of a list of scores that is not empty. *)
Definition mean (scores : list Z) : Q :=
  (Zsum scores # Pos.of_nat (List.length scores))%Q.

(** ** Inputs used in the statements *)

(** A response on which the penalties add up to more than 100. *)
Definition vague_validator : validator :=
  mkValidator ["5%"] ["API"] "SD2" "Payments".

Definition vague_response : string :=
  "various projects multiple times several initiatives numerous improvements enhanced quality improved performance increased efficiency better experience".

(** A response of 45 words without the role and the team. *)
Definition validator_sd2 : validator := mkValidator [] [] "SD2" "Payments".

Definition response_45 : string :=
  "As a developer I shipped the new checkout flow and then rebuilt our release pipeline so every merge runs tests before it lands on main which cut failed deploys sharply while keeping review turnaround quick for everyone who works with us across both mobile apps".

(** Two titles that carry the same percentage. *)
Definition table_same_percent : list Parser.row :=
  [ [("Owner", "Ann"); ("Teams", "Core"); ("Title", "50% fewer crashes")];
    [("Owner", "Ann"); ("Teams", "Core"); ("Title", "50% faster builds")] ].

Definition validator_same_percent : validator :=
  mkValidator ["50%"; "50%"] [] "UNKNOWN" "Core".

Definition response_one_metric : string :=
  "As a member of the Core Team I cut the crash rate by 50% this year".

(** A validator without role and team, and two sections of which the
    first is blank. *)
Definition validator_unknown : validator := mkValidator [] [] "UNKNOWN" "".

Definition responses_one_blank : list (string * string) :=
  [("Impact", ""); ("Summary", "As a developer I shipped the thing")].

(** A response that scores 75 with [validator_unknown] in a section that
    is neither metric-relevant nor technology-relevant: 14 words, and
    three sentences that start with the same word. *)
Definition response_75 : string :=
  "As a dev I ship. As a dev I plan. As a dev I review it".

(** One that scores 74: 9 words and two generic phrases. *)
Definition response_74 : string :=
  "As a dev I did various projects multiple times".

(** One that scores 90: 60 words that do not open with [As a]. *)
Definition response_90 : string := join " " (repeat "delivered" 60).

(** One that scores 89: 41 words and two generic phrases. *)
Definition response_89 : string :=
  "As a dev I did various projects multiple times "
  ++ join " " (repeat "more" 32).

(** A blank section and three that score 80, 80 and 75. *)
Definition responses_mixed : list (string * string) :=
  [ ("Impact", "");
    ("Summary", "As a developer I shipped the thing");
    ("Scope", "As a developer I shipped the thing");
    ("Growth", response_75) ].

Definition report_mixed : report :=
  validate_full_review validator_unknown responses_mixed.

(** Twenty sections with [first] in the first nineteen and [last] in the
    twentieth. *)
Definition twenty_sections (first last : string) : list (string * string) :=
  map (fun i => (("Section " ++ of_nat i)%string, first)) (seq 1 19)
  ++ [("Section 20", last)].

(** Scores that add up to 1799, and to 1499. *)
Definition report_1799 : report :=
  validate_full_review validator_unknown
    (twenty_sections response_90 response_89).

Definition report_1499 : report :=
  validate_full_review validator_unknown
    (twenty_sections response_75 response_74).

(** ** Blank responses *)

Lemma lstrip_all_space (s : string) :
  all_char isspace s = true -> lstrip s = "".
Proof.
  induction s as [|c s IH]; simpl; [reflexivity|].
  destruct (isspace c); simpl; [exact IH | discriminate].
Qed.

Lemma lstrip_head (s : string) :
  all_char isspace s = false ->
  exists c t, lstrip s = String c t /\ isspace c = false.
Proof.
  induction s as [|c s IH]; simpl; [discriminate|].
  destruct (isspace c) eqn:Hc; simpl.
  - exact IH.
  - intros _. exists c, s. auto.
Qed.

Lemma rstrip_head (c : ascii) (t : string) :
  isspace c = false -> rstrip (String c t) = String c (rstrip t).
Proof. intros Hc. simpl. rewrite Hc. reflexivity. Qed.

(** The test of the loop is true exactly on the responses that are empty
    or made of white space only. *)
Lemma is_blank_iff (s : string) :
  is_blank s = true <-> all_char isspace s = true.
Proof.
  unfold is_blank, strip. destruct (all_char isspace s) eqn:Hall.
  - rewrite (lstrip_all_space s Hall). simpl.
    rewrite orb_true_r. tauto.
  - destruct (lstrip_head s Hall) as (c & t & Hl & Hc).
    rewrite Hl, (rstrip_head c t Hc).
    destruct s; [discriminate Hall|]. simpl. split; discriminate.
Qed.

(** ** The checks as findings *)

Lemma uniform_skip : uniform (fun st => st).
Proof.
  intros [e w q]. simpl. rewrite !app_nil_r. f_equal. lia.
Qed.

Lemma uniform_error (msg : string) (pen : Z) : uniform (error msg pen).
Proof. intros [e w q]. unfold error. simpl. rewrite app_nil_r. f_equal. Qed.

Lemma uniform_warning (msg : string) (pen : Z) : uniform (warning msg pen).
Proof. intros [e w q]. unfold warning. simpl. rewrite app_nil_r. f_equal. Qed.

Lemma uniform_comp (f g : vstate -> vstate) :
  uniform f -> uniform g -> uniform (fun st => g (f st)).
Proof.
  intros Hf Hg st.
  rewrite (Hg (f st)), (Hg (f zero)), (Hf st). simpl.
  rewrite !app_assoc. f_equal. lia.
Qed.

Lemma uniform_fold {A : Type} (f : vstate -> A -> vstate) (l : list A) :
  (forall x, uniform (fun st => f st x)) ->
  uniform (fun st => fold_left f l st).
Proof.
  intros Hf. induction l as [|x l IH]; simpl.
  - exact uniform_skip.
  - exact (uniform_comp (fun st => f st x) (fun st => fold_left f l st)
             (Hf x) IH).
Qed.

Create HintDb checks.
#[local] Hint Resolve uniform_skip uniform_error uniform_warning : checks.

Ltac by_cases :=
  repeat match goal with
         | |- context [if ?b then _ else _] => destruct b
         end;
  auto with checks.

Section Uniform.
Variable self : validator.
Variable section_name : string.
Variable response : string.

Lemma uniform_length : uniform (check_length response).
Proof. unfold check_length. cbv zeta. by_cases. Qed.

Lemma uniform_role : uniform (check_role self response).
Proof. unfold check_role. by_cases. Qed.

Lemma uniform_team : uniform (check_team self response).
Proof. unfold check_team. by_cases. Qed.

Lemma uniform_opening : uniform (check_opening response).
Proof. unfold check_opening. by_cases. Qed.

Lemma uniform_metrics : uniform (check_metrics self section_name response).
Proof. unfold check_metrics. by_cases. Qed.

Lemma uniform_phrase (ps : string * string) :
  uniform (fun st => check_phrase response st ps).
Proof. unfold check_phrase. by_cases. Qed.

Lemma uniform_generic : uniform (check_generic response).
Proof. apply uniform_fold. exact uniform_phrase. Qed.

Lemma uniform_tech : uniform (check_tech self section_name response).
Proof. unfold check_tech. by_cases. Qed.

Lemma uniform_variety : uniform (check_variety response).
Proof. unfold check_variety. by_cases. Qed.

Lemma uniform_starts : uniform (check_starts response).
Proof. unfold check_starts. by_cases. Qed.

Lemma uniform_data : uniform (check_data section_name response).
Proof. unfold check_data. by_cases. Qed.

Lemma uniform_passive : uniform (check_passive response).
Proof. unfold check_passive. by_cases. Qed.

Lemma run_checks_fold :
  run_checks self section_name response
  = fold_left (fun st f => f st) (checks self section_name response) start.
Proof. reflexivity. Qed.

Lemma checks_uniform : Forall uniform (checks self section_name response).
Proof.
  unfold checks.
  repeat constructor;
    auto using uniform_length, uniform_role, uniform_team, uniform_opening,
      uniform_metrics, uniform_generic, uniform_tech, uniform_variety,
      uniform_starts, uniform_data, uniform_passive.
Qed.

End Uniform.

(** Running uniform checks one after the other appends their findings and
    subtracts the sum of their penalties. *)
Lemma fold_checks (fs : list (vstate -> vstate)) :
  Forall uniform fs ->
  forall st,
    fold_left (fun st f => f st) fs st
    = mkVState (errors st ++ flat_map (fun f => errors (f zero)) fs)
               (warnings st ++ flat_map (fun f => warnings (f zero)) fs)
               (quality_score st - Zsum (map penalty fs))%Z.
Proof.
  induction 1 as [|f fs Hf _ IH]; intros st; simpl.
  - rewrite !app_nil_r. destruct st; simpl. f_equal. lia.
  - rewrite IH, (Hf st). simpl. rewrite !app_assoc. f_equal.
    unfold penalty. lia.
Qed.

(** ** Penalties are not negative *)

Lemma penalty_fold_nonneg {A : Type} (f : vstate -> A -> vstate) (l : list A) :
  (forall x st, (quality_score (f st x) <= quality_score st)%Z) ->
  forall st, (quality_score (fold_left f l st) <= quality_score st)%Z.
Proof.
  intros Hf. induction l as [|x l IH]; intros st; simpl; [lia|].
  specialize (IH (f st x)). specialize (Hf x st). lia.
Qed.

Ltac score_cases :=
  repeat match goal with
         | |- context [if ?b then _ else _] => destruct b
         end;
  unfold error, warning, zero; simpl; lia.

Lemma penalties_nonneg (self : validator) (section_name response : string) :
  Forall (fun p => (0 <= p)%Z) (penalties self section_name response).
Proof.
  unfold penalties, checks, penalty. simpl map.
  repeat constructor.
  - unfold check_length. cbv zeta. score_cases.
  - unfold check_role. score_cases.
  - unfold check_team. score_cases.
  - unfold check_opening. score_cases.
  - unfold check_metrics. score_cases.
  - unfold check_generic.
    pose proof (penalty_fold_nonneg (check_phrase response) generic_phrases)
      as H.
    specialize (H (fun x st => ltac:(unfold check_phrase; score_cases)) zero).
    change (quality_score zero) with 0%Z in H. lia.
  - unfold check_tech. score_cases.
  - unfold check_variety. score_cases.
  - unfold check_starts. score_cases.
  - unfold check_data. score_cases.
  - unfold check_passive. score_cases.
Qed.

Lemma Zsum_nonneg (l : list Z) :
  Forall (fun p => (0 <= p)%Z) l -> (0 <= Zsum l)%Z.
Proof. induction 1; simpl; lia. Qed.

(** ** The penalties, check by check *)

Ltac penalty_cases :=
  unfold penalty, points;
  repeat match goal with
         | |- context [if ?b then _ else _] => destruct b
         end;
  reflexivity.

Section Penalties.
Variable self : validator.
Variable section_name : string.
Variable response : string.

Lemma penalty_length :
  penalty (check_length response)
  = let wc := word_count response in
    if wc <? 40 then 20%Z else if wc <? 60 then 5%Z
    else if 200 <? wc then 5%Z else 0%Z.
Proof. unfold check_length. cbv zeta. penalty_cases. Qed.

Lemma penalty_role :
  penalty (check_role self response)
  = points (negb (String.eqb (role self) "UNKNOWN")
            && negb (contains (role self) response)) 15.
Proof. unfold check_role. penalty_cases. Qed.

Lemma penalty_team :
  penalty (check_team self response)
  = points (truthy (team self) && negb (contains (team self) response)) 15.
Proof. unfold check_team. penalty_cases. Qed.

Lemma penalty_opening :
  penalty (check_opening response)
  = points (negb (startswith "As an" response)
            && negb (startswith "As a" response)) 10.
Proof. unfold check_opening. penalty_cases. Qed.

Lemma penalty_metrics :
  penalty (check_metrics self section_name response)
  = if (mem section_name metric_sections
        && negb (Nat.eqb (List.length (metrics_texts self)) 0))%bool
    then if Nat.eqb (metrics_found self response) 0 then 10%Z
         else if metrics_found self response <? 2 then 5%Z else 0%Z
    else 0%Z.
Proof. unfold check_metrics. penalty_cases. Qed.

Lemma score_phrases (l : list (string * string)) :
  forall st,
    quality_score (fold_left (check_phrase response) l st)
    = (quality_score st
       - Zsum (map (fun ps =>
                      points (contains (lower (fst ps)) (lower response)) 3)
                   l))%Z.
Proof.
  unfold Zsum.
  induction l as [|ps l IH]; intros st; cbn [fold_left map fold_right];
    [lia|].
  rewrite IH. unfold check_phrase, points, warning.
  destruct (contains (lower (fst ps)) (lower response));
    cbn [quality_score]; lia.
Qed.

Lemma penalty_generic :
  penalty (check_generic response)
  = Zsum (map (fun ps =>
                 points (contains (lower (fst ps)) (lower response)) 3)
              generic_phrases).
Proof.
  unfold penalty, check_generic. rewrite score_phrases.
  change (quality_score zero) with 0%Z. lia.
Qed.

Lemma penalty_tech :
  penalty (check_tech self section_name response)
  = if (mem section_name tech_sections
        && negb (Nat.eqb (List.length (technologies self)) 0))%bool
    then points (Nat.eqb (techs_found self response) 0) 8
    else 0%Z.
Proof. unfold check_tech. penalty_cases. Qed.

Lemma penalty_variety :
  penalty (check_variety response)
  = if 3 <=? List.length (sentences response)
    then points (count_distinct Nat.eq_dec (sentence_lengths response) <? 2) 3
    else 0%Z.
Proof. unfold check_variety. penalty_cases. Qed.

Lemma penalty_starts :
  penalty (check_starts response)
  = if 2 <? List.length (sentence_starts response)
    then points
           (negb (Nat.eqb (List.length (sentence_starts response))
                    (count_distinct string_dec (sentence_starts response))))
           5
    else 0%Z.
Proof. unfold check_starts. penalty_cases. Qed.

Lemma penalty_data :
  penalty (check_data section_name response)
  = points (negb (has_data response) && mem section_name metric_sections) 10.
Proof. unfold check_data. penalty_cases. Qed.

Lemma penalty_passive :
  penalty (check_passive response)
  = points (2 <? passive_count response) 5.
Proof. unfold check_passive. penalty_cases. Qed.

End Penalties.

Lemma penalties_explicit (self : validator) (section_name response : string) :
  penalties self section_name response
  = penalty_table self section_name response.
Proof.
  unfold penalties, checks, penalty_table. cbn [map].
  rewrite penalty_length, penalty_role, penalty_team, penalty_opening,
    penalty_metrics, penalty_generic, penalty_tech, penalty_variety,
    penalty_starts, penalty_data, penalty_passive.
  reflexivity.
Qed.

(** ** Score *)

Lemma run_checks_findings (self : validator) (section_name response : string) :
  run_checks self section_name response
  = mkVState
      (flat_map (fun f => errors (f zero)) (checks self section_name response))
      (flat_map (fun f => warnings (f zero))
         (checks self section_name response))
      (100 - Zsum (penalties self section_name response))%Z.
Proof.
  rewrite run_checks_fold, (fold_checks _ (checks_uniform _ _ _)).
  reflexivity.
Qed.

(** C6.  For every validator, section name and response, the score that
    [validate_section] returns is [max(0, 100 - sum(penalties))], the
    penalties being those of the checks that fired, each with its amount
    in the source, and lies between 0 and 100: the penalties are never
    negative, so it is at most 100, and the maximum with 0 keeps it from
    going below 0. *)
Theorem score_clamped (self : validator) (section_name response : string) :
  score_of (validate_section self section_name response)
  = Z.max 0 (100 - Zsum (penalty_table self section_name response))
  /\ (0 <= score_of (validate_section self section_name response) <= 100)%Z
  /\ penalty_table self section_name response
     = map penalty (checks self section_name response).
Proof.
  unfold validate_section, score_of. cbn [snd].
  rewrite run_checks_findings. cbn [quality_score].
  pose proof (Zsum_nonneg _ (penalties_nonneg self section_name response)).
  rewrite <- penalties_explicit.
  split; [reflexivity | split; [lia | reflexivity]].
Qed.

Example score_clamped_at_zero :
  Zsum (penalty_table vague_validator "Tech Initiatives" vague_response)
    = 112%Z
  /\ score_of (validate_section vague_validator "Tech Initiatives"
                 vague_response) = 0%Z.
Proof. vm_compute. split; reflexivity. Qed.

(** ** Which checks can add an error *)

Ltac errors_cases :=
  repeat match goal with
         | |- context [if ?b then _ else _] => destruct b
         end;
  reflexivity.

Lemma errors_fold {A : Type} (f : vstate -> A -> vstate) (l : list A) :
  (forall x st, errors (f st x) = errors st) ->
  forall st, errors (fold_left f l st) = errors st.
Proof.
  intros Hf. induction l as [|x l IH]; intros st; simpl; [reflexivity|].
  rewrite IH. apply Hf.
Qed.

(** Only the length, role and team checks append to [errors]. *)
Lemma later_checks_no_error (self : validator) (section_name response : string) :
  flat_map (fun f => errors (f zero))
    (skipn 3 (checks self section_name response)) = [].
Proof.
  unfold checks. cbn [skipn flat_map]. rewrite app_nil_r.
  assert (H1 : errors (check_opening response zero) = [])
    by (unfold check_opening; errors_cases).
  assert (H2 : errors (check_metrics self section_name response zero) = [])
    by (unfold check_metrics; errors_cases).
  assert (H3 : errors (check_generic response zero) = []).
  { unfold check_generic. rewrite errors_fold; [reflexivity|].
    intros x st. unfold check_phrase. errors_cases. }
  assert (H4 : errors (check_tech self section_name response zero) = [])
    by (unfold check_tech; errors_cases).
  assert (H5 : errors (check_variety response zero) = [])
    by (unfold check_variety; errors_cases).
  assert (H6 : errors (check_starts response zero) = [])
    by (unfold check_starts; errors_cases).
  assert (H7 : errors (check_data section_name response zero) = [])
    by (unfold check_data; errors_cases).
  assert (H8 : errors (check_passive response zero) = [])
    by (unfold check_passive; errors_cases).
  rewrite H1, H2, H3, H4, H5, H6, H7, H8. reflexivity.
Qed.

(** ** A response of 45 words without role and team *)

(** C2, as stated, fails: this response has exactly 45 words and contains
    neither the role SD2 nor the team Payments, yet [errors] has two
    entries and the score is 65; the length finding is a warning. *)
Lemma short_response_two_errors :
  word_count response_45 = 45
  /\ role validator_sd2 <> "UNKNOWN"
  /\ contains (role validator_sd2) response_45 = false
  /\ team validator_sd2 <> ""
  /\ contains (team validator_sd2) response_45 = false
  /\ List.length
       (errors_of (validate_section validator_sd2 "Roadmap Delivery"
                     response_45)) = 2
  /\ score_of (validate_section validator_sd2 "Roadmap Delivery" response_45)
     = 65%Z
  /\ ~ (3 <= List.length
               (errors_of (validate_section validator_sd2 "Roadmap Delivery"
                             response_45))
        /\ score_of (validate_section validator_sd2 "Roadmap Delivery"
                       response_45) = 50%Z).
Proof.
  repeat split; try (vm_compute; reflexivity); try discriminate.
  vm_compute. intros [_ H]. discriminate H.
Qed.

(** C2, amended.  For every response of exactly 45 words that contains
    neither the role (role not UNKNOWN) nor the non-empty team,
    [validate_section] gives exactly two errors, missing role then missing
    team; the length finding is the first warning, with penalty 5; the
    score is [max(0, 100 - 5 - 15 - 15 - p)] where [p] sums the penalties
    of the later checks, so at most 65. *)
Theorem short_response_findings
  (self : validator) (section_name response : string) :
  word_count response = 45 ->
  role self <> "UNKNOWN" ->
  contains (role self) response = false ->
  team self <> "" ->
  contains (team self) response = false ->
  errors_of (validate_section self section_name response)
    = [msg_role (role self); msg_team (team self)]
  /\ hd_error (warnings_of (validate_section self section_name response))
     = Some (msg_short 45)
  /\ score_of (validate_section self section_name response)
     = Z.max 0 (100 - 5 - 15 - 15
                - Zsum (skipn 3 (penalties self section_name response)))
  /\ (score_of (validate_section self section_name response) <= 65)%Z.
Proof.
  intros Hwc Hrole Hnorole Hteam Hnoteam.
  assert (Hl : forall st, check_length response st = warning (msg_short 45) 5 st).
  { intros st. unfold check_length. rewrite Hwc. reflexivity. }
  assert (Hr : forall st,
             check_role self response st = error (msg_role (role self)) 15 st).
  { intros st. unfold check_role. rewrite Hnorole.
    apply String.eqb_neq in Hrole. rewrite Hrole. reflexivity. }
  assert (Ht : forall st,
             check_team self response st = error (msg_team (team self)) 15 st).
  { intros st. unfold check_team. rewrite Hnoteam.
    destruct (team self); [contradiction|reflexivity]. }
  assert (Hnn : (0 <= Zsum (skipn 3 (penalties self section_name response)))%Z).
  { apply Zsum_nonneg.
    pose proof (penalties_nonneg self section_name response) as Hall.
    change (penalties self section_name response)
      with (penalty (check_length response)
            :: penalty (check_role self response)
            :: penalty (check_team self response)
            :: skipn 3 (penalties self section_name response)) in Hall.
    do 3 apply Forall_inv_tail in Hall. exact Hall. }
  unfold validate_section, errors_of, warnings_of, score_of.
  cbn [fst snd]. rewrite run_checks_findings.
  cbn [errors warnings quality_score].
  change (flat_map (fun f => errors (f zero))
            (checks self section_name response))
    with (errors (check_length response zero)
          ++ errors (check_role self response zero)
          ++ errors (check_team self response zero)
          ++ flat_map (fun f => errors (f zero))
               (skipn 3 (checks self section_name response))).
  change (flat_map (fun f => warnings (f zero))
            (checks self section_name response))
    with (warnings (check_length response zero)
          ++ flat_map (fun f => warnings (f zero))
               (skipn 1 (checks self section_name response))).
  change (Zsum (penalties self section_name response))
    with (penalty (check_length response)
          + (penalty (check_role self response)
             + (penalty (check_team self response)
                + Zsum (skipn 3 (penalties self section_name response)))))%Z.
  assert (Hp1 : penalty (check_length response) = 5%Z)
    by (unfold penalty; rewrite Hl; reflexivity).
  assert (Hp2 : penalty (check_role self response) = 15%Z)
    by (unfold penalty; rewrite Hr; reflexivity).
  assert (Hp3 : penalty (check_team self response) = 15%Z)
    by (unfold penalty; rewrite Ht; reflexivity).
  rewrite later_checks_no_error, Hl, Hr, Ht, Hp1, Hp2, Hp3.
  cbn [errors warnings error warning zero app hd_error].
  repeat split; try reflexivity.
  - f_equal. lia.
  - lia.
Qed.

Lemma short_response_findings_witness :
  errors_of (validate_section validator_sd2 "Roadmap Delivery" response_45)
    = ["Response must mention role: 'SD2'";
       "Response must mention team: 'Payments'"].
Proof.
  refine (proj1 (short_response_findings validator_sd2 "Roadmap Delivery"
                   response_45 _ _ _ _ _)).
  - vm_compute; reflexivity.
  - discriminate.
  - vm_compute; reflexivity.
  - discriminate.
  - vm_compute; reflexivity.
Defined.

(** ** The metrics check *)

(** C3, as stated, fails: the dataset parsed from the two titles has the
    metric text "50%" twice; the response contains that one distinct
    text, the section is metric-relevant, and the metrics check fires no
    warning at all where the claim expects the weaker one. *)
Lemma one_distinct_metric_no_warning :
  Validator.new (fst (Parser.parse table_same_percent Parser.init))
    = Some validator_same_percent
  /\ mem "Impact" metric_sections = true
  /\ metrics_texts validator_same_percent <> []
  /\ distinct_metrics_found validator_same_percent response_one_metric = 1
  /\ check_metrics validator_same_percent "Impact" response_one_metric start
     = start
  /\ check_metrics validator_same_percent "Impact" response_one_metric start
     <> warning msg_more_metrics 5 start
  /\ ~ In msg_more_metrics
         (warnings_of (validate_section validator_same_percent "Impact"
                         response_one_metric)).
Proof.
  repeat split; try (vm_compute; reflexivity); try discriminate.
  vm_compute. intros H.
  repeat (destruct H as [H|H]; [discriminate H|]). exact H.
Qed.

Lemma count_zero_iff {A : Type} (pred : A -> bool) (l : list A) :
  count pred l = 0 <-> (forall x, In x l -> pred x = false).
Proof.
  unfold count. induction l as [|a l IH]; simpl.
  - split; [intros _ x []|reflexivity].
  - destruct (pred a) eqn:Ha; simpl.
    + split; [discriminate|]. intros H. rewrite (H a) in Ha by auto.
      discriminate.
    + rewrite IH. split.
      * intros H x [<-|Hx]; auto.
      * intros H x Hx. apply H. auto.
Qed.

(** C3, amended.  In a metric-relevant section, when the dataset has at
    least one metric, the check counts the entries of the metrics list
    whose text occurs in the response, an entry for each time a text is
    listed: no entry (no metric text occurs) gives only the strong
    warning, penalty 10; exactly one entry gives only the weaker warning,
    penalty 5; two or more entries give neither.  When the metric texts
    are pairwise different the count is the number of distinct texts that
    occur. *)
Theorem metrics_check_counts_entries
  (self : validator) (section_name response : string) (st : vstate) :
  mem section_name metric_sections = true ->
  metrics_texts self <> [] ->
  (metrics_found self response = 0 ->
   check_metrics self section_name response st = warning msg_no_metrics 10 st)
  /\ (metrics_found self response = 1 ->
      check_metrics self section_name response st
      = warning msg_more_metrics 5 st)
  /\ (2 <= metrics_found self response ->
      check_metrics self section_name response st = st)
  /\ (metrics_found self response = 0 <->
      forall m, In m (metrics_texts self) -> contains m response = false)
  /\ (NoDup (metrics_texts self) ->
      metrics_found self response = distinct_metrics_found self response).
Proof.
  intros Hsec Hne.
  assert (Hlen : Nat.eqb (List.length (metrics_texts self)) 0 = false).
  { destruct (metrics_texts self); [contradiction|reflexivity]. }
  unfold check_metrics. rewrite Hsec, Hlen. cbn [andb negb].
  repeat split.
  - intros H. rewrite H. reflexivity.
  - intros H. rewrite H. reflexivity.
  - intros H.
    destruct (Nat.eqb_spec (metrics_found self response) 0); [lia|].
    destruct (Nat.ltb_spec (metrics_found self response) 2); [lia|].
    reflexivity.
  - apply count_zero_iff.
  - apply count_zero_iff.
  - intros Hnd. unfold metrics_found, distinct_metrics_found, count,
      count_distinct.
    rewrite nodup_fixed_point; [reflexivity|].
    apply NoDup_filter. exact Hnd.
Qed.

Lemma metrics_check_counts_entries_witness :
  check_metrics validator_same_percent "Impact" response_one_metric start
  = start.
Proof.
  refine (proj1 (proj2 (proj2
            (metrics_check_counts_entries validator_same_percent "Impact"
               response_one_metric start _ _))) _).
  - reflexivity.
  - discriminate.
  - vm_compute. lia.
Defined.

(** ** The results dictionary *)

Lemma lookup_dict_set_same {A : Type} (d : list (string * A)) (k : string)
  (v : A) : lookup (dict_set d k v) k = Some v.
Proof.
  induction d as [|[k0 w] d IH]; simpl.
  - rewrite String.eqb_refl. reflexivity.
  - destruct (String.eqb k0 k) eqn:E; simpl; rewrite E; auto.
Qed.

Lemma lookup_dict_set_other {A : Type} (d : list (string * A))
  (k k' : string) (v : A) :
  k <> k' -> lookup (dict_set d k v) k' = lookup d k'.
Proof.
  intros Hk. induction d as [|[k0 w] d IH]; simpl.
  - apply String.eqb_neq in Hk. rewrite Hk. reflexivity.
  - destruct (String.eqb k0 k) eqn:E; simpl.
    + apply String.eqb_eq in E. subst k0.
      apply String.eqb_neq in Hk. rewrite Hk. reflexivity.
    + rewrite IH. reflexivity.
Qed.

Lemma step_results (self : validator) (a : acc) (name response : string) :
  results (step self a (name, response))
  = dict_set (results a) name (result_of self name response).
Proof.
  unfold step, result_of. destruct (is_blank response); reflexivity.
Qed.

Lemma fold_results_other (self : validator) (l : list (string * string))
  (name : string) :
  ~ In name (map fst l) ->
  forall a,
    lookup (results (fold_left (step self) l a)) name
    = lookup (results a) name.
Proof.
  induction l as [|[k r] l IH]; intros Hnot a; cbn [fold_left];
    [reflexivity|].
  simpl in Hnot. rewrite IH by tauto.
  rewrite step_results. apply lookup_dict_set_other. tauto.
Qed.

(** With section names that are pairwise different, as the keys of a
    dictionary are, each section ends with the value of its own round. *)
Lemma fold_results_in (self : validator) (l : list (string * string))
  (name response : string) :
  NoDup (map fst l) ->
  In (name, response) l ->
  forall a,
    lookup (results (fold_left (step self) l a)) name
    = Some (result_of self name response).
Proof.
  induction l as [|[k r] l IH]; intros Hnd Hin a; cbn [fold_left];
    [destruct Hin|].
  simpl in Hnd. inversion Hnd as [|? ? Hk Hnd']; subst.
  destruct Hin as [Heq|Hin].
  - injection Heq as -> ->.
    rewrite fold_results_other by exact Hk.
    rewrite step_results. apply lookup_dict_set_same.
  - apply IH; assumption.
Qed.

(** ** Blank sections *)

(** C4, as stated, fails on the last field: the result stored for a blank
    section has no word count. *)
Lemma blank_section_has_no_word_count :
  exists res,
    lookup (sections (validate_full_review validator_unknown
                        [("Impact", "   ")])) "Impact" = Some res
    /\ r_errors res = ["Section is empty"]
    /\ r_word_count res = None
    /\ ~ (exists wc, r_word_count res = Some wc).
Proof.
  exists empty_result. repeat split.
  intros [wc H]. discriminate H.
Qed.

(** C4, amended.  For every section whose response is empty or made of
    white space only, the loop stores the result with the single error
    "Section is empty", no warning, score 0 and status ERROR, and without
    a word count; the round runs no check and changes neither the totals
    nor the collected errors and warnings. *)
Theorem blank_section_result
  (self : validator) (responses : list (string * string))
  (name response : string) :
  NoDup (map fst responses) ->
  In (name, response) responses ->
  all_char isspace response = true ->
  lookup (sections (validate_full_review self responses)) name
    = Some (mkResult ["Section is empty"] [] 0 "ERROR" None)
  /\ (forall a,
        step self a (name, response)
        = mkAcc (dict_set (results a) name
                   (mkResult ["Section is empty"] [] 0 "ERROR" None))
                (total_score a) (total_sections a) (all_errors a)
                (all_warnings a)).
Proof.
  intros Hnd Hin Hblank. apply is_blank_iff in Hblank. split.
  - unfold validate_full_review. cbn [sections].
    rewrite (fold_results_in self responses name response Hnd Hin).
    unfold result_of. rewrite Hblank. reflexivity.
  - intros a. unfold step. rewrite Hblank. reflexivity.
Qed.

Lemma blank_section_result_witness :
  lookup (sections (validate_full_review validator_unknown
                      [("Impact", "   "); ("Summary", "As a developer")]))
    "Impact"
  = Some (mkResult ["Section is empty"] [] 0 "ERROR" None).
Proof.
  refine (proj1 (blank_section_result validator_unknown
                   [("Impact", "   "); ("Summary", "As a developer")]
                   "Impact" "   " _ _ _)).
  - repeat constructor; simpl; intuition discriminate.
  - left. reflexivity.
  - reflexivity.
Defined.

(** ** The average *)

Lemma fold_totals (self : validator) (l : list (string * string)) :
  forall a,
    total_score (fold_left (step self) l a)
    = (total_score a + Zsum (validated_scores self l))%Z
    /\ total_sections (fold_left (step self) l a)
       = total_sections a + List.length (validated_scores self l).
Proof.
  unfold validated_scores, Zsum.
  induction l as [|[k r] l IH]; intros a; cbn [fold_left filter snd fst].
  - cbn. split; lia.
  - destruct (IH (step self a (k, r))) as [Hs Hn]. rewrite Hs, Hn.
    unfold step. destruct (is_blank r); cbn [negb].
    + cbn [total_score total_sections]. split; reflexivity.
    + cbn [map fold_right List.length fst snd]. unfold score_of.
      destruct (validate_section self k r) as [[errs warns] score].
      cbn [total_score total_sections snd].
      split; lia.
Qed.

(** ** The scores behind the average *)

Lemma score_range (self : validator) (section_name response : string) :
  (0 <= score_of (validate_section self section_name response) <= 100)%Z.
Proof.
  unfold validate_section, score_of. cbn [snd].
  rewrite run_checks_findings. cbn [quality_score].
  pose proof (Zsum_nonneg _ (penalties_nonneg self section_name response)).
  lia.
Qed.

Lemma stored_score (self : validator) (section_name response : string) :
  score_of (validate_section self section_name response)
  = Z.max 0 (100 - Zsum (penalty_table self section_name response)).
Proof.
  unfold validate_section, score_of. cbn [snd].
  rewrite run_checks_findings. cbn [quality_score].
  rewrite <- penalties_explicit. reflexivity.
Qed.

Lemma NoDup_by_nodup (l : list string) :
  nodup string_dec l = l -> NoDup l.
Proof. intros E. rewrite <- E. apply NoDup_nodup. Qed.

Lemma Zpos_of_nat (n : nat) : 0 < n -> Z.pos (Pos.of_nat n) = Z.of_nat n.
Proof.
  intros Hn. rewrite <- positive_nat_Z, Nat2Pos.id; [reflexivity|lia].
Qed.

Lemma Zsum_bounds (lo hi : Z) (l : list Z) :
  (forall s, In s l -> (lo <= s <= hi)%Z) ->
  (lo * Z.of_nat (List.length l) <= Zsum l <= hi * Z.of_nat (List.length l))%Z.
Proof.
  unfold Zsum. induction l as [|s l IH]; intros Hall.
  - simpl. lia.
  - cbn [fold_right List.length].
    assert (Hs : (lo <= s <= hi)%Z) by (apply Hall; left; reflexivity).
    assert (Hl : forall s', In s' l -> (lo <= s' <= hi)%Z)
      by (intros s' Hs'; apply Hall; right; exact Hs').
    specialize (IH Hl). lia.
Qed.

Lemma Zsum_below (hi : Z) (l : list Z) :
  l <> [] ->
  (forall s, In s l -> (s < hi)%Z) ->
  (Zsum l < hi * Z.of_nat (List.length l))%Z.
Proof.
  unfold Zsum. induction l as [|s l IH]; intros Hne Hall; [contradiction|].
  cbn [fold_right List.length].
  assert (Hs : (s < hi)%Z) by (apply Hall; left; reflexivity).
  destruct l as [|s' l'].
  - simpl. lia.
  - assert (IH' : (fold_right Z.add 0 (s' :: l')
                   < hi * Z.of_nat (List.length (s' :: l')))%Z).
    { apply IH; [discriminate|]. intros x Hx. apply Hall. right. exact Hx. }
    lia.
Qed.

Lemma validated_scores_range (self : validator)
  (responses : list (string * string)) (s : Z) :
  In s (validated_scores self responses) -> (0 <= s <= 100)%Z.
Proof.
  unfold validated_scores. intros Hin. apply in_map_iff in Hin.
  destruct Hin as (it & <- & _). apply score_range.
Qed.

(** The summary of the report, from the scores of the validated
    sections. *)
Lemma report_summary_fields
  (self : validator) (responses : list (string * string)) :
  average_score (summary (validate_full_review self responses))
  = PyFloat.round1 (float_mean (validated_scores self responses))
  /\ overall_status (summary (validate_full_review self responses))
     = overall (float_mean (validated_scores self responses))
  /\ sections_validated (summary (validate_full_review self responses))
     = List.length (validated_scores self responses).
Proof.
  unfold validate_full_review, float_mean.
  cbn [summary average_score overall_status sections_validated].
  unfold avg_score.
  destruct (fold_totals self responses (mkAcc [] 0%Z 0 [] [])) as [Hs Hn].
  rewrite Hs, Hn. cbn [total_score total_sections Nat.add Z.add].
  split; [reflexivity|]. split; reflexivity.
Qed.

Section FloatMean.

Variable scores : list Z.
Hypothesis Hrange : forall s, In s scores -> (0 <= s <= 100)%Z.
Hypothesis Hne : scores <> [].

Lemma scores_counted : 0 < List.length scores.
Proof. destruct scores; [contradiction|simpl; lia]. Qed.

Lemma float_mean_fl : float_mean scores = PyFloat.fl (mean scores).
Proof.
  unfold float_mean, mean, PyFloat.truediv.
  pose proof scores_counted as Hn. apply Nat.ltb_lt in Hn. rewrite Hn.
  reflexivity.
Qed.

Lemma mean_range : (0 <= mean scores)%Q /\ (mean scores <= 100)%Q.
Proof.
  pose proof (Zsum_bounds 0 100 scores Hrange) as Hb.
  pose proof (Zpos_of_nat _ scores_counted) as Hz.
  unfold mean, Qle. cbn [Qnum Qden]. rewrite Hz. lia.
Qed.

Lemma float_mean_range :
  (0 <= float_mean scores)%Q /\ (float_mean scores <= 100)%Q.
Proof.
  destruct mean_range as [H0 H100]. rewrite float_mean_fl. split.
  - apply (PyFloatProps.fl_ge _ 0 H0 H100). exact H0.
  - apply (PyFloatProps.fl_le _ 100 H0 H100). exact H100.
Qed.

Lemma float_mean_ge (z : Z) :
  (z * Z.of_nat (List.length scores) <= Zsum scores)%Z ->
  (z # 1 <= float_mean scores)%Q.
Proof.
  intros Hz. destruct mean_range as [H0 H100]. rewrite float_mean_fl.
  apply (PyFloatProps.fl_ge _ z H0 H100).
  pose proof (Zpos_of_nat _ scores_counted) as Hp.
  unfold mean, Qle. cbn [Qnum Qden]. rewrite Hp. lia.
Qed.

Lemma float_mean_le (z : Z) :
  (Zsum scores <= z * Z.of_nat (List.length scores))%Z ->
  (float_mean scores <= z # 1)%Q.
Proof.
  intros Hz. destruct mean_range as [H0 H100]. rewrite float_mean_fl.
  apply (PyFloatProps.fl_le _ z H0 H100).
  pose proof (Zpos_of_nat _ scores_counted) as Hp.
  unfold mean, Qle. cbn [Qnum Qden]. rewrite Hp. lia.
Qed.

(** With at most [2^45] scores, a mean below an integer gives a float
    below it. *)
Lemma float_mean_lt (z : Z) :
  (Z.of_nat (List.length scores) <= 2 ^ 45)%Z ->
  (Zsum scores < z * Z.of_nat (List.length scores))%Z ->
  (float_mean scores < z # 1)%Q.
Proof.
  intros Hsmall Hz. destruct mean_range as [H0 H100]. rewrite float_mean_fl.
  pose proof (Zpos_of_nat _ scores_counted) as Hp.
  apply (PyFloatProps.fl_lt _ z H0 H100).
  - unfold mean, Qlt. cbn [Qnum Qden]. rewrite Hp. lia.
  - unfold mean. cbn [Qden]. rewrite Hp. exact Hsmall.
Qed.

(** The reported average is within [1/20 + 2^-45] of the mean. *)
Lemma rounded_mean_close :
  (Qabs (PyFloat.round1 (float_mean scores) - mean scores)
   <= (1 # 20) + (1 # 2 ^ 45))%Q.
Proof.
  destruct mean_range as [H0 H100].
  destruct float_mean_range as [Hf0 Hf100].
  pose proof (PyFloatProps.round1_close _ Hf0 Hf100) as H1.
  pose proof (PyFloatProps.fl_close _ H0 H100) as H2.
  rewrite <- float_mean_fl in H2.
  set (r := PyFloat.round1 (float_mean scores)) in *.
  set (f := float_mean scores) in *. set (m := mean scores) in *.
  assert (E : (r - m == (r - f) + (f - m))%Q) by ring.
  rewrite E. eapply Qle_trans; [apply Qabs_triangle|].
  assert (E2 : ((1 # 20) + (1 # 2 ^ 45)
                == ((1 # 20) + (1 # 2 ^ 46)) + (1 # 2 ^ 46))%Q)
    by reflexivity.
  rewrite E2. apply Qplus_le_compat; assumption.
Qed.

End FloatMean.

Lemma overall_excellent (avg : Q) :
  (90 <= avg)%Q -> overall avg = "EXCELLENT".
Proof.
  intros H. unfold overall. apply Qle_bool_iff in H. rewrite H. reflexivity.
Qed.

Lemma overall_cases (avg : Q) :
  ((90 <= avg)%Q /\ overall avg = "EXCELLENT")
  \/ ((75 <= avg)%Q /\ (avg < 90)%Q /\ overall avg = "GOOD")
  \/ ((avg < 75)%Q /\ overall avg = "NEEDS_IMPROVEMENT").
Proof.
  unfold overall.
  destruct (Qle_bool 90 avg) eqn:E90.
  - left. split; [apply Qle_bool_iff; exact E90|reflexivity].
  - right.
    assert (H90 : (avg < 90)%Q).
    { apply Qnot_le_lt. intros H. apply Qle_bool_iff in H. congruence. }
    destruct (Qle_bool 75 avg) eqn:E75.
    + left. split; [apply Qle_bool_iff; exact E75|]. split; [exact H90|].
      reflexivity.
    + right. split; [|reflexivity].
      apply Qnot_le_lt. intros H. apply Qle_bool_iff in H. congruence.
Qed.

Lemma overall_good (avg : Q) :
  (75 <= avg)%Q -> (avg < 90)%Q -> overall avg = "GOOD".
Proof.
  intros H75 H90.
  destruct (overall_cases avg) as [[H _]|[(_ & _ & H)|[H _]]];
    [|exact H|].
  - exfalso. exact (Qlt_not_le _ _ H90 H).
  - exfalso. exact (Qlt_not_le _ _ H H75).
Qed.

Lemma overall_needs_improvement (avg : Q) :
  (avg < 75)%Q -> overall avg = "NEEDS_IMPROVEMENT".
Proof.
  intros H75.
  destruct (overall_cases avg) as [[H _]|[(H & _ & _)|[_ H]]];
    [| |exact H].
  - exfalso. apply (Qlt_not_le _ _ H75).
    apply Qle_trans with (y := 90%Q); [unfold Qle; simpl; lia|exact H].
  - exfalso. exact (Qlt_not_le _ _ H75 H).
Qed.

(** C1, as stated, fails: of four sections, one blank with score 0 and
    three scoring 80, 80 and 75, the report's [average_score] is the
    float written 78.3, which is 78.3 rounded to the nearest float.  It
    is not the mean 58.75 of the four scores, and it is not the mean
    235/3 of the three scores that count either; three sections are
    counted. *)
Lemma average_skips_blank_sections :
  map (fun kv => r_score (snd kv)) (sections report_mixed)
    = [0%Z; 80%Z; 80%Z; 75%Z]
  /\ average_score (summary report_mixed) = PyFloat.fl (783 # 10)
  /\ average_score (summary report_mixed)
     = (5509872669111091 # 70368744177664)%Q
  /\ sections_validated (summary report_mixed) = 3
  /\ mean_of_all_sections report_mixed = (235 # 4)%Q
  /\ ~ (average_score (summary report_mixed)
        == mean_of_all_sections report_mixed)%Q
  /\ ~ (average_score (summary report_mixed) == 235 # 3)%Q.
Proof.
  repeat split; try (vm_compute; reflexivity); vm_compute; discriminate.
Qed.

(** C1, amended.  For every mapping of section names to responses, the
    [average_score] of the report is the arithmetic mean of the scores
    that [validate_section] gives to the sections whose response is not
    blank, computed as a float and rounded to one decimal: the true
    division of the sum by the number of these sections, then
    [round(., 1)].  It differs from the exact mean by at most
    [1/20 + 2^-45].  A section with an empty or white-space-only response
    counts neither in the sum nor in the denominator, nor in
    [sections_validated]; the average is 0 when every response is
    blank. *)
Theorem average_over_validated_sections
  (self : validator) (responses : list (string * string)) :
  let rep := validate_full_review self responses in
  let scores := validated_scores self responses in
  sections_validated (summary rep) = List.length scores
  /\ average_score (summary rep)
     = (if 0 <? List.length scores
        then PyFloat.round1
               (PyFloat.truediv (Zsum scores) (List.length scores))
        else 0%Q)
  /\ (0 < List.length scores ->
      (Qabs (average_score (summary rep)
             - (Zsum scores # Pos.of_nat (List.length scores)))
       <= (1 # 20) + (1 # 2 ^ 45))%Q)
  /\ (forall response : string,
        is_blank response = true <-> all_char isspace response = true).
Proof.
  cbv zeta.
  destruct (report_summary_fields self responses) as (Havg & _ & Hn).
  split; [exact Hn|]. split; [|split; [|exact is_blank_iff]].
  - rewrite Havg. unfold float_mean.
    destruct (0 <? List.length (validated_scores self responses));
      reflexivity.
  - intros Hpos. rewrite Havg.
    apply (rounded_mean_close (validated_scores self responses)).
    + apply validated_scores_range.
    + intros E. rewrite E in Hpos. simpl in Hpos. lia.
Qed.

Lemma average_over_validated_sections_witness :
  sections_validated (summary report_mixed) = 3
  /\ (Qabs (average_score (summary report_mixed) - (235 # 3))
      <= (1 # 20) + (1 # 2 ^ 45))%Q.
Proof.
  destruct (average_over_validated_sections validator_unknown
              responses_mixed) as (Hn & _ & Hclose & _).
  split; [exact Hn|]. apply Hclose. vm_compute. lia.
Defined.

(** ** Status bands *)

(** C7, as stated, fails on the overall status: the bands are not those
    of the [average_score] that the report shows.  Twenty sections of
    which nineteen score 90 and one scores 89 give an [average_score] of
    90.0 with the overall status GOOD, and nineteen that score 75 with
    one that scores 74 give 75.0 with NEEDS_IMPROVEMENT: the means 89.95
    and 74.95 are below the bounds, and they are rounded only for
    [average_score]. *)
Lemma overall_status_ignores_rounding :
  map (fun kv => r_score (snd kv)) (sections report_1799)
    = repeat 90%Z 19 ++ [89%Z]
  /\ (average_score (summary report_1799) == 90)%Q
  /\ overall_status (summary report_1799) = "GOOD"
  /\ map (fun kv => r_score (snd kv)) (sections report_1499)
     = repeat 75%Z 19 ++ [74%Z]
  /\ (average_score (summary report_1499) == 75)%Q
  /\ overall_status (summary report_1499) = "NEEDS_IMPROVEMENT".
Proof. vm_compute. repeat split. Qed.

(** C7, amended.  With section names pairwise different, the result
    stored for a section whose response is not blank carries the clamped
    score [max(0, 100 - sum(penalties))] and the status read off that
    score with inclusive lower bounds: 90 and above EXCELLENT, 75 to 89
    GOOD, 60 to 74 NEEDS_WORK, below 60 POOR, so 90, 89, 75, 74, 60 and 59
    fall as stated.  The overall status is decided on the mean of the
    scores of the validated sections before it is rounded: EXCELLENT when
    the mean is at least 90, that is when the sum is at least 90 times
    the number of these sections, GOOD when it is at least 75 and below
    90, NEEDS_IMPROVEMENT when it is below 75 or when no section is
    validated (the two statements with a strict bound for at most [2^45]
    sections, so that the float division cannot reach the bound).  On
    the [average_score] of the report, which is rounded, the bands hold
    in one direction only: EXCELLENT gives an [average_score] of at least
    90, GOOD one from 75 to 90, NEEDS_IMPROVEMENT one of at most 75. *)
Theorem status_bands (self : validator) (responses : list (string * string)) :
  let rep := validate_full_review self responses in
  let scores := validated_scores self responses in
  let n := Z.of_nat (List.length scores) in
  (NoDup (map fst responses) ->
   forall name response,
     In (name, response) responses ->
     is_blank response = false ->
     exists res,
       lookup (sections rep) name = Some res
       /\ r_score res
          = Z.max 0 (100 - Zsum (penalty_table self name response))
       /\ r_status res = section_status (r_score res)
       /\ ((90 <= r_score res)%Z -> r_status res = "EXCELLENT")
       /\ ((75 <= r_score res < 90)%Z -> r_status res = "GOOD")
       /\ ((60 <= r_score res < 75)%Z -> r_status res = "NEEDS_WORK")
       /\ ((r_score res < 60)%Z -> r_status res = "POOR"))
  /\ (section_status 90 = "EXCELLENT" /\ section_status 89 = "GOOD"
      /\ section_status 75 = "GOOD" /\ section_status 74 = "NEEDS_WORK"
      /\ section_status 60 = "NEEDS_WORK" /\ section_status 59 = "POOR")
  /\ (scores = [] -> overall_status (summary rep) = "NEEDS_IMPROVEMENT")
  /\ (scores <> [] -> (90 * n <= Zsum scores)%Z ->
      overall_status (summary rep) = "EXCELLENT")
  /\ (scores <> [] -> (n <= 2 ^ 45)%Z ->
      (75 * n <= Zsum scores < 90 * n)%Z ->
      overall_status (summary rep) = "GOOD")
  /\ (scores <> [] -> (n <= 2 ^ 45)%Z -> (Zsum scores < 75 * n)%Z ->
      overall_status (summary rep) = "NEEDS_IMPROVEMENT")
  /\ (overall_status (summary rep) = "EXCELLENT" ->
      (90 <= average_score (summary rep))%Q)
  /\ (overall_status (summary rep) = "GOOD" ->
      (75 <= average_score (summary rep))%Q
      /\ (average_score (summary rep) <= 90)%Q)
  /\ (overall_status (summary rep) = "NEEDS_IMPROVEMENT" ->
      (average_score (summary rep) <= 75)%Q).
Proof.
  cbv zeta.
  assert (Hbands : forall s : Z,
             ((90 <= s)%Z -> section_status s = "EXCELLENT")
             /\ ((75 <= s < 90)%Z -> section_status s = "GOOD")
             /\ ((60 <= s < 75)%Z -> section_status s = "NEEDS_WORK")
             /\ ((s < 60)%Z -> section_status s = "POOR")).
  { intros s. unfold section_status.
    repeat split; intros H;
      repeat match goal with
             | |- context [(?a <=? ?b)%Z] => destruct (Z.leb_spec a b)
             end; try reflexivity; lia. }
  destruct (report_summary_fields self responses) as (Havg & Hov & _).
  pose proof (validated_scores_range self responses) as Hrange.
  remember (validated_scores self responses) as scores eqn:Hsc. clear Hsc.
  split.
  { intros Hnd name response Hin Hblank.
    exists (result_of self name response). split.
    - unfold validate_full_review. cbn [sections].
      apply fold_results_in; assumption.
    - unfold result_of. rewrite Hblank.
      pose proof (stored_score self name response) as Hs.
      unfold score_of in Hs.
      destruct (validate_section self name response) as [[errs warns] score].
      cbn [snd] in Hs. cbn [r_score r_status].
      split; [exact Hs|]. split; [reflexivity|].
      destruct (Hbands score) as (H1 & H2 & H3 & H4).
      split; [exact H1|]. split; [exact H2|]. split; [exact H3|exact H4]. }
  split; [repeat split|].
  rewrite Hov, Havg. clear Hov Havg.
  split.
  { intros E. rewrite E. reflexivity. }
  split.
  { intros Hne H90. apply overall_excellent.
    apply (float_mean_ge scores Hrange Hne 90). exact H90. }
  split.
  { intros Hne Hsmall [H75 H90]. apply overall_good.
    - apply (float_mean_ge scores Hrange Hne 75). exact H75.
    - apply (float_mean_lt scores Hrange Hne 90 Hsmall). exact H90. }
  split.
  { intros Hne Hsmall H75. apply overall_needs_improvement.
    apply (float_mean_lt scores Hrange Hne 75 Hsmall). exact H75. }
  assert (Hfm : (0 <= float_mean scores)%Q /\ (float_mean scores <= 100)%Q).
  { destruct scores as [|s0 l] eqn:E.
    - split; unfold Qle; simpl; lia.
    - apply float_mean_range; [exact Hrange|discriminate]. }
  destruct Hfm as [Hf0 Hf100].
  destruct (overall_cases (float_mean scores))
    as [[H Ho]|[(H75 & H90 & Ho)|[H Ho]]]; rewrite Ho.
  - split; [intros _|split; discriminate].
    apply (PyFloatProps.round1_ge _ 90 Hf0 Hf100). exact H.
  - split; [discriminate|]. split; [intros _|discriminate]. split.
    + apply (PyFloatProps.round1_ge _ 75 Hf0 Hf100). exact H75.
    + apply (PyFloatProps.round1_le _ 90 Hf0 Hf100).
      apply Qlt_le_weak. exact H90.
  - split; [discriminate|]. split; [discriminate|]. intros _.
    apply (PyFloatProps.round1_le _ 75 Hf0 Hf100).
    apply Qlt_le_weak. exact H.
Qed.

Lemma status_bands_witness :
  (exists res,
     lookup (sections report_mixed) "Growth" = Some res
     /\ r_score res = 75%Z
     /\ r_status res = "GOOD")
  /\ overall_status (summary report_mixed) = "GOOD".
Proof.
  destruct (status_bands validator_unknown responses_mixed)
    as (Hsec & _ & _ & _ & Hgood & _).
  split.
  - destruct (Hsec
                ltac:(apply NoDup_by_nodup; vm_compute; reflexivity)
                "Growth" response_75
                ltac:(do 3 right; left; reflexivity)
                ltac:(reflexivity))
      as (res & Hl & Hs & Hst & _ & Hg & _).
    exists res. split; [exact Hl|].
    assert (Hscore : r_score res = 75%Z)
      by (rewrite Hs; vm_compute; reflexivity).
    split; [exact Hscore|]. apply Hg. rewrite Hscore. lia.
  - apply Hgood.
    + vm_compute. discriminate.
    + vm_compute. discriminate.
    + vm_compute. split; [discriminate|reflexivity].
Defined.

End ValidatorProps.

(* ================================================================== *)
(** * Further properties of the parser *)
(* ================================================================== *)

Module ParserExtra.
Import PyStr Re Parser.
Local Open Scope nat_scope.

(** ** Derived quantities *)

(** A row contributes an objective when its title and its parent are not
    blank. *)
Definition qualifies (r : row) : bool :=
  (truthy (strip (get r "Title" ""))
   && truthy (strip (get r "Parent Objective Title" "")))%bool.

Definition parent_of (r : row) : string :=
  strip (get r "Parent Objective Title" "").

(** The objective that [_group_objectives] builds from a row. *)
Definition objective_of (r : row) : Objective :=
  mkObjective (strip (get r "Title" "")) (get r "State" "")
    (get r "Start Date" "") (get r "Due Date" "") (get r "Progress %" "0")
    (get r "Status" "").

(** [d.get(key, [])] *)
Definition find_list {A : Type} (d : list (string * list A)) (key : string)
  : list A :=
  match Validator.lookup d key with Some l => l | None => [] end.

(** The number of objectives held by a dictionary of categories. *)
Definition held {A : Type} (d : list (string * list A)) : nat :=
  list_sum (map (fun kv => List.length (snd kv)) d).

(** The corpus that [_extract_technologies] searches. *)
Definition all_text (table : list row) : string :=
  join " " (map (fun r => get r "Title" "") table).

(** The order of [sorted] on strings. *)
Definition string_le (a b : string) : Prop := String.leb a b = true.

(** ** Grouping *)

Lemma find_list_dd_append_same {A : Type} (d : list (string * list A))
  (k : string) (x : A) :
  find_list (dd_append d k x) k = find_list d k ++ [x].
Proof.
  unfold find_list. induction d as [|[k0 l] d IH]; simpl.
  - rewrite String.eqb_refl. reflexivity.
  - destruct (String.eqb k0 k) eqn:E; simpl; rewrite E; auto.
Qed.

Lemma find_list_dd_append_other {A : Type} (d : list (string * list A))
  (k k' : string) (x : A) :
  k <> k' -> find_list (dd_append d k x) k' = find_list d k'.
Proof.
  intros Hk. unfold find_list. induction d as [|[k0 l] d IH]; simpl.
  - apply String.eqb_neq in Hk. rewrite Hk. reflexivity.
  - destruct (String.eqb k0 k) eqn:E; simpl.
    + apply String.eqb_eq in E. subst k0.
      apply String.eqb_neq in Hk. rewrite Hk. reflexivity.
    + destruct (String.eqb k0 k'); auto.
Qed.

Lemma group_row_spec (objs : list (string * list Objective)) (r : row) :
  group_row objs r
  = if qualifies r then dd_append objs (parent_of r) (objective_of r)
    else objs.
Proof. reflexivity. Qed.

Lemma fold_group_find (rows : list row) :
  forall (objs : list (string * list Objective)) (k : string),
    find_list (fold_left group_row rows objs) k
    = find_list objs k
      ++ map objective_of
           (filter (fun r => (qualifies r && String.eqb (parent_of r) k)%bool)
                   rows).
Proof.
  induction rows as [|r rows IH]; intros objs k; cbn [fold_left filter map].
  - rewrite app_nil_r. reflexivity.
  - rewrite IH, group_row_spec.
    destruct (qualifies r); cbn [andb].
    + destruct (String.eqb_spec (parent_of r) k) as [->|Hne].
      * rewrite find_list_dd_append_same. cbn [map].
        rewrite <- app_assoc. reflexivity.
      * rewrite find_list_dd_append_other by exact Hne. reflexivity.
    + reflexivity.
Qed.

(** X1.  After [_group_objectives], the objectives under any category are
    those that were there before, followed by the objectives of the rows
    whose title and parent are not blank and whose stripped parent is
    that category, in the order of the rows: no such row is dropped, no
    other row contributes, nothing is reordered. *)
Theorem group_objectives_by_category (self : parser) (k : string) :
  find_list (self_objectives (_group_objectives self)) k
  = find_list (self_objectives self) k
    ++ map objective_of
         (filter (fun r => (qualifies r && String.eqb (parent_of r) k)%bool)
                 (self_raw_data self)).
Proof. unfold _group_objectives. cbn [self_objectives]. apply fold_group_find. Qed.

Lemma dd_append_keys {A : Type} (d : list (string * list A)) (k : string)
  (x : A) :
  map fst (dd_append d k x)
  = if Validator.mem k (map fst d) then map fst d else map fst d ++ [k].
Proof.
  unfold Validator.mem. induction d as [|[k0 l] d IH]; simpl.
  - reflexivity.
  - rewrite (String.eqb_sym k k0).
    destruct (String.eqb k0 k) eqn:E; simpl.
    + reflexivity.
    + rewrite IH. destruct (existsb (String.eqb k) (map fst d)); reflexivity.
Qed.

Lemma mem_false_not_in (k : string) (l : list string) :
  Validator.mem k l = false -> ~ In k l.
Proof.
  unfold Validator.mem. intros H Hin.
  assert (existsb (String.eqb k) l = true).
  { apply existsb_exists. exists k. split; [exact Hin|apply String.eqb_refl]. }
  congruence.
Qed.

Lemma dd_append_nodup {A : Type} (d : list (string * list A)) (k : string)
  (x : A) :
  NoDup (map fst d) -> NoDup (map fst (dd_append d k x)).
Proof.
  intros Hnd. rewrite dd_append_keys.
  destruct (Validator.mem k (map fst d)) eqn:E; [exact Hnd|].
  apply NoDup_app; [exact Hnd | repeat constructor; simpl; tauto |].
  intros y Hy [<-|[]]. exact (mem_false_not_in _ _ E Hy).
Qed.

Lemma dd_append_nonempty {A : Type} (d : list (string * list A)) (k : string)
  (x : A) :
  Forall (fun kv => snd kv <> []) d ->
  Forall (fun kv => snd kv <> []) (dd_append d k x).
Proof.
  induction 1 as [|[k0 l] d Hl Hd IH]; simpl.
  - repeat constructor. discriminate.
  - destruct (String.eqb k0 k); constructor; auto.
    simpl. destruct l; discriminate.
Qed.

Lemma dd_append_held {A : Type} (d : list (string * list A)) (k : string)
  (x : A) : held (dd_append d k x) = S (held d).
Proof.
  unfold held. induction d as [|[k0 l] d IH]; simpl.
  - reflexivity.
  - destruct (String.eqb k0 k); simpl.
    + rewrite length_app. simpl. lia.
    + rewrite IH. lia.
Qed.

Lemma fold_group_invariants (rows : list row) :
  forall objs : list (string * list Objective),
    (NoDup (map fst objs) -> NoDup (map fst (fold_left group_row rows objs)))
    /\ (Forall (fun kv => snd kv <> []) objs ->
        Forall (fun kv => snd kv <> []) (fold_left group_row rows objs))
    /\ held (fold_left group_row rows objs)
       = held objs + List.length (filter qualifies rows).
Proof.
  induction rows as [|r rows IH]; intros objs; cbn [fold_left filter].
  - split; [|split]; auto; cbn [List.length]; lia.
  - destruct (IH (group_row objs r)) as (Hk & Hn & Hh).
    rewrite group_row_spec in *. destruct (qualifies r).
    + split; [|split].
      * intros H. apply Hk, dd_append_nodup, H.
      * intros H. apply Hn, dd_append_nonempty, H.
      * rewrite Hh, dd_append_held. cbn [List.length]. lia.
    + split; [|split]; auto.
Qed.

(** X2.  Parsing keeps the dictionary of objectives well formed: when
    the parser's category names are pairwise different and no category is
    empty, as in a new parser, the same holds of the objectives of the
    dataset that [parse] returns; in particular grouping never produces a
    category without objectives. *)
Theorem parse_objectives_well_formed (table : list row) (self : parser) :
  NoDup (map fst (self_objectives self)) ->
  Forall (fun kv => snd kv <> []) (self_objectives self) ->
  NoDup (map fst (objectives (fst (parse table self))))
  /\ Forall (fun kv => snd kv <> []) (objectives (fst (parse table self))).
Proof.
  intros Hnd Hne.
  assert (Ho : objectives (fst (parse table self))
               = fold_left group_row table (self_objectives self))
    by (destruct table; reflexivity).
  rewrite Ho.
  destruct (fold_group_invariants table (self_objectives self)) as (Hk & Hn & _).
  split; auto.
Qed.

Lemma parse_objectives_well_formed_witness :
  NoDup (map fst (objectives (fst (parse
           [[("Title", "Ship it"); ("Parent Objective Title", "Impact")];
            [("Title", "No parent")]] init)))).
Proof.
  refine (proj1 (parse_objectives_well_formed _ init _ _)).
  - constructor.
  - constructor.
Defined.

(** ** The stages of [parse] *)

(** The parser before [_extract_technologies] runs. *)
Definition before_technologies (table : list row) (self : parser) : parser :=
  _extract_metrics
    (_group_objectives (_extract_metadata (_read_csv table self))).

(** The body of the loop of [_extract_technologies] over the keywords. *)
Definition detect (txt : string) (techs : list string) (tech : string)
  : list string :=
  match search (Lit tech) txt with
  | Some _ => set_add techs tech
  | None => techs
  end.

(** The parser at the end of [parse]. *)
Definition parsed (table : list row) (self : parser) : parser :=
  _extract_technologies (before_technologies table self).

Lemma parse_stages (table : list row) (self : parser) :
  parse table self
  = (mkDataset (self_metadata (parsed table self))
       (self_objectives (parsed table self))
       (self_metrics (parsed table self))
       (sorted (self_technologies (parsed table self)))
       (_generate_summary (parsed table self)),
     parsed table self).
Proof. reflexivity. Qed.

Lemma before_technologies_fields (table : list row) (self : parser) :
  self_raw_data (before_technologies table self) = table
  /\ self_technologies (before_technologies table self)
     = self_technologies self
  /\ self_objectives (before_technologies table self)
     = fold_left group_row table (self_objectives self)
  /\ self_metrics (before_technologies table self)
     = self_metrics self ++ flat_map metrics_of_row table.
Proof. destruct table; repeat split. Qed.

Lemma parsed_fields (table : list row) (self : parser) :
  self_objectives (parsed table self)
    = fold_left group_row table (self_objectives self)
  /\ self_metrics (parsed table self)
     = self_metrics self ++ flat_map metrics_of_row table
  /\ self_technologies (parsed table self)
     = fold_left (detect (all_text table)) tech_keywords
         (self_technologies self).
Proof.
  destruct (before_technologies_fields table self) as (Hr & Ht & Ho & Hm).
  unfold parsed, _extract_technologies. cbn [self_objectives self_metrics
    self_technologies]. rewrite Hr, Ht, Ho, Hm.
  split; [reflexivity|]. split; reflexivity.
Qed.

(** ** The summary *)

Lemma insert_sorted_length (x : string) (l : list string) :
  List.length (insert_sorted x l) = S (List.length l).
Proof.
  induction l as [|y l IH]; simpl; [reflexivity|].
  destruct (String.leb x y); simpl; [reflexivity|]. rewrite IH. reflexivity.
Qed.

Lemma sorted_length (l : list string) :
  List.length (sorted l) = List.length l.
Proof.
  unfold sorted. induction l as [|x l IH]; simpl; [reflexivity|].
  rewrite insert_sorted_length, IH. reflexivity.
Qed.

(** X3.  The summary of the dataset that [parse] returns agrees with the
    dataset: the metric and technology counts are the lengths of its
    lists, the categories are the keys of its objectives in order, each
    with the length of its list, and [total_objectives] is the number of
    objectives held.  That number is what the parser held before plus the
    number of rows whose title and parent are not blank. *)
Theorem summary_agrees_with_dataset (table : list row) (self : parser) :
  let d := fst (parse table self) in
  metrics_count (summary d) = List.length (metrics d)
  /\ technologies_count (summary d) = List.length (technologies d)
  /\ categories (summary d) = map fst (objectives d)
  /\ category_counts (summary d)
     = map (fun kv => (fst kv, List.length (snd kv))) (objectives d)
  /\ total_objectives (summary d) = held (objectives d)
  /\ total_objectives (summary d)
     = held (self_objectives self) + List.length (filter qualifies table).
Proof.
  cbv zeta. rewrite parse_stages.
  cbn [fst summary metrics technologies objectives _generate_summary
       metrics_count technologies_count categories category_counts
       total_objectives].
  rewrite sorted_length.
  destruct (parsed_fields table self) as (Ho & _ & _).
  repeat (split; [reflexivity|]).
  unfold held. rewrite Ho.
  apply (fold_group_invariants table (self_objectives self)).
Qed.

(** ** Metrics *)

Lemma startswith_prefix (len : nat) (s : string) :
  startswith (substring 0 len s) s = true.
Proof.
  revert s. induction len as [|len IH]; intros [|c s]; simpl; auto.
  rewrite Ascii.eqb_refl. apply IH.
Qed.

Lemma contains_unfold (sub s : string) :
  contains sub s
  = (startswith sub s
     || match s with "" => false | String _ s' => contains sub s' end)%bool.
Proof. destruct s; reflexivity. Qed.

Lemma contains_substring (n len : nat) (s : string) :
  contains (substring n len s) s = true.
Proof.
  revert s. induction n as [|n IH]; intros s.
  - rewrite contains_unfold, startswith_prefix. reflexivity.
  - destruct s as [|c s].
    + destruct len; reflexivity.
    + change (substring (S n) len (String c s)) with (substring n len s).
      rewrite contains_unfold, IH. apply orb_true_r.
Qed.

Lemma metric_of_row_shape (r : row) (m : Metric) :
  In m (metrics_of_row r) ->
  full_context m = get r "Title" ""
  /\ contains (text m) (full_context m) = true
  /\ Forall (fun g => contains g (full_context m) = true) (groups m).
Proof.
  unfold metrics_of_row, metrics_of_pattern. intros Hin.
  apply in_flat_map in Hin. destruct Hin as (p & _ & Hin).
  apply in_map_iff in Hin. destruct Hin as (mo & <- & _).
  cbn [full_context text groups]. split; [reflexivity|]. split.
  - apply contains_substring.
  - unfold Re.groups. apply Forall_forall. intros g Hg.
    apply in_map_iff in Hg. destruct Hg as (se & <- & _).
    apply contains_substring.
Qed.

(** X4.  Every metric of a dataset parsed by a new parser comes from a
    row of the table: its context is that row's title, its text occurs
    verbatim in the title, and so does each of its captured groups. *)
Theorem metric_text_occurs_in_title (table : list row) (m : Metric) :
  In m (metrics (fst (parse table init))) ->
  exists r,
    In r table
    /\ full_context m = get r "Title" ""
    /\ contains (text m) (get r "Title" "") = true
    /\ Forall (fun g => contains g (get r "Title" "") = true) (groups m).
Proof.
  intros Hin.
  rewrite parse_stages in Hin. cbn [fst metrics] in Hin.
  rewrite (proj1 (proj2 (parsed_fields table init))) in Hin.
  cbn [self_metrics init app] in Hin. apply in_flat_map in Hin. destruct Hin as (r & Hr & Hin).
  destruct (metric_of_row_shape r m Hin) as (Hc & Ht & Hg).
  exists r. rewrite <- Hc. auto.
Qed.

Lemma metric_text_occurs_in_title_witness :
  exists r,
    In r [[("Title", "Cut p95 from 10s to 250ms")]]
    /\ full_context (mkMetric "10s to 250ms" "Cut p95 from 10s to 250ms"
                       ["10"; "s"; "250"; "ms"])
       = get r "Title" ""
    /\ contains "10s to 250ms" (get r "Title" "") = true
    /\ Forall (fun g => contains g (get r "Title" "") = true)
         ["10"; "s"; "250"; "ms"].
Proof.
  apply (metric_text_occurs_in_title
           [[("Title", "Cut p95 from 10s to 250ms")]]
           (mkMetric "10s to 250ms" "Cut p95 from 10s to 250ms"
              ["10"; "s"; "250"; "ms"])).
  vm_compute. left. reflexivity.
Defined.

(** ** Titles without a digit *)

Lemma eat_no_digit (w : string) :
  forall (s : string) (last : option ascii) (s' : string) (l : option ascii),
    eat w s last = Some (s', l) ->
    any_char isdecimal s = false -> any_char isdecimal s' = false.
Proof.
  induction w as [|a w IH]; intros s last s' l Heat Hs; cbn [eat] in Heat.
  - injection Heat as <- _. exact Hs.
  - destruct s as [|x s]; [discriminate|].
    destruct (cmatch (Chr a) x); [|discriminate].
    simpl in Hs. apply orb_false_iff in Hs. destruct Hs as [_ Hs].
    exact (IH s (Some x) s' l Heat Hs).
Qed.

(** A pattern with a [\d] that is not optional matches nowhere in a text
    without a decimal digit. *)
Lemma m_needs_digit (p : pattern) :
  In (One Digit) p ->
  forall prev s pos op caps,
    any_char isdecimal s = false -> m p prev s pos op caps = None.
Proof.
  induction p as [|a p IH]; intros Hin; [destruct Hin|].
  assert (Htail : a <> One Digit ->
                  forall prev s pos op caps,
                    any_char isdecimal s = false ->
                    m p prev s pos op caps = None).
  { intros Ha. apply IH. destruct Hin as [Heq|Hin]; [contradiction|exact Hin]. }
  destruct a as [c| c | c | | alts | | ].
  - intros prev s pos op caps Hs. simpl.
    destruct s as [|x s]; [reflexivity|].
    simpl in Hs. apply orb_false_iff in Hs. destruct Hs as [Hx Hs].
    destruct (cmatch c x) eqn:Hc; [|reflexivity].
    destruct Hin as [Heq|Hin].
    + injection Heq as ->. simpl in Hc. congruence.
    + apply IH; assumption.
  - specialize (Htail ltac:(discriminate)).
    intros prev s. revert prev.
    induction s as [|x s IHs]; intros prev pos op caps Hs; simpl.
    + apply Htail. exact Hs.
    + pose proof Hs as Hs'. simpl in Hs'. apply orb_false_iff in Hs'.
      destruct Hs' as [_ Hs'].
      destruct (cmatch c x).
      * change ((fix star (prev0 : option ascii) (s0 : string)
                   (pos0 op0 : nat) (caps0 : spans) {struct s0}
                 : option (nat * spans) :=
                   match s0 with
                   | "" => m p prev0 s0 pos0 op0 caps0
                   | String x0 s'0 =>
                       if cmatch c x0
                       then match star (Some x0) s'0 (S pos0) op0 caps0 with
                            | Some r => Some r
                            | None => m p prev0 s0 pos0 op0 caps0
                            end
                       else m p prev0 s0 pos0 op0 caps0
                   end) (Some x) s (S pos) op caps)
          with (m (Star c :: p) (Some x) s (S pos) op caps).
        rewrite (IHs (Some x) (S pos) op caps Hs').
        apply Htail. exact Hs.
      * apply Htail. exact Hs.
  - specialize (Htail ltac:(discriminate)).
    intros prev s pos op caps Hs. simpl.
    destruct s as [|x s]; [apply Htail; exact Hs|].
    pose proof Hs as Hs'. simpl in Hs'. apply orb_false_iff in Hs'.
    destruct Hs' as [_ Hs'].
    destruct (cmatch c x); [|apply Htail; exact Hs].
    rewrite (Htail (Some x) s (S pos) op caps Hs'). apply Htail. exact Hs.
  - specialize (Htail ltac:(discriminate)).
    intros prev s pos op caps Hs. simpl.
    destruct (xorb (word_opt prev) (word_opt (head_opt s)));
      [apply Htail; exact Hs|reflexivity].
  - specialize (Htail ltac:(discriminate)).
    intros prev s pos op caps Hs. simpl. clear Hin IH.
    induction alts as [|w alts IHa]; [reflexivity|].
    destruct (eat w s prev) as [[s' last]|] eqn:Heat; [|exact IHa].
    rewrite (Htail last s' (pos + String.length w) op caps
               (eat_no_digit w s prev s' last Heat Hs)).
    exact IHa.
  - specialize (Htail ltac:(discriminate)).
    intros prev s pos op caps Hs. simpl. apply Htail. exact Hs.
  - specialize (Htail ltac:(discriminate)).
    intros prev s pos op caps Hs. simpl. apply Htail. exact Hs.
Qed.

Lemma search_aux_needs_digit (p : pattern) :
  In (One Digit) p ->
  forall s prev pos,
    any_char isdecimal s = false -> search_aux p prev s pos = None.
Proof.
  intros Hin. induction s as [|x s IH]; intros prev pos Hs; simpl.
  - rewrite (m_needs_digit p Hin); [reflexivity|exact Hs].
  - rewrite (m_needs_digit p Hin) by exact Hs.
    simpl in Hs. apply orb_false_iff in Hs. apply IH. tauto.
Qed.

Lemma drop_no_digit (n : nat) :
  forall s, any_char isdecimal s = false ->
            any_char isdecimal (drop n s) = false.
Proof.
  induction n as [|n IH]; intros [|x s] Hs; simpl; auto.
  simpl in Hs. apply orb_false_iff in Hs. apply IH. tauto.
Qed.

Lemma finditer_needs_digit (p : pattern) (title : string) :
  In (One Digit) p ->
  any_char isdecimal title = false -> finditer p title = [].
Proof.
  intros Hin Hs. unfold finditer. cbn [finditer_aux]. unfold search_from.
  rewrite (search_aux_needs_digit p Hin); [reflexivity|].
  apply drop_no_digit. exact Hs.
Qed.

Definition is_digit_item (it : item) : bool :=
  match it with One Digit => true | _ => false end.

Lemma is_digit_item_in (p : pattern) :
  existsb is_digit_item p = true -> In (One Digit) p.
Proof.
  intros H. apply existsb_exists in H. destruct H as (it & Hin & Hit).
  destruct it as [[]| | | | | |]; try discriminate. exact Hin.
Qed.

Lemma metric_patterns_need_digit :
  Forall (fun p => In (One Digit) p) metric_patterns.
Proof.
  apply Forall_forall. intros p Hp. apply is_digit_item_in.
  revert p Hp. apply Forall_forall. repeat constructor.
Qed.

Lemma metrics_of_row_no_digit (r : row) :
  any_char isdecimal (get r "Title" "") = false -> metrics_of_row r = [].
Proof.
  intros Hs. unfold metrics_of_row.
  pose proof metric_patterns_need_digit as Hall.
  induction Hall as [|p ps Hp _ IH]; [reflexivity|].
  cbn [flat_map]. rewrite IH. unfold metrics_of_pattern.
  rewrite (finditer_needs_digit p _ Hp Hs). reflexivity.
Qed.

(** X5.  A table whose titles hold no decimal digit yields no metric:
    each of the eight patterns needs at least one digit. *)
Theorem no_digit_no_metric (table : list row) :
  (forall r, In r table -> any_char isdecimal (get r "Title" "") = false) ->
  metrics (fst (parse table init)) = []
  /\ metrics_count (summary (fst (parse table init))) = 0.
Proof.
  intros Hall.
  rewrite parse_stages.
  cbn [fst summary metrics _generate_summary metrics_count].
  rewrite (proj1 (proj2 (parsed_fields table init))).
  cbn [self_metrics init app].
  assert (Hnil : flat_map metrics_of_row table = []).
  { induction table as [|r table IH]; [reflexivity|].
    cbn [flat_map]. rewrite (metrics_of_row_no_digit r), IH; auto.
    - intros r' Hr'. apply Hall. right. exact Hr'.
    - apply Hall. left. reflexivity. }
  rewrite Hnil. split; reflexivity.
Qed.

Lemma no_digit_no_metric_witness :
  metrics (fst (parse [[("Title", "Migrate storage to MMKV")];
                       [("Owner", "Ann")]] init)) = [].
Proof.
  refine (proj1 (no_digit_no_metric _ _)).
  intros r [<-|[<-|[]]]; reflexivity.
Defined.

(** ** Technologies *)

(** Searching for a keyword made literal is a substring test that
    ignores case. *)
Lemma m_lit (w : string) :
  forall prev s pos op caps,
    m (Lit w) prev s pos op caps
    = if startswith (lower w) (lower s)
      then Some (pos + String.length w, rev caps) else None.
Proof.
  induction w as [|a w IH]; intros prev s pos op caps; simpl.
  - rewrite Nat.add_0_r. reflexivity.
  - destruct s as [|x s]; simpl; [reflexivity|].
    rewrite (Ascii.eqb_sym (lower_char a) (lower_char x)).
    destruct (Ascii.eqb (lower_char x) (lower_char a)); simpl; [|reflexivity].
    rewrite IH. rewrite Nat.add_succ_r. reflexivity.
Qed.

Definition found (o : option match_obj) : bool :=
  match o with Some _ => true | None => false end.

Lemma search_aux_lit (w : string) :
  forall s prev pos,
    found (search_aux (Lit w) prev s pos) = contains (lower w) (lower s).
Proof.
  induction s as [|x s IH]; intros prev pos; simpl; rewrite m_lit.
  - simpl. destruct (startswith (lower w) ""); reflexivity.
  - simpl lower.
    destruct (startswith (lower w) (String (lower_char x) (lower s)));
      [reflexivity|].
    simpl. apply IH.
Qed.

Lemma search_lit (w text : string) :
  found (search (Lit w) text) = contains (lower w) (lower text).
Proof.
  unfold search, search_from. cbn [drop char_before]. apply search_aux_lit.
Qed.

Lemma parse_technologies (table : list row) (self : parser) :
  self_technologies (snd (parse table self))
  = fold_left (detect (all_text table)) tech_keywords (self_technologies self)
  /\ technologies (fst (parse table self))
     = sorted (self_technologies (snd (parse table self))).
Proof.
  rewrite parse_stages. cbn [fst snd technologies].
  split; [apply parsed_fields|reflexivity].
Qed.

Lemma mem_true_in (x : string) (l : list string) :
  existsb (String.eqb x) l = true <-> In x l.
Proof.
  rewrite existsb_exists. split.
  - intros (y & Hy & E). apply String.eqb_eq in E. subst. exact Hy.
  - intros H. exists x. split; [exact H|apply String.eqb_refl].
Qed.

Lemma set_add_in (l : list string) (y x : string) :
  In x (set_add l y) <-> In x l \/ x = y.
Proof.
  unfold set_add. destruct (existsb (String.eqb y) l) eqn:E.
  - apply mem_true_in in E. split; [tauto|]. intros [H| ->]; assumption.
  - rewrite in_app_iff. simpl. intuition auto.
Qed.

Lemma detect_in (txt : string) (l : list string) :
  forall acc x,
    In x (fold_left (detect txt) l acc)
    <-> In x acc
        \/ (In x l /\ contains (lower x) (lower txt) = true).
Proof.
  induction l as [|t l IH]; intros acc x; cbn [fold_left].
  - simpl. tauto.
  - rewrite IH. unfold detect.
    pose proof (search_lit t txt) as Hs.
    destruct (search (Lit t) txt); simpl in Hs.
    + rewrite set_add_in. simpl. split.
      * intros [[H| ->]|[H1 H2]]; auto.
      * intros [H|[[<-|H1] H2]]; auto.
    + simpl. split.
      * intros [H|[H1 H2]]; auto.
      * intros [H|[[<-|H1] H2]]; auto. congruence.
Qed.

Lemma insert_sorted_in (y : string) (l : list string) (x : string) :
  In x (insert_sorted y l) <-> x = y \/ In x l.
Proof.
  induction l as [|z l IH]; simpl.
  - split; intros [H|H]; auto.
  - destruct (String.leb y z); simpl.
    + split; intros [H|H]; auto.
    + rewrite IH. split; intros H; tauto.
Qed.

Lemma sorted_in (l : list string) (x : string) :
  In x (sorted l) <-> In x l.
Proof.
  unfold sorted. induction l as [|y l IH]; simpl; [tauto|].
  rewrite insert_sorted_in, IH. split; intros [H|H]; auto.
Qed.

(** X6.  A technology is in the dataset of a new parser exactly when it
    is one of the keywords and occurs, whatever the case of its letters,
    in the titles joined by single spaces. *)
Theorem technology_detected_iff (table : list row) (t : string) :
  In t (technologies (fst (parse table init)))
  <-> In t tech_keywords
      /\ contains (lower t) (lower (all_text table)) = true.
Proof.
  destruct (parse_technologies table init) as [Hs Hd].
  rewrite Hd, sorted_in, Hs, detect_in. cbn [self_technologies init In].
  tauto.
Qed.

Lemma technology_detected_iff_witness :
  In "Kafka" (technologies (fst (parse
       [[("Title", "Move the KAFKA consumers")]; [("Title", "to v2")]] init))).
Proof.
  apply (proj2 (technology_detected_iff _ "Kafka")). split.
  - cbv. repeat (first [left; reflexivity | right]).
  - vm_compute. reflexivity.
Defined.

Lemma string_le_total (a b : string) :
  String.leb a b = false -> string_le b a.
Proof.
  intros H. destruct (String.leb_total a b) as [H'|H']; [congruence|exact H'].
Qed.

Lemma insert_sorted_hd (x a : string) (l : list string) :
  string_le a x -> HdRel string_le a l ->
  HdRel string_le a (insert_sorted x l).
Proof.
  intros Hax Hl. destruct l as [|y l]; simpl.
  - constructor. exact Hax.
  - destruct (String.leb x y); constructor; [exact Hax|].
    inversion Hl; assumption.
Qed.

Lemma insert_sorted_sorted (x : string) (l : list string) :
  Sorted string_le l -> Sorted string_le (insert_sorted x l).
Proof.
  induction 1 as [|y l Hs IH Hhd]; simpl.
  - repeat constructor.
  - destruct (String.leb x y) eqn:E.
    + constructor; [constructor; assumption|]. constructor. exact E.
    + constructor; [exact IH|].
      apply insert_sorted_hd; [apply string_le_total; exact E|exact Hhd].
Qed.

Lemma sorted_sorted (l : list string) : Sorted string_le (sorted l).
Proof.
  unfold sorted. induction l as [|x l IH]; simpl; [constructor|].
  apply insert_sorted_sorted. exact IH.
Qed.

Lemma insert_sorted_nodup (x : string) (l : list string) :
  ~ In x l -> NoDup l -> NoDup (insert_sorted x l).
Proof.
  intros Hx Hl. induction Hl as [|y l Hy Hl IH]; simpl.
  - repeat constructor. simpl. tauto.
  - destruct (String.leb x y).
    + constructor; [exact Hx|]. constructor; assumption.
    + constructor.
      * rewrite insert_sorted_in. intros [->|H]; [|contradiction].
        apply Hx. left. reflexivity.
      * apply IH. intros H. apply Hx. right. exact H.
Qed.

Lemma sorted_nodup (l : list string) : NoDup l -> NoDup (sorted l).
Proof.
  unfold sorted. induction 1 as [|x l Hx Hl IH]; simpl; [constructor|].
  apply insert_sorted_nodup; [|exact IH].
  change (fold_right insert_sorted [] l) with (sorted l).
  rewrite sorted_in. exact Hx.
Qed.

Lemma set_add_nodup (l : list string) (y : string) :
  NoDup l -> NoDup (set_add l y).
Proof.
  intros Hl. unfold set_add. destruct (existsb (String.eqb y) l) eqn:E.
  - exact Hl.
  - apply NoDup_app; [exact Hl | repeat constructor; simpl; tauto |].
    intros x Hx [<-|[]].
    apply mem_true_in in Hx. congruence.
Qed.

Lemma detect_nodup (txt : string) (l : list string) :
  forall acc, NoDup acc -> NoDup (fold_left (detect txt) l acc).
Proof.
  induction l as [|t l IH]; intros acc Hacc; cbn [fold_left]; [exact Hacc|].
  apply IH. unfold detect. destruct (search (Lit t) txt); [|exact Hacc].
  apply set_add_nodup. exact Hacc.
Qed.

(** X7.  The technologies of a dataset are in increasing order of their
    strings, and no name is listed twice when the parser's set held none
    twice, as in a new parser. *)
Theorem technologies_sorted_distinct (table : list row) (self : parser) :
  Sorted string_le (technologies (fst (parse table self)))
  /\ (NoDup (self_technologies self) ->
      NoDup (technologies (fst (parse table self)))).
Proof.
  destruct (parse_technologies table self) as [Hs Hd]. rewrite Hd. split.
  - apply sorted_sorted.
  - intros Hnd. apply sorted_nodup. rewrite Hs. apply detect_nodup. exact Hnd.
Qed.

Lemma technologies_sorted_distinct_witness :
  NoDup (technologies (fst (parse
           [[("Title", "Kafka to ClickHouse via the API and the api")]] init))).
Proof.
  apply (proj2 (technologies_sorted_distinct _ init)). constructor.
Defined.

Lemma detect_fixed (txt : string) (l : list string) (acc : list string) :
  (forall t, In t l -> contains (lower t) (lower txt) = true -> In t acc) ->
  fold_left (detect txt) l acc = acc.
Proof.
  induction l as [|t l IH]; intros Hall; cbn [fold_left]; [reflexivity|].
  assert (Hstep : detect txt acc t = acc).
  { unfold detect. pose proof (search_lit t txt) as Hs.
    destruct (search (Lit t) txt); [|reflexivity]. simpl in Hs.
    unfold set_add.
    assert (Hin : In t acc) by (apply Hall; [left; reflexivity|auto]).
    apply mem_true_in in Hin. rewrite Hin. reflexivity. }
  rewrite Hstep. apply IH. intros t' Ht'. apply Hall. right. exact Ht'.
Qed.

(** X8.  Parsing the same table a second time with the same parser
    leaves the set of technologies as the first parse left it: detection
    adds to a set, so nothing is entered twice. *)
Theorem technologies_stable_on_reparse (table : list row) (self : parser) :
  let self1 := snd (parse table self) in
  self_technologies (snd (parse table self1)) = self_technologies self1
  /\ technologies (fst (parse table self1))
     = technologies (fst (parse table self)).
Proof.
  cbv zeta.
  assert (H1 : self_technologies (snd (parse table (snd (parse table self))))
               = self_technologies (snd (parse table self))).
  { rewrite (proj1 (parse_technologies table (snd (parse table self)))).
    apply detect_fixed. intros t Ht Hc.
    rewrite (proj1 (parse_technologies table self)).
    apply detect_in. right. auto. }
  split; [exact H1|].
  rewrite (proj2 (parse_technologies table (snd (parse table self)))), H1.
  symmetry. apply (proj2 (parse_technologies table self)).
Qed.

(** ** From the dataset to the validator *)

Lemma parsed_metadata (table : list row) (self : parser) :
  self_metadata (parsed table self)
  = match table with
    | [] => self_metadata self
    | first_row :: _ =>
        [ ("owner", strip (get first_row "Owner" ""));
          ("owner_email", strip (get first_row "Owner Email" ""));
          ("team", strip (get first_row "Teams" ""));
          ("role", _infer_role first_row) ]
    end.
Proof. unfold parsed. destruct table; reflexivity. Qed.

Lemma rstrip_idempotent (s : string) : rstrip (rstrip s) = rstrip s.
Proof.
  induction s as [|c s IH]; [reflexivity|].
  cbn [rstrip].
  destruct (isspace c && negb (truthy (rstrip s)))%bool eqn:E; [reflexivity|].
  cbn [rstrip]. rewrite IH, E. reflexivity.
Qed.

(** [strip] leaves nothing to strip. *)
Lemma strip_idempotent (s : string) : strip (strip s) = strip s.
Proof.
  unfold strip. destruct (all_char isspace s) eqn:Hall.
  - rewrite (ValidatorProps.lstrip_all_space s Hall). reflexivity.
  - destruct (ValidatorProps.lstrip_head s Hall) as (c & t & Hl & Hc).
    rewrite Hl, (ValidatorProps.rstrip_head c t Hc).
    cbn [lstrip]. rewrite Hc.
    rewrite (ValidatorProps.rstrip_head c _ Hc), rstrip_idempotent.
    reflexivity.
Qed.

(** X9.  A validator can be built from the dataset of a new parser
    exactly when the table has at least one record.  For a table with a
    first record, whatever the parser held, the validator takes its role
    from the role inferred on that record and its team from the record's
    Teams cell with the white space at both ends removed (stripping the
    team again changes nothing), its metric texts from the dataset's
    metrics in order and its technologies from the dataset. *)
Theorem validator_from_parse :
  (forall table, Validator.new (fst (parse table init)) = None <-> table = [])
  /\ (forall first_row rest self,
        let d := fst (parse (first_row :: rest) self) in
        exists v,
          Validator.new d = Some v
          /\ Validator.role v = _infer_role first_row
          /\ Validator.team v = strip (get first_row "Teams" "")
          /\ strip (Validator.team v) = Validator.team v
          /\ Validator.metrics_texts v = map text (metrics d)
          /\ Validator.technologies v = technologies d).
Proof.
  assert (Hsome : forall first_row rest self,
             Validator.new (fst (parse (first_row :: rest) self))
             = Some (Validator.mkValidator
                       (map text (metrics (fst (parse (first_row :: rest) self))))
                       (technologies (fst (parse (first_row :: rest) self)))
                       (_infer_role first_row)
                       (strip (get first_row "Teams" "")))).
  { intros first_row rest self. unfold Validator.new.
    rewrite parse_stages. cbn [fst metadata metrics technologies].
    rewrite parsed_metadata. reflexivity. }
  split.
  - intros table. destruct table as [|first_row rest].
    + split; [reflexivity|]. intros _. unfold Validator.new.
      rewrite parse_stages. cbn [fst metadata]. rewrite parsed_metadata.
      reflexivity.
    + rewrite Hsome. split; discriminate.
  - intros first_row rest self. cbv zeta. eexists. split; [apply Hsome|].
    cbn [Validator.role Validator.team Validator.metrics_texts
         Validator.technologies].
    repeat (split; [reflexivity|]). split; [apply strip_idempotent|].
    split; reflexivity.
Qed.

(** ** [main] *)




(** A table without records: [parse] returns, [print_summary] raises on
    the empty metadata, and [main] ends in its exception handler. *)
Lemma main_empty_table_raises : main [] = None.
Proof. reflexivity. Qed.

End ParserExtra.

(* ================================================================== *)
(** * Further properties of the validator *)
(* ================================================================== *)

Module ValidatorExtra.
Import PyStr Validator ValidatorProps.
Local Open Scope nat_scope.

(** ** Derived quantities *)

(** The error that each of the first three checks can add. *)
Definition length_error (response : string) : list string :=
  if word_count response <? 40 then [msg_too_short (word_count response)]
  else [].

Definition role_error (self : validator) (response : string) : list string :=
  if (negb (String.eqb (role self) "UNKNOWN")
      && negb (contains (role self) response))%bool
  then [msg_role (role self)] else [].

Definition team_error (self : validator) (response : string) : list string :=
  if (truthy (team self) && negb (contains (team self) response))%bool
  then [msg_team (team self)] else [].

(** The items of [responses] that the loop validates. *)
Definition validated (responses : list (string * string))
  : list (string * string) :=
  filter (fun it => negb (is_blank (snd it))) responses.

(** ** The errors of a section *)

Lemma errors_of_validate (self : validator) (section_name response : string) :
  errors_of (validate_section self section_name response)
  = length_error response ++ role_error self response
    ++ team_error self response.
Proof.
  unfold validate_section, errors_of. cbn [fst].
  rewrite run_checks_findings. cbn [errors].
  change (flat_map (fun f => errors (f zero))
            (checks self section_name response))
    with (errors (check_length response zero)
          ++ errors (check_role self response zero)
          ++ errors (check_team self response zero)
          ++ flat_map (fun f => errors (f zero))
               (skipn 3 (checks self section_name response))).
  rewrite later_checks_no_error, app_nil_r.
  unfold check_length, check_role, check_team, length_error, role_error,
    team_error. cbv zeta.
  destruct (word_count response <? 40);
    [|destruct (word_count response <? 60);
      [|destruct (200 <? word_count response)]];
    destruct (negb (String.eqb (role self) "UNKNOWN")
              && negb (contains (role self) response))%bool;
    destruct (truthy (team self) && negb (contains (team self) response))%bool;
    reflexivity.
Qed.

Lemma length_error_short (response : string) :
  List.length (length_error response) <= 1.
Proof. unfold length_error. destruct (_ <? _); simpl; lia. Qed.

Lemma role_error_short (self : validator) (response : string) :
  List.length (role_error self response) <= 1.
Proof. unfold role_error. destruct (_ && _)%bool; simpl; lia. Qed.

Lemma team_error_short (self : validator) (response : string) :
  List.length (team_error self response) <= 1.
Proof. unfold team_error. destruct (_ && _)%bool; simpl; lia. Qed.

Lemma length_error_nil (response : string) :
  length_error response = [] <-> 40 <= word_count response.
Proof.
  unfold length_error.
  destruct (Nat.ltb_spec (word_count response) 40); split;
    try discriminate; try reflexivity; lia.
Qed.

Lemma role_error_nil (self : validator) (response : string) :
  role_error self response = []
  <-> role self = "UNKNOWN" \/ contains (role self) response = true.
Proof.
  unfold role_error.
  destruct (String.eqb_spec (role self) "UNKNOWN") as [Hr|Hr];
    destruct (contains (role self) response); cbn [negb andb];
    split; auto; try discriminate.
  intros [H|H]; [contradiction|discriminate].
Qed.

Lemma team_error_nil (self : validator) (response : string) :
  team_error self response = []
  <-> team self = "" \/ contains (team self) response = true.
Proof.
  unfold team_error.
  destruct (team self) as [|c t]; cbn [truthy andb]; [tauto|].
  destruct (contains (String c t) response); cbn [negb];
    split; auto; try discriminate.
  intros [H|H]; discriminate.
Qed.

(** X11.  The errors of [validate_section] are, in this order, the
    too-short error (fewer than 40 words), the missing-role error and the
    missing-team error, each present or not; there are at most three, and
    there is none exactly when the response has at least 40 words,
    mentions the role unless it is UNKNOWN, and mentions the team unless
    it is empty. *)
Theorem section_errors (self : validator) (section_name response : string) :
  errors_of (validate_section self section_name response)
  = length_error response ++ role_error self response
    ++ team_error self response
  /\ List.length (errors_of (validate_section self section_name response)) <= 3
  /\ (errors_of (validate_section self section_name response) = []
      <-> 40 <= word_count response
          /\ (role self = "UNKNOWN" \/ contains (role self) response = true)
          /\ (team self = "" \/ contains (team self) response = true)).
Proof.
  rewrite errors_of_validate. split; [reflexivity|]. split.
  - rewrite !length_app.
    pose proof (length_error_short response).
    pose proof (role_error_short self response).
    pose proof (team_error_short self response). lia.
  - rewrite <- length_error_nil, <- role_error_nil, <- team_error_nil.
    split.
    + intros H. apply app_eq_nil in H. destruct H as [H1 H].
      apply app_eq_nil in H. tauto.
    + intros (-> & -> & ->). reflexivity.
Qed.

Lemma section_status_not_excellent (score : Z) :
  (score < 90)%Z -> section_status score <> "EXCELLENT".
Proof.
  intros H. unfold section_status.
  destruct (Z.leb_spec 90 score); [lia|].
  destruct (75 <=? score)%Z; [discriminate|].
  destruct (60 <=? score)%Z; discriminate.
Qed.

(** X12.  Every error costs at least 15 points: the score is at most
    [100 - 15 * (number of errors)], so a section with an error is never
    EXCELLENT. *)
Theorem errors_cap_the_score
  (self : validator) (section_name response : string) :
  (score_of (validate_section self section_name response)
   <= 100 - 15 * Z.of_nat
                 (List.length
                    (errors_of (validate_section self section_name response))))%Z
  /\ (errors_of (validate_section self section_name response) <> [] ->
      section_status (score_of (validate_section self section_name response))
      <> "EXCELLENT").
Proof.
  assert (Hcap :
    (score_of (validate_section self section_name response)
     <= 100 - 15 * Z.of_nat
                   (List.length
                      (errors_of (validate_section self section_name
                                    response))))%Z).
  { rewrite errors_of_validate.
    unfold validate_section, score_of. cbn [snd].
    rewrite run_checks_findings. cbn [quality_score].
    assert (Hnn : (0 <= Zsum (skipn 3 (penalties self section_name response)))%Z).
    { apply Zsum_nonneg.
      pose proof (penalties_nonneg self section_name response) as Hall.
      change (penalties self section_name response)
        with (penalty (check_length response)
              :: penalty (check_role self response)
              :: penalty (check_team self response)
              :: skipn 3 (penalties self section_name response)) in Hall.
      do 3 apply Forall_inv_tail in Hall. exact Hall. }
    change (Zsum (penalties self section_name response))
      with (penalty (check_length response)
            + (penalty (check_role self response)
               + (penalty (check_team self response)
                  + Zsum (skipn 3 (penalties self section_name response)))))%Z.
    rewrite penalty_length, penalty_role, penalty_team.
    unfold length_error, role_error, team_error, points. cbv zeta.
    destruct (word_count response <? 40);
      [|destruct (word_count response <? 60);
        [|destruct (200 <? word_count response)]];
      destruct (negb (String.eqb (role self) "UNKNOWN")
                && negb (contains (role self) response))%bool;
      destruct (truthy (team self) && negb (contains (team self) response))%bool;
      cbn [app List.length]; lia. }
  split; [exact Hcap|].
  intros Hne. apply section_status_not_excellent.
  destruct (errors_of (validate_section self section_name response));
    [contradiction|]. cbn [List.length] in Hcap. lia.
Qed.

Lemma errors_cap_the_score_witness :
  section_status (score_of (validate_section validator_sd2 "Roadmap Delivery"
                              response_45)) <> "EXCELLENT".
Proof.
  apply (proj2 (errors_cap_the_score validator_sd2 "Roadmap Delivery"
                  response_45)).
  vm_compute. discriminate.
Defined.

(** ** The sections of the report *)

Lemma dict_set_keys {A : Type} (d : list (string * A)) (k : string) (v : A) :
  map fst (dict_set d k v)
  = if mem k (map fst d) then map fst d else map fst d ++ [k].
Proof.
  unfold mem. induction d as [|[k0 w] d IH]; simpl.
  - reflexivity.
  - rewrite (String.eqb_sym k k0).
    destruct (String.eqb k0 k) eqn:E; simpl.
    + reflexivity.
    + rewrite IH. destruct (existsb (String.eqb k) (map fst d)); reflexivity.
Qed.

Lemma mem_not_in (k : string) (l : list string) :
  ~ In k l -> mem k l = false.
Proof.
  intros Hn. unfold mem. destruct (existsb (String.eqb k) l) eqn:E; auto.
  exfalso. apply Hn. apply existsb_exists in E. destruct E as (y & Hy & E).
  apply String.eqb_eq in E. subst. exact Hy.
Qed.

Lemma fold_results_keys (self : validator) (l : list (string * string)) :
  forall a,
    NoDup (map fst (results a) ++ map fst l) ->
    map fst (results (fold_left (step self) l a))
    = map fst (results a) ++ map fst l.
Proof.
  induction l as [|[k r] l IH]; intros a Hnd; cbn [fold_left map fst].
  - rewrite app_nil_r. reflexivity.
  - cbn [map fst] in Hnd.
    assert (Hk : ~ In k (map fst (results a))).
    { intros Hin. apply NoDup_remove_2 in Hnd. apply Hnd.
      apply in_or_app. left. exact Hin. }
    assert (Hkeys : map fst (results (step self a (k, r)))
                    = map fst (results a) ++ [k]).
    { rewrite step_results, dict_set_keys, (mem_not_in _ _ Hk). reflexivity. }
    rewrite IH; rewrite Hkeys, <- app_assoc; [reflexivity|exact Hnd].
Qed.

(** X13.  The report has one section for every section submitted, under
    the same names and in the same order, blank ones included. *)
Theorem report_sections_follow_responses
  (self : validator) (responses : list (string * string)) :
  NoDup (map fst responses) ->
  map fst (sections (validate_full_review self responses))
  = map fst responses.
Proof.
  intros Hnd. unfold validate_full_review. cbn [sections].
  rewrite fold_results_keys; [reflexivity|exact Hnd].
Qed.

Lemma report_sections_follow_responses_witness :
  map fst (sections (validate_full_review validator_unknown
                       responses_one_blank))
  = ["Impact"; "Summary"].
Proof.
  apply (report_sections_follow_responses validator_unknown
           responses_one_blank).
  repeat constructor; simpl; intuition discriminate.
Defined.

Lemma section_status_not_error (score : Z) : section_status score <> "ERROR".
Proof.
  unfold section_status.
  destruct (90 <=? score)%Z; [discriminate|].
  destruct (75 <=? score)%Z; [discriminate|].
  destruct (60 <=? score)%Z; discriminate.
Qed.

(** X14.  With section names pairwise different, the result stored for a
    submitted section has status ERROR exactly when its response is empty
    or white space only.  Otherwise the result carries the errors,
    warnings and score of [validate_section], a score between 0 and 100,
    the status of that score and the word count of the response. *)
Theorem section_result_by_response
  (self : validator) (responses : list (string * string))
  (name response : string) :
  NoDup (map fst responses) ->
  In (name, response) responses ->
  exists res,
    lookup (sections (validate_full_review self responses)) name = Some res
    /\ (r_status res = "ERROR" <-> all_char isspace response = true)
    /\ (all_char isspace response = false ->
        r_errors res = errors_of (validate_section self name response)
        /\ r_warnings res = warnings_of (validate_section self name response)
        /\ r_score res = score_of (validate_section self name response)
        /\ (0 <= r_score res <= 100)%Z
        /\ r_status res = section_status (r_score res)
        /\ r_word_count res = Some (word_count response)).
Proof.
  intros Hnd Hin. exists (result_of self name response). split.
  - unfold validate_full_review. cbn [sections].
    apply fold_results_in; assumption.
  - pose proof (is_blank_iff response) as Hb.
    pose proof (score_range self name response) as Hs.
    unfold result_of, errors_of, warnings_of, score_of in *.
    destruct (is_blank response) eqn:E.
    + split.
      * split; [intros _; apply Hb; reflexivity|reflexivity].
      * intros Hf. rewrite (proj1 Hb eq_refl) in Hf. discriminate.
    + destruct (validate_section self name response) as [[errs warns] score].
      cbn [r_status r_errors r_warnings r_score r_word_count fst snd] in *.
      split.
      * split.
        -- intros H. exfalso. exact (section_status_not_error score H).
        -- intros H. apply Hb in H. discriminate.
      * intros _. repeat split; try reflexivity; lia.
Qed.

Lemma section_result_by_response_witness :
  exists res,
    lookup (sections (validate_full_review validator_unknown
                        responses_one_blank)) "Summary" = Some res
    /\ (r_status res = "ERROR"
        <-> all_char isspace "As a developer I shipped the thing" = true)
    /\ (all_char isspace "As a developer I shipped the thing" = false ->
        r_errors res
        = errors_of (validate_section validator_unknown "Summary"
                       "As a developer I shipped the thing")
        /\ r_warnings res
           = warnings_of (validate_section validator_unknown "Summary"
                            "As a developer I shipped the thing")
        /\ r_score res
           = score_of (validate_section validator_unknown "Summary"
                         "As a developer I shipped the thing")
        /\ (0 <= r_score res <= 100)%Z
        /\ r_status res = section_status (r_score res)
        /\ r_word_count res
           = Some (word_count "As a developer I shipped the thing")).
Proof.
  apply (section_result_by_response validator_unknown responses_one_blank).
  - repeat constructor; simpl; intuition discriminate.
  - right. left. reflexivity.
Defined.

(** ** The totals of the report *)

Lemma fold_findings (self : validator) (l : list (string * string)) :
  forall a,
    all_errors (fold_left (step self) l a)
    = all_errors a
      ++ flat_map (fun it => errors_of (validate_section self (fst it) (snd it)))
           (validated l)
    /\ all_warnings (fold_left (step self) l a)
       = all_warnings a
         ++ flat_map
              (fun it => warnings_of (validate_section self (fst it) (snd it)))
              (validated l).
Proof.
  unfold validated.
  induction l as [|[k r] l IH]; intros a; cbn [fold_left filter snd fst].
  - rewrite !app_nil_r. split; reflexivity.
  - destruct (IH (step self a (k, r))) as [He Hw]. rewrite He, Hw.
    unfold step. destruct (is_blank r); cbn [negb].
    + cbn [all_errors all_warnings]. split; reflexivity.
    + cbn [flat_map fst snd]. unfold errors_of, warnings_of.
      destruct (validate_section self k r) as [[errs warns] score].
      cbn [all_errors all_warnings fst snd].
      rewrite <- !app_assoc. split; reflexivity.
Qed.

(** X15.  The totals of the report count the findings of the validated
    sections only: [total_errors] and [total_warnings] are the numbers of
    errors and warnings that [validate_section] gave to the sections
    whose response is not blank, and [sections_validated] is the number
    of those sections.  The "Section is empty" error of a blank section
    is in its result but not in [total_errors]. *)
Theorem report_totals (self : validator) (responses : list (string * string)) :
  let rep := validate_full_review self responses in
  total_errors (summary rep)
  = List.length
      (flat_map (fun it => errors_of (validate_section self (fst it) (snd it)))
         (validated responses))
  /\ total_warnings (summary rep)
     = List.length
         (flat_map
            (fun it => warnings_of (validate_section self (fst it) (snd it)))
            (validated responses))
  /\ sections_validated (summary rep) = List.length (validated responses)
  /\ sections_validated (summary rep) <= List.length responses.
Proof.
  cbv zeta. unfold validate_full_review.
  cbn [summary total_errors total_warnings sections_validated].
  destruct (fold_findings self responses (mkAcc [] 0%Z 0 [] [])) as [He Hw].
  destruct (fold_totals self responses (mkAcc [] 0%Z 0 [] [])) as [_ Hn].
  rewrite He, Hw, Hn. cbn [all_errors all_warnings total_sections app Nat.add].
  unfold validated_scores, validated. rewrite length_map.
  repeat (split; [reflexivity|]). apply filter_length_le.
Qed.

(** ** The average and the overall status *)

(** X16.  The average that the report shows lies between 0 and 100, and
    so does the average before it is rounded.  When no response is
    validated (none submitted, or all blank) it is 0 and the overall
    status is NEEDS_IMPROVEMENT.  When some response is validated and
    every validated section scores at least 90 the overall status is
    EXCELLENT; conversely an overall status of EXCELLENT means that some
    validated section scores at least 90. *)
Theorem report_average_range
  (self : validator) (responses : list (string * string)) :
  let rep := validate_full_review self responses in
  let scores := validated_scores self responses in
  (0 <= average_score (summary rep))%Q
  /\ (average_score (summary rep) <= 100)%Q
  /\ (scores = [] ->
      average_score (summary rep) = 0%Q
      /\ overall_status (summary rep) = "NEEDS_IMPROVEMENT")
  /\ (scores <> [] -> (forall s, In s scores -> (90 <= s)%Z) ->
      overall_status (summary rep) = "EXCELLENT")
  /\ (overall_status (summary rep) = "EXCELLENT" ->
      exists s, In s scores /\ (90 <= s)%Z)
  /\ (0 <= float_mean scores)%Q
  /\ (float_mean scores <= 100)%Q.
Proof.
  cbv zeta.
  destruct (report_summary_fields self responses) as (Havg & Hov & _).
  rewrite Hov, Havg. clear Hov Havg.
  pose proof (validated_scores_range self responses) as Hrange.
  remember (validated_scores self responses) as scores eqn:Hsc. clear Hsc.
  destruct scores as [|s0 l].
  - split; [vm_compute; discriminate|]. split; [vm_compute; discriminate|].
    split; [intros _; split; reflexivity|].
    split; [intros H; contradiction|].
    split; [intros H; vm_compute in H; discriminate|].
    split; vm_compute; discriminate.
  - assert (Hne : s0 :: l <> []) by discriminate.
    destruct (float_mean_range _ Hrange Hne) as [Hf0 Hf100].
    split; [apply (PyFloatProps.round1_ge _ 0 Hf0 Hf100); exact Hf0|].
    split; [apply (PyFloatProps.round1_le _ 100 Hf0 Hf100); exact Hf100|].
    split; [discriminate|]. split; [|split; [|split; assumption]].
    + intros _ Hall. apply overall_excellent.
      apply (float_mean_ge _ Hrange Hne 90).
      apply (Zsum_bounds 90 100 (s0 :: l)).
      intros s Hs. specialize (Hall s Hs). specialize (Hrange s Hs). lia.
    + intros Hex.
      destruct (existsb (fun s => (90 <=? s)%Z) (s0 :: l)) eqn:Hsome.
      * apply existsb_exists in Hsome. destruct Hsome as (s & Hs & Hle).
        exists s. split; [exact Hs|]. apply Z.leb_le. exact Hle.
      * exfalso.
        assert (Hlow : forall s, In s (s0 :: l) -> (0 <= s <= 89)%Z).
        { intros s Hs. specialize (Hrange s Hs).
          destruct (Z.leb_spec 90 s) as [Hle|Hlt]; [|lia].
          assert (existsb (fun s => (90 <=? s)%Z) (s0 :: l) = true).
          { apply existsb_exists. exists s. split; [exact Hs|].
            apply Z.leb_le. exact Hle. }
          congruence. }
        assert (H89 : (float_mean (s0 :: l) <= 89)%Q).
        { apply (float_mean_le _ Hrange Hne 89).
          apply (Zsum_bounds 0 89 (s0 :: l) Hlow). }
        destruct (overall_cases (float_mean (s0 :: l)))
          as [[H90 _]|[(_ & _ & Ho)|[_ Ho]]];
          [|rewrite Ho in Hex; discriminate|rewrite Ho in Hex; discriminate].
        pose proof (Qle_trans _ _ _ H90 H89) as Habs.
        unfold Qle in Habs. simpl in Habs. lia.
Qed.

Lemma report_average_range_witness :
  average_score (summary (validate_full_review validator_unknown
                            [("Impact", ""); ("Scope", "   ")])) = 0%Q
  /\ overall_status (summary (validate_full_review validator_unknown
                                [("Impact", ""); ("Scope", "   ")]))
     = "NEEDS_IMPROVEMENT".
Proof.
  apply (proj1 (proj2 (proj2 (report_average_range validator_unknown
                                [("Impact", ""); ("Scope", "   ")])))).
  reflexivity.
Defined.

(** ** Sections outside the metric and technology lists *)

(** X17.  In a section that is neither metric-relevant nor
    technology-relevant, the outcome of [validate_section] depends on the
    dataset through the role and the team only: two validators with the
    same role and team give the same errors, warnings and score, whatever
    their metrics and technologies. *)
Theorem plain_section_ignores_metrics
  (v1 v2 : validator) (section_name response : string) :
  mem section_name metric_sections = false ->
  mem section_name tech_sections = false ->
  role v1 = role v2 ->
  team v1 = team v2 ->
  validate_section v1 section_name response
  = validate_section v2 section_name response.
Proof.
  intros Hm Ht Hr Hteam.
  assert (Hmet : forall v st, check_metrics v section_name response st = st).
  { intros v st. unfold check_metrics. rewrite Hm. reflexivity. }
  assert (Htech : forall v st, check_tech v section_name response st = st).
  { intros v st. unfold check_tech. rewrite Ht. reflexivity. }
  assert (Hrole : forall st, check_role v1 response st = check_role v2 response st).
  { intros st. unfold check_role. rewrite Hr. reflexivity. }
  assert (Hteam' : forall st,
             check_team v1 response st = check_team v2 response st).
  { intros st. unfold check_team. rewrite Hteam. reflexivity. }
  unfold validate_section, run_checks.
  rewrite !Hmet, !Htech, Hrole, Hteam'. reflexivity.
Qed.

Lemma plain_section_ignores_metrics_witness :
  validate_section validator_sd2 "Mentorship" response_45
  = validate_section (mkValidator ["5%"] ["API"] "SD2" "Payments")
      "Mentorship" response_45.
Proof.
  apply plain_section_ignores_metrics; reflexivity.
Defined.

End ValidatorExtra.

(* ================================================================== *)
(** * Properties of the validator of generate_review.py *)
(* ================================================================== *)

Module GenerateProps.
Import PyStr.
Local Open Scope nat_scope.

(** ** Derived quantities *)

Definition length_issue (response : string) : list string :=
  let wc := List.length (split_ws response) in
  if wc <? 50 then [Generate.msg_too_short wc]
  else if 200 <? wc then [Generate.msg_too_long wc] else [].

Definition role_issue (role response : string) : list string :=
  if (negb (contains role response) && negb (String.eqb role "UNKNOWN"))%bool
  then [Generate.msg_role role] else [].

Definition team_issue (team response : string) : list string :=
  if (truthy team && negb (contains team response))%bool
  then [Generate.msg_team team] else [].

Definition metric_issue (section_name response : string)
  (metrics : list Parser.Metric) : list string :=
  if (negb (Nat.eqb (List.length metrics) 0)
      && Validator.mem section_name Generate.metric_sections)%bool
  then if Generate.has_metric metrics response then []
       else [Generate.msg_metrics]
  else [].

Definition generic_found (response : string) : list string :=
  filter (fun phrase => contains (lower phrase) (lower response))
         Generate.generic_phrases.

Definition generic_issue (response : string) : list string :=
  if 3 <? List.length (generic_found response)
  then [Generate.msg_generic (generic_found response)] else [].

(** The issues of a response under a given role and team. *)
Definition issues_of (section_name response : string)
  (data : Parser.Dataset) (role team : string) : list string :=
  length_issue response ++ role_issue role response
    ++ team_issue team response
    ++ metric_issue section_name response (Parser.metrics data)
    ++ generic_issue response.

(** The round of the loop of [validate_full_review] when the metadata has
    its role and team. *)
Definition keep_issues (data : Parser.Dataset) (role team : string)
  (all_issues : list (string * list string)) (item : string * string)
  : list (string * list string) :=
  if truthy (snd item)
  then match issues_of (fst item) (snd item) data role team with
       | [] => all_issues
       | issues => Validator.dict_set all_issues (fst item) issues
       end
  else all_issues.

(** What [validate_full_review] keeps for a section. *)
Definition entry_of (data : Parser.Dataset) (role team : string)
  (name response : string) : option (list string) :=
  if truthy response
  then match issues_of name response data role team with
       | [] => None
       | issues => Some issues
       end
  else None.

(** A dataset with a role, a team and twelve metrics, the same text
    twelve times but for the last. *)
Definition data_twelve : Parser.Dataset :=
  Parser.mkDataset
    [("owner", "Ann"); ("owner_email", ""); ("team", "Core"); ("role", "SD2")]
    []
    (repeat (Parser.mkMetric "10%" "Cut errors by 10%" ["10"]) 11
       ++ [Parser.mkMetric "250ms" "p95 under 250ms" []])
    [] (Parser.mkSummary 0 [] [] 12 0).

(** ** The call on a dataset with role and team *)

Section WithMetadata.
Variable data : Parser.Dataset.
Variables role team : string.
Hypothesis Hrole : Validator.lookup (Parser.metadata data) "role" = Some role.
Hypothesis Hteam : Validator.lookup (Parser.metadata data) "team" = Some team.

Lemma validate_response_parts (section_name response : string) :
  Generate.validate_response section_name response data
  = Some (issues_of section_name response data role team).
Proof.
  unfold Generate.validate_response, issues_of, length_issue, role_issue,
    team_issue, metric_issue, generic_issue, generic_found.
  rewrite Hrole, Hteam. cbv zeta.
  destruct (List.length (split_ws response) <? 50);
    [|destruct (200 <? List.length (split_ws response))];
    destruct (negb (contains role response)
              && negb (String.eqb role "UNKNOWN"))%bool;
    destruct (truthy team && negb (contains team response))%bool;
    (destruct (negb (Nat.eqb (List.length (Parser.metrics data)) 0)
               && Validator.mem section_name Generate.metric_sections)%bool;
     [destruct (Generate.has_metric (Parser.metrics data) response)|]);
    destruct (3 <? List.length
                     (filter (fun phrase =>
                                contains (lower phrase) (lower response))
                             Generate.generic_phrases));
    reflexivity.
Qed.

Lemma review_step_keep (all_issues : list (string * list string))
  (item : string * string) :
  Generate.review_step data (Some all_issues) item
  = Some (keep_issues data role team all_issues item).
Proof.
  destruct item as [name response].
  unfold Generate.review_step, keep_issues. cbn [fst snd].
  destruct (truthy response); [|reflexivity].
  rewrite validate_response_parts.
  destruct (issues_of name response data role team); reflexivity.
Qed.

Lemma review_fold (responses : list (string * string)) :
  forall all_issues,
    fold_left (Generate.review_step data) responses (Some all_issues)
    = Some (fold_left (keep_issues data role team) responses all_issues).
Proof.
  induction responses as [|item l IH]; intros all_issues; cbn [fold_left].
  - reflexivity.
  - rewrite review_step_keep. apply IH.
Qed.

End WithMetadata.

(** ** The entries of the report *)

Lemma keep_issues_lookup (data : Parser.Dataset) (role team : string)
  (all_issues : list (string * list string)) (name response other : string) :
  Validator.lookup (keep_issues data role team all_issues (name, response))
    other
  = if String.eqb name other
    then match entry_of data role team name response with
         | Some issues => Some issues
         | None => Validator.lookup all_issues other
         end
    else Validator.lookup all_issues other.
Proof.
  unfold keep_issues, entry_of. cbn [fst snd].
  destruct (String.eqb_spec name other) as [<-|Hne].
  - destruct (truthy response); [|reflexivity].
    destruct (issues_of name response data role team); [reflexivity|].
    apply ValidatorProps.lookup_dict_set_same.
  - destruct (truthy response); [|reflexivity].
    destruct (issues_of name response data role team); [reflexivity|].
    apply ValidatorProps.lookup_dict_set_other. exact Hne.
Qed.

Lemma keep_fold_other (data : Parser.Dataset) (role team : string)
  (l : list (string * string)) (other : string) :
  ~ In other (map fst l) ->
  forall all_issues,
    Validator.lookup (fold_left (keep_issues data role team) l all_issues)
      other
    = Validator.lookup all_issues other.
Proof.
  induction l as [|[k r] l IH]; intros Hnot all_issues; cbn [fold_left];
    [reflexivity|].
  simpl in Hnot. rewrite IH by tauto. rewrite keep_issues_lookup.
  destruct (String.eqb_spec k other); [tauto|reflexivity].
Qed.

Lemma keep_fold_in (data : Parser.Dataset) (role team : string)
  (l : list (string * string)) (name response : string) :
  NoDup (map fst l) ->
  In (name, response) l ->
  forall all_issues,
    Validator.lookup (fold_left (keep_issues data role team) l all_issues)
      name
    = match entry_of data role team name response with
      | Some issues => Some issues
      | None => Validator.lookup all_issues name
      end.
Proof.
  induction l as [|[k r] l IH]; intros Hnd Hin all_issues; cbn [fold_left];
    [destruct Hin|].
  simpl in Hnd. inversion Hnd as [|? ? Hk Hnd']; subst.
  destruct Hin as [Heq|Hin].
  - injection Heq as -> ->.
    rewrite keep_fold_other by exact Hk.
    rewrite keep_issues_lookup, String.eqb_refl. reflexivity.
  - rewrite (IH Hnd' Hin). rewrite keep_issues_lookup.
    destruct (String.eqb_spec k name) as [->|Hne]; [|reflexivity].
    exfalso. apply Hk. apply in_map_iff. exists (name, response). auto.
Qed.

Lemma dict_set_nonempty (d : list (string * list string)) (k : string)
  (v : list string) :
  v <> [] ->
  Forall (fun kv => snd kv <> []) d ->
  Forall (fun kv => snd kv <> []) (Validator.dict_set d k v).
Proof.
  intros Hv. induction 1 as [|[k0 w] d Hw Hd IH]; simpl.
  - repeat constructor. exact Hv.
  - destruct (String.eqb k0 k); constructor; auto.
Qed.

Lemma keep_fold_nonempty (data : Parser.Dataset) (role team : string)
  (l : list (string * string)) :
  forall all_issues,
    Forall (fun kv => snd kv <> []) all_issues ->
    Forall (fun kv => snd kv <> [])
      (fold_left (keep_issues data role team) l all_issues).
Proof.
  induction l as [|[k r] l IH]; intros all_issues Hall; cbn [fold_left];
    [exact Hall|].
  apply IH. unfold keep_issues. cbn [fst snd].
  destruct (truthy r); [|exact Hall].
  destruct (issues_of k r data role team) eqn:E; [exact Hall|].
  apply dict_set_nonempty; [discriminate|exact Hall].
Qed.

(** X18.  The second validator, on a dataset that has role and team and
    a mapping of section names to responses: the call succeeds; a section
    is in the result exactly when its response is not the empty string
    and has at least one issue, and then with those issues; no section is
    mapped to an empty list, and no name that was not submitted
    appears. *)
Theorem generate_review_entries
  (data : Parser.Dataset) (role team : string)
  (responses : list (string * string)) :
  Validator.lookup (Parser.metadata data) "role" = Some role ->
  Validator.lookup (Parser.metadata data) "team" = Some team ->
  NoDup (map fst responses) ->
  exists all_issues,
    Generate.validate_full_review responses data = Some all_issues
    /\ (forall name response,
          In (name, response) responses ->
          Validator.lookup all_issues name
          = entry_of data role team name response)
    /\ (forall name, ~ In name (map fst responses) ->
                     Validator.lookup all_issues name = None)
    /\ Forall (fun kv => snd kv <> []) all_issues.
Proof.
  intros Hrole Hteam Hnd.
  exists (fold_left (keep_issues data role team) responses []).
  split; [apply (review_fold data role team Hrole Hteam)|]. split; [|split].
  - intros name response Hin.
    rewrite (keep_fold_in data role team responses name response Hnd Hin).
    destruct (entry_of data role team name response); reflexivity.
  - intros name Hnot. rewrite keep_fold_other by exact Hnot. reflexivity.
  - apply keep_fold_nonempty. constructor.
Qed.

Lemma generate_review_entries_witness :
  exists all_issues,
    Generate.validate_full_review
      [("Impact", "   "); ("Scope", "")] data_twelve = Some all_issues
    /\ (forall name response,
          In (name, response) [("Impact", "   "); ("Scope", "")] ->
          Validator.lookup all_issues name
          = entry_of data_twelve "SD2" "Core" name response)
    /\ (forall name, ~ In name (map fst [("Impact", "   "); ("Scope", "")]) ->
                     Validator.lookup all_issues name = None)
    /\ Forall (fun kv => snd kv <> []) all_issues.
Proof.
  apply generate_review_entries; try reflexivity.
  repeat constructor; simpl; intuition discriminate.
Defined.

(** ** One response *)

Lemma split_ws_blank (s : string) :
  all_char isspace s = true -> split_ws s = [].
Proof.
  unfold split_ws. induction s as [|c s IH]; simpl; [reflexivity|].
  destruct (isspace c); simpl; [exact IH|discriminate].
Qed.

(** X19.  On a dataset with role and team, [validate_response] returns
    at most five issues: length, role, team, metrics and generic phrases,
    in this order, each present or not.  A response of white space only
    is not skipped: it is validated and its first issue is the too-short
    one with a count of 0 words, while the validator of
    validate_review.py treats the same response as blank. *)
Theorem generate_response_issues
  (data : Parser.Dataset) (role team section_name response : string) :
  Validator.lookup (Parser.metadata data) "role" = Some role ->
  Validator.lookup (Parser.metadata data) "team" = Some team ->
  Generate.validate_response section_name response data
    = Some (issues_of section_name response data role team)
  /\ List.length (issues_of section_name response data role team) <= 5
  /\ (all_char isspace response = true ->
      Validator.is_blank response = true
      /\ exists rest,
           issues_of section_name response data role team
           = Generate.msg_too_short 0 :: rest).
Proof.
  intros Hrole Hteam.
  split; [apply (validate_response_parts data role team Hrole Hteam)|]. split.
  - unfold issues_of. rewrite !length_app.
    assert (H1 : List.length (length_issue response) <= 1)
      by (unfold length_issue; cbv zeta; destruct (_ <? 50);
          [|destruct (200 <? _)]; simpl; lia).
    assert (H2 : List.length (role_issue role response) <= 1)
      by (unfold role_issue; destruct (_ && _)%bool; simpl; lia).
    assert (H3 : List.length (team_issue team response) <= 1)
      by (unfold team_issue; destruct (_ && _)%bool; simpl; lia).
    assert (H4 : List.length
                   (metric_issue section_name response (Parser.metrics data))
                 <= 1)
      by (unfold metric_issue; destruct (_ && _)%bool;
          [destruct (Generate.has_metric _ _)|]; simpl; lia).
    assert (H5 : List.length (generic_issue response) <= 1)
      by (unfold generic_issue; destruct (3 <? _); simpl; lia).
    lia.
  - intros Hblank. split; [apply ValidatorProps.is_blank_iff; exact Hblank|].
    unfold issues_of, length_issue. rewrite (split_ws_blank response Hblank).
    cbn [List.length Nat.ltb Nat.leb app]. eexists. reflexivity.
Qed.

Lemma generate_response_issues_witness :
  List.length (issues_of "Impact" "   " data_twelve "SD2" "Core") <= 5.
Proof.
  apply (proj1 (proj2 (generate_response_issues data_twelve "SD2" "Core"
                         "Impact" "   " eq_refl eq_refl))).
Defined.

(** ** The metrics looked at *)

Lemma in_firstn_nth {A : Type} (n : nat) :
  forall (l : list A) (x : A),
    In x (firstn n l) <-> exists i, i < n /\ nth_error l i = Some x.
Proof.
  induction n as [|n IH]; intros l x.
  - simpl. split; [intros []|intros (i & Hi & _); lia].
  - destruct l as [|y l]; cbn [firstn].
    + split; [intros []|]. intros (i & _ & Hi). destruct i; discriminate.
    + simpl. rewrite IH. split.
      * intros [->|(i & Hi & Hx)].
        -- exists 0. split; [lia|reflexivity].
        -- exists (S i). split; [lia|exact Hx].
      * intros (i & Hi & Hx). destruct i as [|i].
        -- left. injection Hx as ->. reflexivity.
        -- right. exists i. split; [lia|exact Hx].
Qed.

Lemma in_metric_issue (section_name response : string)
  (data : Parser.Dataset) (role team : string) :
  In Generate.msg_metrics (issues_of section_name response data role team)
  <-> metric_issue section_name response (Parser.metrics data)
      = [Generate.msg_metrics].
Proof.
  unfold issues_of. rewrite !in_app_iff. split.
  - intros [H|[H|[H|[H|H]]]].
    + unfold length_issue in H. cbv zeta in H.
      destruct (_ <? 50); [|destruct (200 <? _)]; simpl in H;
        try tauto; destruct H as [H|[]]; discriminate H.
    + unfold role_issue in H. destruct (_ && _)%bool; simpl in H;
        try tauto; destruct H as [H|[]]; discriminate H.
    + unfold team_issue in H. destruct (_ && _)%bool; simpl in H;
        try tauto; destruct H as [H|[]]; discriminate H.
    + unfold metric_issue in *. destruct (_ && _)%bool;
        [destruct (Generate.has_metric _ _)|]; simpl in H; tauto.
    + unfold generic_issue in H. destruct (3 <? _); simpl in H;
        try tauto; destruct H as [H|[]]; discriminate H.
  - intros H. right. right. right. left. rewrite H. left. reflexivity.
Qed.

(** X20.  In the sections Engineering/Operation Excellence, Tech
    Initiatives and Impact, on a dataset with role, team and at least one
    metric, the metrics issue is raised exactly when none of the first
    ten metrics of the dataset has its text in the response: a metric
    from the eleventh on does not count. *)
Theorem generate_metrics_first_ten
  (data : Parser.Dataset) (role team section_name response : string) :
  Validator.lookup (Parser.metadata data) "role" = Some role ->
  Validator.lookup (Parser.metadata data) "team" = Some team ->
  Validator.mem section_name Generate.metric_sections = true ->
  Parser.metrics data <> [] ->
  exists issues,
    Generate.validate_response section_name response data = Some issues
    /\ (In Generate.msg_metrics issues
        <-> forall i metric,
              i < 10 ->
              nth_error (Parser.metrics data) i = Some metric ->
              contains (Parser.text metric) response = false).
Proof.
  intros Hrole Hteam Hsec Hne.
  exists (issues_of section_name response data role team).
  split; [apply (validate_response_parts data role team Hrole Hteam)|].
  rewrite in_metric_issue. unfold metric_issue. rewrite Hsec.
  assert (Hlen : Nat.eqb (List.length (Parser.metrics data)) 0 = false)
    by (destruct (Parser.metrics data); [contradiction|reflexivity]).
  rewrite Hlen. cbn [negb andb]. unfold Generate.has_metric.
  destruct (existsb (fun metric => contains (Parser.text metric) response)
              (firstn 10 (Parser.metrics data))) eqn:E.
  - split; [discriminate|]. intros Hall. exfalso.
    apply existsb_exists in E. destruct E as (m & Hin & Hc).
    apply in_firstn_nth in Hin. destruct Hin as (i & Hi & Hn).
    rewrite (Hall i m Hi Hn) in Hc. discriminate.
  - split; [|reflexivity]. intros _ i metric Hi Hn.
    destruct (contains (Parser.text metric) response) eqn:Hc; [|reflexivity].
    assert (existsb (fun metric => contains (Parser.text metric) response)
              (firstn 10 (Parser.metrics data)) = true).
    { apply existsb_exists. exists metric. split; [|exact Hc].
      apply in_firstn_nth. exists i. auto. }
    congruence.
Qed.

Lemma generate_metrics_first_ten_witness :
  exists issues,
    Generate.validate_response "Impact" "As an SD2 in Core: p95 250ms"
      data_twelve = Some issues
    /\ (In Generate.msg_metrics issues
        <-> forall i metric,
              i < 10 ->
              nth_error (Parser.metrics data_twelve) i = Some metric ->
              contains (Parser.text metric) "As an SD2 in Core: p95 250ms"
              = false).
Proof.
  apply (generate_metrics_first_ten data_twelve "SD2" "Core"); try reflexivity.
  discriminate.
Defined.

(** ** A dataset without role or team *)

Lemma review_fold_none (data : Parser.Dataset)
  (l : list (string * string)) :
  fold_left (Generate.review_step data) l None = None.
Proof. induction l as [|item l IH]; [reflexivity|exact IH]. Qed.

Lemma validate_response_key_error (data : Parser.Dataset)
  (section_name response : string) :
  Validator.lookup (Parser.metadata data) "role" = None
  \/ Validator.lookup (Parser.metadata data) "team" = None ->
  Generate.validate_response section_name response data = None.
Proof.
  intros [H|H]; unfold Generate.validate_response; rewrite H;
    [reflexivity|].
  destruct (Validator.lookup (Parser.metadata data) "role"); reflexivity.
Qed.

(** X21.  When the metadata of the dataset lacks the role or the team,
    as for an empty table, [validate_full_review] of generate_review.py
    fails (KeyError) if and only if some response is not the empty
    string; when every response is empty it returns the empty
    dictionary. *)
Theorem generate_review_key_error
  (data : Parser.Dataset) (responses : list (string * string)) :
  Validator.lookup (Parser.metadata data) "role" = None
  \/ Validator.lookup (Parser.metadata data) "team" = None ->
  (Generate.validate_full_review responses data = None
   <-> exists name response, In (name, response) responses /\ response <> "")
  /\ ((forall name response, In (name, response) responses -> response = "")
      -> Generate.validate_full_review responses data = Some []).
Proof.
  intros Hmiss. unfold Generate.validate_full_review.
  generalize (@nil (string * list string)) as d.
  induction responses as [|[k r] l IH]; intros d.
  - cbn [fold_left]. split.
    + split; [discriminate|]. intros (n & r & [] & _).
    + intros _. reflexivity.
  - cbn [fold_left]. unfold Generate.review_step at 2.
    destruct r as [|c r]; cbn [truthy].
    + destruct (IH d) as [Hiff Hall]. split.
      * rewrite Hiff. split.
        -- intros (n & r & Hin & Hne). exists n, r. split; [right|]; auto.
        -- intros (n & r & [Heq|Hin] & Hne).
           ++ injection Heq as <- <-. contradiction.
           ++ exists n, r. auto.
      * intros H. apply Hall. intros n r Hin. apply (H n r). right. exact Hin.
    + rewrite (validate_response_key_error data k (String c r) Hmiss).
      rewrite review_fold_none. split.
      * split; [|reflexivity]. intros _. exists k, (String c r).
        split; [left; reflexivity|discriminate].
      * intros H. specialize (H k (String c r) (or_introl eq_refl)).
        discriminate H.
Qed.

Lemma generate_review_key_error_witness :
  Generate.validate_full_review [("Impact", ""); ("Scope", "")]
    (fst (Parser.parse [] Parser.init)) = Some [].
Proof.
  refine (proj2 (generate_review_key_error _ _ _) _).
  - left. reflexivity.
  - intros name response [H|[H|[]]]; injection H as _ <-; reflexivity.
Defined.

End GenerateProps.

(* ================================================================== *)
(** * Properties of the formatting helpers *)
(* ================================================================== *)

Module TemplatesProps.
Import PyStr Parser Templates.
Local Open Scope nat_scope.

(** ** Derived quantities *)

(** [m] is in [done] and no metric before it there has its text. *)
Definition first_occurrence (done : list Metric) (m : Metric) : Prop :=
  exists pre post,
    done = pre ++ m :: post /\ ~ In (text m) (map text pre).

(** The metrics [shown] are what the loop of [_format_metrics] has kept
    after the metrics [done]. *)
Definition kept (done shown : list Metric) : Prop :=
  NoDup (map text shown)
  /\ (forall t, In t (map text shown) <-> In t (map text done))
  /\ Forall (first_occurrence done) shown.

(** What the loop does to the metrics it has kept, when it meets [m]. *)
Definition keep (shown : list Metric) (m : Metric) : list Metric :=
  if Validator.mem (text m) (map text shown) then shown else shown ++ [m].

(** The metrics of a list that are the first with their text, in the
    order of the list: the head, then those of the tail with another
    text. *)
Fixpoint first_of_each (metrics : list Metric) : list Metric :=
  match metrics with
  | [] => []
  | m :: rest =>
      m :: filter (fun x => negb (text x =? text m)%string)
             (first_of_each rest)
  end.

(** The index in [metrics] of the first metric with the text [t]. *)
Fixpoint position (metrics : list Metric) (t : string) : nat :=
  match metrics with
  | [] => 0
  | m :: rest => if (text m =? t)%string then 0 else S (position rest t)
  end.

(** ** Metrics *)

Lemma first_occurrence_more (done : list Metric) (m x : Metric) :
  first_occurrence done x -> first_occurrence (done ++ [m]) x.
Proof.
  intros (pre & post & -> & Hpre). exists pre, (post ++ [m]).
  split; [|exact Hpre]. rewrite <- app_assoc. reflexivity.
Qed.

Lemma mem_iff (x : string) (l : list string) :
  Validator.mem x l = true <-> In x l.
Proof.
  unfold Validator.mem. rewrite existsb_exists. split.
  - intros (y & Hy & E). apply String.eqb_eq in E. subst. exact Hy.
  - intros H. exists x. split; [exact H|apply String.eqb_refl].
Qed.

Lemma format_step_keep (shown : list Metric) (m : Metric) :
  format_step (map metric_line shown, map text shown) m
  = (map metric_line (keep shown m), map text (keep shown m)).
Proof.
  unfold format_step, keep, set_add.
  destruct (Validator.mem (text m) (map text shown)) eqn:E; [reflexivity|].
  unfold Validator.mem in E. rewrite E, !map_app. reflexivity.
Qed.

Lemma format_fold_keep (ms : list Metric) :
  forall shown,
    fold_left format_step ms (map metric_line shown, map text shown)
    = (map metric_line (fold_left keep ms shown),
       map text (fold_left keep ms shown)).
Proof.
  induction ms as [|m ms IH]; intros shown; cbn [fold_left]; [reflexivity|].
  rewrite format_step_keep. apply IH.
Qed.

Lemma keep_kept (done shown : list Metric) (m : Metric) :
  kept done shown -> kept (done ++ [m]) (keep shown m).
Proof.
  intros (Hnd & Hsame & Hfirst). unfold keep.
  destruct (Validator.mem (text m) (map text shown)) eqn:E.
  - apply mem_iff in E.
    split; [exact Hnd|]. split.
    + intros t. rewrite map_app, in_app_iff, <- Hsame. simpl.
      split; [auto|]. intros [H|[<-|[]]]; assumption.
    + eapply Forall_impl; [|exact Hfirst].
      intros x. apply first_occurrence_more.
  - assert (Hnot : ~ In (text m) (map text shown)).
    { intros H. apply mem_iff in H. congruence. }
    split; [|split].
    + rewrite map_app. apply NoDup_app; [exact Hnd| |].
      * repeat constructor. simpl. tauto.
      * intros t Ht [<-|[]]. exact (Hnot Ht).
    + intros t. rewrite !map_app, !in_app_iff, Hsame. reflexivity.
    + apply Forall_app. split.
      * eapply Forall_impl; [|exact Hfirst].
        intros x. apply first_occurrence_more.
      * repeat constructor. exists done, []. split; [reflexivity|].
        rewrite <- Hsame. exact Hnot.
Qed.

Lemma fold_keep_kept (ms : list Metric) :
  forall done shown,
    kept done shown -> kept (done ++ ms) (fold_left keep ms shown).
Proof.
  induction ms as [|m ms IH]; intros done shown Hk; cbn [fold_left].
  - rewrite app_nil_r. exact Hk.
  - replace (done ++ m :: ms) with ((done ++ [m]) ++ ms)
      by (rewrite <- app_assoc; reflexivity).
    apply IH, keep_kept, Hk.
Qed.

(** The metrics whose text is not among [seen]. *)
Definition unseen (seen : list string) (ms : list Metric) : list Metric :=
  filter (fun x => negb (Validator.mem (text x) seen)) ms.

Lemma filter_filter {A : Type} (f g : A -> bool) (l : list A) :
  filter f (filter g l) = filter (fun x => (g x && f x)%bool) l.
Proof.
  induction l as [|x l IH]; [reflexivity|]. cbn [filter].
  destruct (g x); cbn [filter andb]; [destruct (f x)|]; rewrite IH;
    reflexivity.
Qed.

Lemma mem_app_one (x t : string) (seen : list string) :
  Validator.mem x (seen ++ [t])
  = (Validator.mem x seen || (x =? t)%string)%bool.
Proof.
  unfold Validator.mem. rewrite existsb_app. cbn [existsb].
  rewrite orb_false_r. reflexivity.
Qed.

Lemma fold_keep_first_of_each (ms : list Metric) :
  forall shown,
    fold_left keep ms shown
    = shown ++ unseen (map text shown) (first_of_each ms).
Proof.
  induction ms as [|m ms IH]; intros shown;
    cbn [fold_left first_of_each].
  - unfold unseen. cbn [filter]. rewrite app_nil_r. reflexivity.
  - rewrite IH. unfold keep, unseen. cbn [filter].
    destruct (Validator.mem (text m) (map text shown)) eqn:E;
      cbn [negb].
    + f_equal. rewrite filter_filter. apply filter_ext_in.
      intros x _.
      destruct (text x =? text m)%string eqn:Ex; cbn [negb andb];
        [|reflexivity].
      apply String.eqb_eq in Ex. rewrite Ex, E. reflexivity.
    + rewrite <- app_assoc. cbn [app]. do 2 f_equal.
      rewrite filter_filter, map_app. cbn [map]. apply filter_ext.
      intros x. rewrite mem_app_one, negb_orb. apply andb_comm.
Qed.

Lemma unseen_nil (ms : list Metric) : unseen [] ms = ms.
Proof.
  unfold unseen. induction ms as [|m ms IH]; [reflexivity|].
  cbn [filter]. change (Validator.mem (text m) []) with false.
  cbn [negb]. f_equal. exact IH.
Qed.

(** The loop of [_format_metrics] keeps the first metric of each text, in
    the order of the list. *)
Lemma formatted_first_of_each (metrics : list Metric) :
  formatted_metrics metrics = map metric_line (first_of_each metrics).
Proof.
  unfold formatted_metrics.
  change (@nil string, @nil string)
    with (map metric_line [], map text []).
  rewrite format_fold_keep, fold_keep_first_of_each.
  cbn [fst map app]. rewrite unseen_nil. reflexivity.
Qed.

Lemma first_of_each_kept (metrics : list Metric) :
  kept metrics (first_of_each metrics).
Proof.
  pose proof (fold_keep_kept metrics [] []) as H.
  rewrite fold_keep_first_of_each in H. cbn [app map] in H.
  rewrite unseen_nil in H. apply H.
  split; [constructor|]. split; [tauto|constructor].
Qed.

Lemma sorted_map_filter {A : Type} (g : A -> nat) (f : A -> bool)
  (l : list A) :
  StronglySorted lt (map g l) -> StronglySorted lt (map g (filter f l)).
Proof.
  induction l as [|x l IH]; cbn [map filter]; intros H; [constructor|].
  inversion H as [|? ? Hs Hall]; subst.
  destruct (f x); cbn [map]; [|exact (IH Hs)].
  constructor; [exact (IH Hs)|].
  rewrite Forall_forall in *. intros y Hy. apply Hall.
  rewrite in_map_iff in *. destruct Hy as (z & <- & Hz).
  apply filter_In in Hz. exists z. tauto.
Qed.

Lemma sorted_map_S (l : list nat) :
  StronglySorted lt l -> StronglySorted lt (map S l).
Proof.
  induction 1 as [|a l Hs IHs Hall]; cbn [map]; constructor;
    [exact IHs|].
  rewrite Forall_forall in *. intros y Hy. rewrite in_map_iff in Hy.
  destruct Hy as (z & <- & Hz). apply Hall in Hz. lia.
Qed.

(** The metrics kept stand in the order in which their texts first occur
    in the list. *)
Lemma first_of_each_positions (metrics : list Metric) :
  StronglySorted lt
    (map (fun m => position metrics (text m)) (first_of_each metrics)).
Proof.
  induction metrics as [|m rest IH]; cbn [first_of_each map];
    [constructor|].
  cbn [position]. rewrite String.eqb_refl.
  assert (E : map (fun x => if (text m =? text x)%string then 0
                            else S (position rest (text x)))
                (filter (fun x => negb (text x =? text m)%string)
                   (first_of_each rest))
              = map S (map (fun x => position rest (text x))
                         (filter (fun x => negb (text x =? text m)%string)
                            (first_of_each rest)))).
  { rewrite map_map. apply map_ext_in. intros x Hx.
    apply filter_In in Hx. destruct Hx as [_ Hx].
    rewrite String.eqb_sym. destruct (text x =? text m)%string;
      [discriminate|reflexivity]. }
  rewrite E. constructor.
  - apply sorted_map_S, sorted_map_filter, IH.
  - rewrite Forall_forall. intros y Hy. rewrite in_map_iff in Hy.
    destruct Hy as (z & <- & _). lia.
Qed.

Lemma same_elements_length (l1 l2 : list string) :
  NoDup l1 -> NoDup l2 -> (forall t, In t l1 <-> In t l2) ->
  List.length l1 = List.length l2.
Proof.
  intros H1 H2 Hsame. apply Nat.le_antisymm.
  - apply NoDup_incl_length; [exact H1|]. intros t. apply Hsame.
  - apply NoDup_incl_length; [exact H2|]. intros t. apply Hsame.
Qed.

(** X22.  [_format_metrics] gives the fixed message for an empty list
    and otherwise joins, with line breaks, at most fifteen lines: one
    line for each distinct metric text, written for the first metric of
    the list that carries it, in the order in which these first metrics
    stand in the list, cut after the fifteenth.  With [shown] the first
    metric of each text in list order: the lines built by the loop are
    the lines of [shown], one after the other; the lines joined are
    those of the first fifteen of [shown]; the metrics of [shown] have
    pairwise different texts, every metric text of the list is the text
    of one of them, each is the first of the list with its text, and
    their positions in the list increase; the number of lines is the
    number of distinct texts or 15, whichever is smaller. *)
Theorem format_metrics_lines (metrics : list Metric) :
  let shown := first_of_each metrics in
  _format_metrics metrics
  = match metrics with
    | [] => "No quantitative metrics found."
    | _ => join newline (map metric_line (firstn 15 shown))
    end
  /\ formatted_metrics metrics = map metric_line shown
  /\ metric_lines metrics = map metric_line (firstn 15 shown)
  /\ NoDup (map text shown)
  /\ (forall t, In t (map text shown) <-> In t (map text metrics))
  /\ Forall (first_occurrence metrics) shown
  /\ StronglySorted lt (map (fun m => position metrics (text m)) shown)
  /\ List.length (metric_lines metrics)
     = Nat.min 15 (count_distinct string_dec (map text metrics)).
Proof.
  cbv zeta.
  destruct (first_of_each_kept metrics) as (Hnd & Hsame & Hfirst).
  pose proof (formatted_first_of_each metrics) as Hfm.
  assert (Hl : metric_lines metrics
               = map metric_line (firstn 15 (first_of_each metrics)))
    by (unfold metric_lines; rewrite Hfm; apply firstn_map).
  split.
  { unfold _format_metrics. rewrite Hl. reflexivity. }
  split; [exact Hfm|]. split; [exact Hl|]. split; [exact Hnd|].
  split; [exact Hsame|]. split; [exact Hfirst|].
  split; [apply first_of_each_positions|].
  rewrite Hl, length_map, length_firstn. f_equal.
  unfold count_distinct. rewrite <- (length_map text (first_of_each metrics)).
  apply same_elements_length; [exact Hnd|apply NoDup_nodup|].
  intros t. rewrite nodup_In. apply Hsame.
Qed.

End TemplatesProps.
